(** * A shallow embedding of the VT220 terminal engine (src/term/vt220.cpp)

    The engine is the class [vt220]: a screen of character cells with a
    scrollback log, a cursor, mode flags, a UTF-8 decoder and the escape
    sequence state machine [putch].  Member functions become state
    transformers [vt220 -> vt220] over the record of the member variables;
    a sequence of C++ statements becomes a chain of [let s := ... in].

    Qt painting (update, resize of the widget, emitted signals) is not part
    of the state: it never feeds back into the engine. *)

From stdpp Require Import base numbers list gmap.

Local Open Scope Z_scope.

(** ** Machine integers *)

(** [int] is 32 bits wide.  Sums and differences that involve a value
    supplied by the byte stream are reduced to the two's complement range;
    arithmetic on the screen dimensions stays far inside it. *)
Definition int_wrap (z : Z) : Z := Z.modulo (z + 2 ^ 31) (2 ^ 32) - 2 ^ 31.

Definition uchar (z : Z) : Z := Z.modulo z 256.

(** [qBound(min, val, max)] is [qMax(min, qMin(max, val))]. *)
Definition qBound (lo v hi : Z) : Z := Z.max lo (Z.min hi v).

(** The half-open range [lo, hi) as the values a [for] loop visits. *)
Definition zrange (lo hi : Z) : list Z :=
  map (fun i : nat => lo + Z.of_nat i) (seq 0 (Z.to_nat (hi - lo))).

(** The same range visited downwards: hi-1, hi-2, ..., lo. *)
Definition zrange_down (lo hi : Z) : list Z := rev (zrange lo hi).

(** [for (x = lo; x < hi; x++) body(x)]. *)
Definition for_each {S : Type} (xs : list Z) (body : Z -> S -> S) (s : S) : S :=
  fold_left (fun acc x => body x acc) xs s.

(** [while (n-- > 0) body()]. *)
Definition repeat_n {S : Type} (n : Z) (body : S -> S) (s : S) : S :=
  Nat.iter (Z.to_nat n) body s.

(** Containers are indexed by [int]; a negative index is out of range just
    like one past the end.  Qt leaves an out-of-range [operator[]]
    undefined: the model reads nothing and writes nothing there, and the
    theorems state the bounds under which the source stays in range. *)
Definition zlookup {A : Type} (l : list A) (i : Z) : option A :=
  if decide (0 <= i) then l !! Z.to_nat i else None.

Definition zalter {A : Type} (f : A -> A) (i : Z) (l : list A) : list A :=
  if decide (0 <= i) then alter f (Z.to_nat i) l else l.

Definition zinsert {A : Type} (i : Z) (x : A) (l : list A) : list A :=
  zalter (fun _ => x) i l.

(** ** Cells, lines and the cursor (declared in vt220.h) *)

(** Modelled from the spec: the cell class [vtAttr] is declared in
    vt220.h, which is not part of the sources at hand.  A cell is a code
    point, an attached mark, a display width, two colour indices, the
    character set selection and the boolean style flags. *)
Record vtAttr : Type := Build_vtAttr {
  code : Z;
  mark : Z;
  width : Z;
  fgcolor : Z;
  bgcolor : Z;
  charset : Z;
  gl : Z;
  gr : Z;
  bold : bool;
  faint : bool;
  italic : bool;
  underline : bool;
  underldbl : bool;
  blink : bool;
  inverse : bool;
  conceal : bool;
  crossed : bool
}.

Definition set_code (v : Z) (a : vtAttr) : vtAttr :=
  Build_vtAttr v (mark a) (width a) (fgcolor a) (bgcolor a) (charset a)
    (gl a) (gr a) (bold a) (faint a) (italic a) (underline a) (underldbl a)
    (blink a) (inverse a) (conceal a) (crossed a).

Definition set_mark (v : Z) (a : vtAttr) : vtAttr :=
  Build_vtAttr (code a) v (width a) (fgcolor a) (bgcolor a) (charset a)
    (gl a) (gr a) (bold a) (faint a) (italic a) (underline a) (underldbl a)
    (blink a) (inverse a) (conceal a) (crossed a).

Definition set_width (v : Z) (a : vtAttr) : vtAttr :=
  Build_vtAttr (code a) (mark a) v (fgcolor a) (bgcolor a) (charset a)
    (gl a) (gr a) (bold a) (faint a) (italic a) (underline a) (underldbl a)
    (blink a) (inverse a) (conceal a) (crossed a).

Definition set_charset (v : Z) (a : vtAttr) : vtAttr :=
  Build_vtAttr (code a) (mark a) (width a) (fgcolor a) (bgcolor a) v
    (gl a) (gr a) (bold a) (faint a) (italic a) (underline a) (underldbl a)
    (blink a) (inverse a) (conceal a) (crossed a).

Definition set_gl (v : Z) (a : vtAttr) : vtAttr :=
  Build_vtAttr (code a) (mark a) (width a) (fgcolor a) (bgcolor a)
    (charset a) v (gr a) (bold a) (faint a) (italic a) (underline a)
    (underldbl a) (blink a) (inverse a) (conceal a) (crossed a).

Definition set_gr (v : Z) (a : vtAttr) : vtAttr :=
  Build_vtAttr (code a) (mark a) (width a) (fgcolor a) (bgcolor a)
    (charset a) (gl a) v (bold a) (faint a) (italic a) (underline a)
    (underldbl a) (blink a) (inverse a) (conceal a) (crossed a).

(** A default-constructed cell, as [QVector::resize] pads with. *)
Definition vtAttr_null : vtAttr :=
  Build_vtAttr 0 0 1 0 0 0 0 0 false false false false false false false
    false false.

(** The blank the engine writes when it erases: the current attributes
    with the code of a space and no mark.
    [vtAttr space = m_att; space.set_code(32); space.set_mark(0);] *)
Definition space_of (att : vtAttr) : vtAttr := set_mark 0 (set_code 32 att).

(** Modelled from the spec: the row class [vtLine] of vt220.h, a vector of
    cells with the double-width and double-height flags of the row. *)
Record vtLine : Type := Build_vtLine {
  cells : list vtAttr;
  decdwl : bool;
  decdhl : bool;
  bottom : bool
}.

(** [vtLine(width, attr)]: [width] cells, single width, single height. *)
Definition new_line (w : Z) (a : vtAttr) : vtLine :=
  Build_vtLine (replicate (Z.to_nat w) a) false false false.

(** [set_decshl()] makes the row single height, [set_decswl()] single
    width. *)
Definition set_decshl (l : vtLine) : vtLine :=
  Build_vtLine (cells l) (decdwl l) false false.

Definition set_decswl (l : vtLine) : vtLine :=
  Build_vtLine (cells l) false (decdhl l) (bottom l).

Definition set_decdwl (l : vtLine) : vtLine :=
  Build_vtLine (cells l) true (decdhl l) (bottom l).

Definition set_decdhl (b : bool) (l : vtLine) : vtLine :=
  Build_vtLine (cells l) true true b.

Definition set_cells (cs : list vtAttr) (l : vtLine) : vtLine :=
  Build_vtLine cs (decdwl l) (decdhl l) (bottom l).

(** [line.fill(space, width)]: every cell becomes [a], the size [w]. *)
Definition line_fill (a : vtAttr) (w : Z) (l : vtLine) : vtLine :=
  set_cells (replicate (Z.to_nat w) a) l.

(** [line.resize(width)]: truncate, or pad with default cells. *)
Definition line_resize (w : Z) (l : vtLine) : vtLine :=
  set_cells (take (Z.to_nat w) (cells l)
             ++ replicate (Z.to_nat w - length (cells l))%nat vtAttr_null) l.

(** [line[x]] read, and [line[x] = a]. *)
Definition cell_at (l : vtLine) (x : Z) : option vtAttr := zlookup (cells l) x.

Definition line_set (x : Z) (a : vtAttr) (l : vtLine) : vtLine :=
  set_cells (zinsert x a (cells l)) l.

Record vtCursor : Type := Build_vtCursor {
  cur_x : Z;
  cur_y : Z;
  cur_newx : Z;
  cur_on : bool;
  cur_phase : Z
}.

(** The states of the escape sequence machine. *)
Inductive ESstate : Type :=
| ESnormal | ESesc | ESspc | ESperc | EShash
| ESsetG0_vt200 | ESsetG0_vt500 | ESsetG1_vt200 | ESsetG1_vt500
| ESsetG2_vt200 | ESsetG2_vt500 | ESsetG3_vt200 | ESsetG3_vt500
| EScsi | ESgetargs | ESgotargs | ESosc | ESpalette | ESstring | ESfunckey.

#[global] Instance ESstate_eq_dec : EqDecision ESstate.
Proof. solve_decision. Defined.

(** A character map is a [QHash<uchar, uint>]. *)
Abbreviation cmapHash := (gmap Z Z).

(** [map.value(ch, ch)]: the entry, or the byte itself when there is none. *)
Definition cmap_value (m : cmapHash) (ch : Z) : Z := default ch (m !! ch).

(** ** The engine state: the member variables of [vt220] *)

Record vt220 : Type := Build_vt220 {
  m_backlog_max : Z;
  m_backlog : list vtLine;
  m_screen : list vtLine;
  m_width : Z;
  m_height : Z;
  m_top : Z;
  m_bottom : Z;
  m_pal : list Z;
  m_def : vtAttr;
  m_att : vtAttr;
  m_att_saved : vtAttr;
  m_cursor : vtCursor;
  m_cursor_saved : vtCursor;
  m_cc_mask : Z;
  m_cc_save : Z;
  m_cursor_type : Z;
  m_csi_args : list Z;
  m_tabstop : list bool;
  m_state : ESstate;
  m_deccolm : Z;
  m_ques : bool;
  m_deccm : bool;
  m_decim : bool;
  m_decom : bool;
  m_deccr : bool;
  m_decawm : bool;
  m_dspctrl : bool;
  m_togmeta : bool;
  m_s8c1t : bool;
  m_ansi : Z;
  m_gmaps : list cmapHash;
  m_trans : cmapHash;
  m_shift : Z;
  m_string : list Z;
  m_utf_mode : bool;
  m_utf_more : Z;
  m_utf_code : Z;
  m_utf_code_min : Z
}.

Definition set_m_backlog_max (v : Z) (s : vt220) : vt220 :=
  Build_vt220
    v (m_backlog s) (m_screen s) (m_width s) (m_height s) (m_top s)
    (m_bottom s) (m_pal s) (m_def s) (m_att s) (m_att_saved s) (m_cursor s)
    (m_cursor_saved s) (m_cc_mask s) (m_cc_save s) (m_cursor_type s)
    (m_csi_args s) (m_tabstop s) (m_state s) (m_deccolm s) (m_ques s)
    (m_deccm s) (m_decim s) (m_decom s) (m_deccr s) (m_decawm s)
    (m_dspctrl s) (m_togmeta s) (m_s8c1t s) (m_ansi s) (m_gmaps s)
    (m_trans s) (m_shift s) (m_string s) (m_utf_mode s) (m_utf_more s)
    (m_utf_code s) (m_utf_code_min s).

Definition set_m_backlog (v : list vtLine) (s : vt220) : vt220 :=
  Build_vt220
    (m_backlog_max s) v (m_screen s) (m_width s) (m_height s) (m_top s)
    (m_bottom s) (m_pal s) (m_def s) (m_att s) (m_att_saved s) (m_cursor s)
    (m_cursor_saved s) (m_cc_mask s) (m_cc_save s) (m_cursor_type s)
    (m_csi_args s) (m_tabstop s) (m_state s) (m_deccolm s) (m_ques s)
    (m_deccm s) (m_decim s) (m_decom s) (m_deccr s) (m_decawm s)
    (m_dspctrl s) (m_togmeta s) (m_s8c1t s) (m_ansi s) (m_gmaps s)
    (m_trans s) (m_shift s) (m_string s) (m_utf_mode s) (m_utf_more s)
    (m_utf_code s) (m_utf_code_min s).

Definition set_m_screen (v : list vtLine) (s : vt220) : vt220 :=
  Build_vt220
    (m_backlog_max s) (m_backlog s) v (m_width s) (m_height s) (m_top s)
    (m_bottom s) (m_pal s) (m_def s) (m_att s) (m_att_saved s) (m_cursor s)
    (m_cursor_saved s) (m_cc_mask s) (m_cc_save s) (m_cursor_type s)
    (m_csi_args s) (m_tabstop s) (m_state s) (m_deccolm s) (m_ques s)
    (m_deccm s) (m_decim s) (m_decom s) (m_deccr s) (m_decawm s)
    (m_dspctrl s) (m_togmeta s) (m_s8c1t s) (m_ansi s) (m_gmaps s)
    (m_trans s) (m_shift s) (m_string s) (m_utf_mode s) (m_utf_more s)
    (m_utf_code s) (m_utf_code_min s).

Definition set_m_width (v : Z) (s : vt220) : vt220 :=
  Build_vt220
    (m_backlog_max s) (m_backlog s) (m_screen s) v (m_height s) (m_top s)
    (m_bottom s) (m_pal s) (m_def s) (m_att s) (m_att_saved s) (m_cursor s)
    (m_cursor_saved s) (m_cc_mask s) (m_cc_save s) (m_cursor_type s)
    (m_csi_args s) (m_tabstop s) (m_state s) (m_deccolm s) (m_ques s)
    (m_deccm s) (m_decim s) (m_decom s) (m_deccr s) (m_decawm s)
    (m_dspctrl s) (m_togmeta s) (m_s8c1t s) (m_ansi s) (m_gmaps s)
    (m_trans s) (m_shift s) (m_string s) (m_utf_mode s) (m_utf_more s)
    (m_utf_code s) (m_utf_code_min s).

Definition set_m_height (v : Z) (s : vt220) : vt220 :=
  Build_vt220
    (m_backlog_max s) (m_backlog s) (m_screen s) (m_width s) v (m_top s)
    (m_bottom s) (m_pal s) (m_def s) (m_att s) (m_att_saved s) (m_cursor s)
    (m_cursor_saved s) (m_cc_mask s) (m_cc_save s) (m_cursor_type s)
    (m_csi_args s) (m_tabstop s) (m_state s) (m_deccolm s) (m_ques s)
    (m_deccm s) (m_decim s) (m_decom s) (m_deccr s) (m_decawm s)
    (m_dspctrl s) (m_togmeta s) (m_s8c1t s) (m_ansi s) (m_gmaps s)
    (m_trans s) (m_shift s) (m_string s) (m_utf_mode s) (m_utf_more s)
    (m_utf_code s) (m_utf_code_min s).

Definition set_m_top (v : Z) (s : vt220) : vt220 :=
  Build_vt220
    (m_backlog_max s) (m_backlog s) (m_screen s) (m_width s) (m_height s) v
    (m_bottom s) (m_pal s) (m_def s) (m_att s) (m_att_saved s) (m_cursor s)
    (m_cursor_saved s) (m_cc_mask s) (m_cc_save s) (m_cursor_type s)
    (m_csi_args s) (m_tabstop s) (m_state s) (m_deccolm s) (m_ques s)
    (m_deccm s) (m_decim s) (m_decom s) (m_deccr s) (m_decawm s)
    (m_dspctrl s) (m_togmeta s) (m_s8c1t s) (m_ansi s) (m_gmaps s)
    (m_trans s) (m_shift s) (m_string s) (m_utf_mode s) (m_utf_more s)
    (m_utf_code s) (m_utf_code_min s).

Definition set_m_bottom (v : Z) (s : vt220) : vt220 :=
  Build_vt220
    (m_backlog_max s) (m_backlog s) (m_screen s) (m_width s) (m_height s)
    (m_top s) v (m_pal s) (m_def s) (m_att s) (m_att_saved s) (m_cursor s)
    (m_cursor_saved s) (m_cc_mask s) (m_cc_save s) (m_cursor_type s)
    (m_csi_args s) (m_tabstop s) (m_state s) (m_deccolm s) (m_ques s)
    (m_deccm s) (m_decim s) (m_decom s) (m_deccr s) (m_decawm s)
    (m_dspctrl s) (m_togmeta s) (m_s8c1t s) (m_ansi s) (m_gmaps s)
    (m_trans s) (m_shift s) (m_string s) (m_utf_mode s) (m_utf_more s)
    (m_utf_code s) (m_utf_code_min s).

Definition set_m_pal (v : list Z) (s : vt220) : vt220 :=
  Build_vt220
    (m_backlog_max s) (m_backlog s) (m_screen s) (m_width s) (m_height s)
    (m_top s) (m_bottom s) v (m_def s) (m_att s) (m_att_saved s) (m_cursor s)
    (m_cursor_saved s) (m_cc_mask s) (m_cc_save s) (m_cursor_type s)
    (m_csi_args s) (m_tabstop s) (m_state s) (m_deccolm s) (m_ques s)
    (m_deccm s) (m_decim s) (m_decom s) (m_deccr s) (m_decawm s)
    (m_dspctrl s) (m_togmeta s) (m_s8c1t s) (m_ansi s) (m_gmaps s)
    (m_trans s) (m_shift s) (m_string s) (m_utf_mode s) (m_utf_more s)
    (m_utf_code s) (m_utf_code_min s).

Definition set_m_def (v : vtAttr) (s : vt220) : vt220 :=
  Build_vt220
    (m_backlog_max s) (m_backlog s) (m_screen s) (m_width s) (m_height s)
    (m_top s) (m_bottom s) (m_pal s) v (m_att s) (m_att_saved s) (m_cursor s)
    (m_cursor_saved s) (m_cc_mask s) (m_cc_save s) (m_cursor_type s)
    (m_csi_args s) (m_tabstop s) (m_state s) (m_deccolm s) (m_ques s)
    (m_deccm s) (m_decim s) (m_decom s) (m_deccr s) (m_decawm s)
    (m_dspctrl s) (m_togmeta s) (m_s8c1t s) (m_ansi s) (m_gmaps s)
    (m_trans s) (m_shift s) (m_string s) (m_utf_mode s) (m_utf_more s)
    (m_utf_code s) (m_utf_code_min s).

Definition set_m_att (v : vtAttr) (s : vt220) : vt220 :=
  Build_vt220
    (m_backlog_max s) (m_backlog s) (m_screen s) (m_width s) (m_height s)
    (m_top s) (m_bottom s) (m_pal s) (m_def s) v (m_att_saved s) (m_cursor s)
    (m_cursor_saved s) (m_cc_mask s) (m_cc_save s) (m_cursor_type s)
    (m_csi_args s) (m_tabstop s) (m_state s) (m_deccolm s) (m_ques s)
    (m_deccm s) (m_decim s) (m_decom s) (m_deccr s) (m_decawm s)
    (m_dspctrl s) (m_togmeta s) (m_s8c1t s) (m_ansi s) (m_gmaps s)
    (m_trans s) (m_shift s) (m_string s) (m_utf_mode s) (m_utf_more s)
    (m_utf_code s) (m_utf_code_min s).

Definition set_m_att_saved (v : vtAttr) (s : vt220) : vt220 :=
  Build_vt220
    (m_backlog_max s) (m_backlog s) (m_screen s) (m_width s) (m_height s)
    (m_top s) (m_bottom s) (m_pal s) (m_def s) (m_att s) v (m_cursor s)
    (m_cursor_saved s) (m_cc_mask s) (m_cc_save s) (m_cursor_type s)
    (m_csi_args s) (m_tabstop s) (m_state s) (m_deccolm s) (m_ques s)
    (m_deccm s) (m_decim s) (m_decom s) (m_deccr s) (m_decawm s)
    (m_dspctrl s) (m_togmeta s) (m_s8c1t s) (m_ansi s) (m_gmaps s)
    (m_trans s) (m_shift s) (m_string s) (m_utf_mode s) (m_utf_more s)
    (m_utf_code s) (m_utf_code_min s).

Definition set_m_cursor (v : vtCursor) (s : vt220) : vt220 :=
  Build_vt220
    (m_backlog_max s) (m_backlog s) (m_screen s) (m_width s) (m_height s)
    (m_top s) (m_bottom s) (m_pal s) (m_def s) (m_att s) (m_att_saved s) v
    (m_cursor_saved s) (m_cc_mask s) (m_cc_save s) (m_cursor_type s)
    (m_csi_args s) (m_tabstop s) (m_state s) (m_deccolm s) (m_ques s)
    (m_deccm s) (m_decim s) (m_decom s) (m_deccr s) (m_decawm s)
    (m_dspctrl s) (m_togmeta s) (m_s8c1t s) (m_ansi s) (m_gmaps s)
    (m_trans s) (m_shift s) (m_string s) (m_utf_mode s) (m_utf_more s)
    (m_utf_code s) (m_utf_code_min s).

Definition set_m_cursor_saved (v : vtCursor) (s : vt220) : vt220 :=
  Build_vt220
    (m_backlog_max s) (m_backlog s) (m_screen s) (m_width s) (m_height s)
    (m_top s) (m_bottom s) (m_pal s) (m_def s) (m_att s) (m_att_saved s)
    (m_cursor s) v (m_cc_mask s) (m_cc_save s) (m_cursor_type s)
    (m_csi_args s) (m_tabstop s) (m_state s) (m_deccolm s) (m_ques s)
    (m_deccm s) (m_decim s) (m_decom s) (m_deccr s) (m_decawm s)
    (m_dspctrl s) (m_togmeta s) (m_s8c1t s) (m_ansi s) (m_gmaps s)
    (m_trans s) (m_shift s) (m_string s) (m_utf_mode s) (m_utf_more s)
    (m_utf_code s) (m_utf_code_min s).

Definition set_m_cc_mask (v : Z) (s : vt220) : vt220 :=
  Build_vt220
    (m_backlog_max s) (m_backlog s) (m_screen s) (m_width s) (m_height s)
    (m_top s) (m_bottom s) (m_pal s) (m_def s) (m_att s) (m_att_saved s)
    (m_cursor s) (m_cursor_saved s) v (m_cc_save s) (m_cursor_type s)
    (m_csi_args s) (m_tabstop s) (m_state s) (m_deccolm s) (m_ques s)
    (m_deccm s) (m_decim s) (m_decom s) (m_deccr s) (m_decawm s)
    (m_dspctrl s) (m_togmeta s) (m_s8c1t s) (m_ansi s) (m_gmaps s)
    (m_trans s) (m_shift s) (m_string s) (m_utf_mode s) (m_utf_more s)
    (m_utf_code s) (m_utf_code_min s).

Definition set_m_cc_save (v : Z) (s : vt220) : vt220 :=
  Build_vt220
    (m_backlog_max s) (m_backlog s) (m_screen s) (m_width s) (m_height s)
    (m_top s) (m_bottom s) (m_pal s) (m_def s) (m_att s) (m_att_saved s)
    (m_cursor s) (m_cursor_saved s) (m_cc_mask s) v (m_cursor_type s)
    (m_csi_args s) (m_tabstop s) (m_state s) (m_deccolm s) (m_ques s)
    (m_deccm s) (m_decim s) (m_decom s) (m_deccr s) (m_decawm s)
    (m_dspctrl s) (m_togmeta s) (m_s8c1t s) (m_ansi s) (m_gmaps s)
    (m_trans s) (m_shift s) (m_string s) (m_utf_mode s) (m_utf_more s)
    (m_utf_code s) (m_utf_code_min s).

Definition set_m_cursor_type (v : Z) (s : vt220) : vt220 :=
  Build_vt220
    (m_backlog_max s) (m_backlog s) (m_screen s) (m_width s) (m_height s)
    (m_top s) (m_bottom s) (m_pal s) (m_def s) (m_att s) (m_att_saved s)
    (m_cursor s) (m_cursor_saved s) (m_cc_mask s) (m_cc_save s) v
    (m_csi_args s) (m_tabstop s) (m_state s) (m_deccolm s) (m_ques s)
    (m_deccm s) (m_decim s) (m_decom s) (m_deccr s) (m_decawm s)
    (m_dspctrl s) (m_togmeta s) (m_s8c1t s) (m_ansi s) (m_gmaps s)
    (m_trans s) (m_shift s) (m_string s) (m_utf_mode s) (m_utf_more s)
    (m_utf_code s) (m_utf_code_min s).

Definition set_m_csi_args (v : list Z) (s : vt220) : vt220 :=
  Build_vt220
    (m_backlog_max s) (m_backlog s) (m_screen s) (m_width s) (m_height s)
    (m_top s) (m_bottom s) (m_pal s) (m_def s) (m_att s) (m_att_saved s)
    (m_cursor s) (m_cursor_saved s) (m_cc_mask s) (m_cc_save s)
    (m_cursor_type s) v (m_tabstop s) (m_state s) (m_deccolm s) (m_ques s)
    (m_deccm s) (m_decim s) (m_decom s) (m_deccr s) (m_decawm s)
    (m_dspctrl s) (m_togmeta s) (m_s8c1t s) (m_ansi s) (m_gmaps s)
    (m_trans s) (m_shift s) (m_string s) (m_utf_mode s) (m_utf_more s)
    (m_utf_code s) (m_utf_code_min s).

Definition set_m_tabstop (v : list bool) (s : vt220) : vt220 :=
  Build_vt220
    (m_backlog_max s) (m_backlog s) (m_screen s) (m_width s) (m_height s)
    (m_top s) (m_bottom s) (m_pal s) (m_def s) (m_att s) (m_att_saved s)
    (m_cursor s) (m_cursor_saved s) (m_cc_mask s) (m_cc_save s)
    (m_cursor_type s) (m_csi_args s) v (m_state s) (m_deccolm s) (m_ques s)
    (m_deccm s) (m_decim s) (m_decom s) (m_deccr s) (m_decawm s)
    (m_dspctrl s) (m_togmeta s) (m_s8c1t s) (m_ansi s) (m_gmaps s)
    (m_trans s) (m_shift s) (m_string s) (m_utf_mode s) (m_utf_more s)
    (m_utf_code s) (m_utf_code_min s).

Definition set_m_state (v : ESstate) (s : vt220) : vt220 :=
  Build_vt220
    (m_backlog_max s) (m_backlog s) (m_screen s) (m_width s) (m_height s)
    (m_top s) (m_bottom s) (m_pal s) (m_def s) (m_att s) (m_att_saved s)
    (m_cursor s) (m_cursor_saved s) (m_cc_mask s) (m_cc_save s)
    (m_cursor_type s) (m_csi_args s) (m_tabstop s) v (m_deccolm s) (m_ques s)
    (m_deccm s) (m_decim s) (m_decom s) (m_deccr s) (m_decawm s)
    (m_dspctrl s) (m_togmeta s) (m_s8c1t s) (m_ansi s) (m_gmaps s)
    (m_trans s) (m_shift s) (m_string s) (m_utf_mode s) (m_utf_more s)
    (m_utf_code s) (m_utf_code_min s).

Definition set_m_deccolm (v : Z) (s : vt220) : vt220 :=
  Build_vt220
    (m_backlog_max s) (m_backlog s) (m_screen s) (m_width s) (m_height s)
    (m_top s) (m_bottom s) (m_pal s) (m_def s) (m_att s) (m_att_saved s)
    (m_cursor s) (m_cursor_saved s) (m_cc_mask s) (m_cc_save s)
    (m_cursor_type s) (m_csi_args s) (m_tabstop s) (m_state s) v (m_ques s)
    (m_deccm s) (m_decim s) (m_decom s) (m_deccr s) (m_decawm s)
    (m_dspctrl s) (m_togmeta s) (m_s8c1t s) (m_ansi s) (m_gmaps s)
    (m_trans s) (m_shift s) (m_string s) (m_utf_mode s) (m_utf_more s)
    (m_utf_code s) (m_utf_code_min s).

Definition set_m_ques (v : bool) (s : vt220) : vt220 :=
  Build_vt220
    (m_backlog_max s) (m_backlog s) (m_screen s) (m_width s) (m_height s)
    (m_top s) (m_bottom s) (m_pal s) (m_def s) (m_att s) (m_att_saved s)
    (m_cursor s) (m_cursor_saved s) (m_cc_mask s) (m_cc_save s)
    (m_cursor_type s) (m_csi_args s) (m_tabstop s) (m_state s) (m_deccolm s)
    v (m_deccm s) (m_decim s) (m_decom s) (m_deccr s) (m_decawm s)
    (m_dspctrl s) (m_togmeta s) (m_s8c1t s) (m_ansi s) (m_gmaps s)
    (m_trans s) (m_shift s) (m_string s) (m_utf_mode s) (m_utf_more s)
    (m_utf_code s) (m_utf_code_min s).

Definition set_m_deccm (v : bool) (s : vt220) : vt220 :=
  Build_vt220
    (m_backlog_max s) (m_backlog s) (m_screen s) (m_width s) (m_height s)
    (m_top s) (m_bottom s) (m_pal s) (m_def s) (m_att s) (m_att_saved s)
    (m_cursor s) (m_cursor_saved s) (m_cc_mask s) (m_cc_save s)
    (m_cursor_type s) (m_csi_args s) (m_tabstop s) (m_state s) (m_deccolm s)
    (m_ques s) v (m_decim s) (m_decom s) (m_deccr s) (m_decawm s)
    (m_dspctrl s) (m_togmeta s) (m_s8c1t s) (m_ansi s) (m_gmaps s)
    (m_trans s) (m_shift s) (m_string s) (m_utf_mode s) (m_utf_more s)
    (m_utf_code s) (m_utf_code_min s).

Definition set_m_decim (v : bool) (s : vt220) : vt220 :=
  Build_vt220
    (m_backlog_max s) (m_backlog s) (m_screen s) (m_width s) (m_height s)
    (m_top s) (m_bottom s) (m_pal s) (m_def s) (m_att s) (m_att_saved s)
    (m_cursor s) (m_cursor_saved s) (m_cc_mask s) (m_cc_save s)
    (m_cursor_type s) (m_csi_args s) (m_tabstop s) (m_state s) (m_deccolm s)
    (m_ques s) (m_deccm s) v (m_decom s) (m_deccr s) (m_decawm s)
    (m_dspctrl s) (m_togmeta s) (m_s8c1t s) (m_ansi s) (m_gmaps s)
    (m_trans s) (m_shift s) (m_string s) (m_utf_mode s) (m_utf_more s)
    (m_utf_code s) (m_utf_code_min s).

Definition set_m_decom (v : bool) (s : vt220) : vt220 :=
  Build_vt220
    (m_backlog_max s) (m_backlog s) (m_screen s) (m_width s) (m_height s)
    (m_top s) (m_bottom s) (m_pal s) (m_def s) (m_att s) (m_att_saved s)
    (m_cursor s) (m_cursor_saved s) (m_cc_mask s) (m_cc_save s)
    (m_cursor_type s) (m_csi_args s) (m_tabstop s) (m_state s) (m_deccolm s)
    (m_ques s) (m_deccm s) (m_decim s) v (m_deccr s) (m_decawm s)
    (m_dspctrl s) (m_togmeta s) (m_s8c1t s) (m_ansi s) (m_gmaps s)
    (m_trans s) (m_shift s) (m_string s) (m_utf_mode s) (m_utf_more s)
    (m_utf_code s) (m_utf_code_min s).

Definition set_m_deccr (v : bool) (s : vt220) : vt220 :=
  Build_vt220
    (m_backlog_max s) (m_backlog s) (m_screen s) (m_width s) (m_height s)
    (m_top s) (m_bottom s) (m_pal s) (m_def s) (m_att s) (m_att_saved s)
    (m_cursor s) (m_cursor_saved s) (m_cc_mask s) (m_cc_save s)
    (m_cursor_type s) (m_csi_args s) (m_tabstop s) (m_state s) (m_deccolm s)
    (m_ques s) (m_deccm s) (m_decim s) (m_decom s) v (m_decawm s)
    (m_dspctrl s) (m_togmeta s) (m_s8c1t s) (m_ansi s) (m_gmaps s)
    (m_trans s) (m_shift s) (m_string s) (m_utf_mode s) (m_utf_more s)
    (m_utf_code s) (m_utf_code_min s).

Definition set_m_decawm (v : bool) (s : vt220) : vt220 :=
  Build_vt220
    (m_backlog_max s) (m_backlog s) (m_screen s) (m_width s) (m_height s)
    (m_top s) (m_bottom s) (m_pal s) (m_def s) (m_att s) (m_att_saved s)
    (m_cursor s) (m_cursor_saved s) (m_cc_mask s) (m_cc_save s)
    (m_cursor_type s) (m_csi_args s) (m_tabstop s) (m_state s) (m_deccolm s)
    (m_ques s) (m_deccm s) (m_decim s) (m_decom s) (m_deccr s) v
    (m_dspctrl s) (m_togmeta s) (m_s8c1t s) (m_ansi s) (m_gmaps s)
    (m_trans s) (m_shift s) (m_string s) (m_utf_mode s) (m_utf_more s)
    (m_utf_code s) (m_utf_code_min s).

Definition set_m_dspctrl (v : bool) (s : vt220) : vt220 :=
  Build_vt220
    (m_backlog_max s) (m_backlog s) (m_screen s) (m_width s) (m_height s)
    (m_top s) (m_bottom s) (m_pal s) (m_def s) (m_att s) (m_att_saved s)
    (m_cursor s) (m_cursor_saved s) (m_cc_mask s) (m_cc_save s)
    (m_cursor_type s) (m_csi_args s) (m_tabstop s) (m_state s) (m_deccolm s)
    (m_ques s) (m_deccm s) (m_decim s) (m_decom s) (m_deccr s) (m_decawm s) v
    (m_togmeta s) (m_s8c1t s) (m_ansi s) (m_gmaps s) (m_trans s) (m_shift s)
    (m_string s) (m_utf_mode s) (m_utf_more s) (m_utf_code s)
    (m_utf_code_min s).

Definition set_m_togmeta (v : bool) (s : vt220) : vt220 :=
  Build_vt220
    (m_backlog_max s) (m_backlog s) (m_screen s) (m_width s) (m_height s)
    (m_top s) (m_bottom s) (m_pal s) (m_def s) (m_att s) (m_att_saved s)
    (m_cursor s) (m_cursor_saved s) (m_cc_mask s) (m_cc_save s)
    (m_cursor_type s) (m_csi_args s) (m_tabstop s) (m_state s) (m_deccolm s)
    (m_ques s) (m_deccm s) (m_decim s) (m_decom s) (m_deccr s) (m_decawm s)
    (m_dspctrl s) v (m_s8c1t s) (m_ansi s) (m_gmaps s) (m_trans s)
    (m_shift s) (m_string s) (m_utf_mode s) (m_utf_more s) (m_utf_code s)
    (m_utf_code_min s).

Definition set_m_s8c1t (v : bool) (s : vt220) : vt220 :=
  Build_vt220
    (m_backlog_max s) (m_backlog s) (m_screen s) (m_width s) (m_height s)
    (m_top s) (m_bottom s) (m_pal s) (m_def s) (m_att s) (m_att_saved s)
    (m_cursor s) (m_cursor_saved s) (m_cc_mask s) (m_cc_save s)
    (m_cursor_type s) (m_csi_args s) (m_tabstop s) (m_state s) (m_deccolm s)
    (m_ques s) (m_deccm s) (m_decim s) (m_decom s) (m_deccr s) (m_decawm s)
    (m_dspctrl s) (m_togmeta s) v (m_ansi s) (m_gmaps s) (m_trans s)
    (m_shift s) (m_string s) (m_utf_mode s) (m_utf_more s) (m_utf_code s)
    (m_utf_code_min s).

Definition set_m_ansi (v : Z) (s : vt220) : vt220 :=
  Build_vt220
    (m_backlog_max s) (m_backlog s) (m_screen s) (m_width s) (m_height s)
    (m_top s) (m_bottom s) (m_pal s) (m_def s) (m_att s) (m_att_saved s)
    (m_cursor s) (m_cursor_saved s) (m_cc_mask s) (m_cc_save s)
    (m_cursor_type s) (m_csi_args s) (m_tabstop s) (m_state s) (m_deccolm s)
    (m_ques s) (m_deccm s) (m_decim s) (m_decom s) (m_deccr s) (m_decawm s)
    (m_dspctrl s) (m_togmeta s) (m_s8c1t s) v (m_gmaps s) (m_trans s)
    (m_shift s) (m_string s) (m_utf_mode s) (m_utf_more s) (m_utf_code s)
    (m_utf_code_min s).

Definition set_m_gmaps (v : list cmapHash) (s : vt220) : vt220 :=
  Build_vt220
    (m_backlog_max s) (m_backlog s) (m_screen s) (m_width s) (m_height s)
    (m_top s) (m_bottom s) (m_pal s) (m_def s) (m_att s) (m_att_saved s)
    (m_cursor s) (m_cursor_saved s) (m_cc_mask s) (m_cc_save s)
    (m_cursor_type s) (m_csi_args s) (m_tabstop s) (m_state s) (m_deccolm s)
    (m_ques s) (m_deccm s) (m_decim s) (m_decom s) (m_deccr s) (m_decawm s)
    (m_dspctrl s) (m_togmeta s) (m_s8c1t s) (m_ansi s) v (m_trans s)
    (m_shift s) (m_string s) (m_utf_mode s) (m_utf_more s) (m_utf_code s)
    (m_utf_code_min s).

Definition set_m_trans (v : cmapHash) (s : vt220) : vt220 :=
  Build_vt220
    (m_backlog_max s) (m_backlog s) (m_screen s) (m_width s) (m_height s)
    (m_top s) (m_bottom s) (m_pal s) (m_def s) (m_att s) (m_att_saved s)
    (m_cursor s) (m_cursor_saved s) (m_cc_mask s) (m_cc_save s)
    (m_cursor_type s) (m_csi_args s) (m_tabstop s) (m_state s) (m_deccolm s)
    (m_ques s) (m_deccm s) (m_decim s) (m_decom s) (m_deccr s) (m_decawm s)
    (m_dspctrl s) (m_togmeta s) (m_s8c1t s) (m_ansi s) (m_gmaps s) v
    (m_shift s) (m_string s) (m_utf_mode s) (m_utf_more s) (m_utf_code s)
    (m_utf_code_min s).

Definition set_m_shift (v : Z) (s : vt220) : vt220 :=
  Build_vt220
    (m_backlog_max s) (m_backlog s) (m_screen s) (m_width s) (m_height s)
    (m_top s) (m_bottom s) (m_pal s) (m_def s) (m_att s) (m_att_saved s)
    (m_cursor s) (m_cursor_saved s) (m_cc_mask s) (m_cc_save s)
    (m_cursor_type s) (m_csi_args s) (m_tabstop s) (m_state s) (m_deccolm s)
    (m_ques s) (m_deccm s) (m_decim s) (m_decom s) (m_deccr s) (m_decawm s)
    (m_dspctrl s) (m_togmeta s) (m_s8c1t s) (m_ansi s) (m_gmaps s)
    (m_trans s) v (m_string s) (m_utf_mode s) (m_utf_more s) (m_utf_code s)
    (m_utf_code_min s).

Definition set_m_string (v : list Z) (s : vt220) : vt220 :=
  Build_vt220
    (m_backlog_max s) (m_backlog s) (m_screen s) (m_width s) (m_height s)
    (m_top s) (m_bottom s) (m_pal s) (m_def s) (m_att s) (m_att_saved s)
    (m_cursor s) (m_cursor_saved s) (m_cc_mask s) (m_cc_save s)
    (m_cursor_type s) (m_csi_args s) (m_tabstop s) (m_state s) (m_deccolm s)
    (m_ques s) (m_deccm s) (m_decim s) (m_decom s) (m_deccr s) (m_decawm s)
    (m_dspctrl s) (m_togmeta s) (m_s8c1t s) (m_ansi s) (m_gmaps s)
    (m_trans s) (m_shift s) v (m_utf_mode s) (m_utf_more s) (m_utf_code s)
    (m_utf_code_min s).

Definition set_m_utf_mode (v : bool) (s : vt220) : vt220 :=
  Build_vt220
    (m_backlog_max s) (m_backlog s) (m_screen s) (m_width s) (m_height s)
    (m_top s) (m_bottom s) (m_pal s) (m_def s) (m_att s) (m_att_saved s)
    (m_cursor s) (m_cursor_saved s) (m_cc_mask s) (m_cc_save s)
    (m_cursor_type s) (m_csi_args s) (m_tabstop s) (m_state s) (m_deccolm s)
    (m_ques s) (m_deccm s) (m_decim s) (m_decom s) (m_deccr s) (m_decawm s)
    (m_dspctrl s) (m_togmeta s) (m_s8c1t s) (m_ansi s) (m_gmaps s)
    (m_trans s) (m_shift s) (m_string s) v (m_utf_more s) (m_utf_code s)
    (m_utf_code_min s).

Definition set_m_utf_more (v : Z) (s : vt220) : vt220 :=
  Build_vt220
    (m_backlog_max s) (m_backlog s) (m_screen s) (m_width s) (m_height s)
    (m_top s) (m_bottom s) (m_pal s) (m_def s) (m_att s) (m_att_saved s)
    (m_cursor s) (m_cursor_saved s) (m_cc_mask s) (m_cc_save s)
    (m_cursor_type s) (m_csi_args s) (m_tabstop s) (m_state s) (m_deccolm s)
    (m_ques s) (m_deccm s) (m_decim s) (m_decom s) (m_deccr s) (m_decawm s)
    (m_dspctrl s) (m_togmeta s) (m_s8c1t s) (m_ansi s) (m_gmaps s)
    (m_trans s) (m_shift s) (m_string s) (m_utf_mode s) v (m_utf_code s)
    (m_utf_code_min s).

Definition set_m_utf_code (v : Z) (s : vt220) : vt220 :=
  Build_vt220
    (m_backlog_max s) (m_backlog s) (m_screen s) (m_width s) (m_height s)
    (m_top s) (m_bottom s) (m_pal s) (m_def s) (m_att s) (m_att_saved s)
    (m_cursor s) (m_cursor_saved s) (m_cc_mask s) (m_cc_save s)
    (m_cursor_type s) (m_csi_args s) (m_tabstop s) (m_state s) (m_deccolm s)
    (m_ques s) (m_deccm s) (m_decim s) (m_decom s) (m_deccr s) (m_decawm s)
    (m_dspctrl s) (m_togmeta s) (m_s8c1t s) (m_ansi s) (m_gmaps s)
    (m_trans s) (m_shift s) (m_string s) (m_utf_mode s) (m_utf_more s) v
    (m_utf_code_min s).

Definition set_m_utf_code_min (v : Z) (s : vt220) : vt220 :=
  Build_vt220
    (m_backlog_max s) (m_backlog s) (m_screen s) (m_width s) (m_height s)
    (m_top s) (m_bottom s) (m_pal s) (m_def s) (m_att s) (m_att_saved s)
    (m_cursor s) (m_cursor_saved s) (m_cc_mask s) (m_cc_save s)
    (m_cursor_type s) (m_csi_args s) (m_tabstop s) (m_state s) (m_deccolm s)
    (m_ques s) (m_deccm s) (m_decim s) (m_decom s) (m_deccr s) (m_decawm s)
    (m_dspctrl s) (m_togmeta s) (m_s8c1t s) (m_ansi s) (m_gmaps s)
    (m_trans s) (m_shift s) (m_string s) (m_utf_mode s) (m_utf_more s)
    (m_utf_code s) v.
Definition set_cur_x (v : Z) (c : vtCursor) : vtCursor :=
  Build_vtCursor v (cur_y c) (cur_newx c) (cur_on c) (cur_phase c).

Definition set_cur_y (v : Z) (c : vtCursor) : vtCursor :=
  Build_vtCursor (cur_x c) v (cur_newx c) (cur_on c) (cur_phase c).

Definition set_cur_newx (v : Z) (c : vtCursor) : vtCursor :=
  Build_vtCursor (cur_x c) (cur_y c) v (cur_on c) (cur_phase c).

Definition set_cur_on (v : bool) (c : vtCursor) : vtCursor :=
  Build_vtCursor (cur_x c) (cur_y c) (cur_newx c) v (cur_phase c).

(** [m_cursor.x = v], [m_cursor.y = v], [m_cursor.newx = v]. *)
Definition set_x (v : Z) (s : vt220) : vt220 :=
  set_m_cursor (set_cur_x v (m_cursor s)) s.

Definition set_y (v : Z) (s : vt220) : vt220 :=
  set_m_cursor (set_cur_y v (m_cursor s)) s.

Definition cx (s : vt220) : Z := cur_x (m_cursor s).
Definition cy (s : vt220) : Z := cur_y (m_cursor s).
Definition cnewx (s : vt220) : Z := cur_newx (m_cursor s).

(** [m_screen[y]] and [m_screen[y][x]] as values. *)
Definition screen_line (s : vt220) (y : Z) : option vtLine :=
  zlookup (m_screen s) y.

Definition screen_cell (s : vt220) (x y : Z) : option vtAttr :=
  match screen_line s y with
  | Some l => cell_at l x
  | None => None
  end.

(** [m_screen[y][x] = a]. *)
Definition screen_set (x y : Z) (a : vtAttr) (s : vt220) : vt220 :=
  set_m_screen (zalter (line_set x a) y (m_screen s)) s.

(** [m_screen[dst] = m_screen[src]]. *)
Definition screen_copy_line (dst src : Z) (s : vt220) : vt220 :=
  match screen_line s src with
  | Some l => set_m_screen (zinsert dst l (m_screen s)) s
  | None => s
  end.

(** ** The screen buffer *)

(** [vt220::add_backlog]: append the line, drop the oldest once the log is
    longer than [m_backlog_max]. *)
Definition add_backlog (line : vtLine) (s : vt220) : vt220 :=
  let bl := m_backlog s ++ [line] in
  if decide (Z.of_nat (length bl) > m_backlog_max s)
  then set_m_backlog (tail bl) s
  else set_m_backlog bl s.

(** [vt220::outch]: store a cell, ignoring positions off the screen. *)
Definition outch (x y : Z) (pa : vtAttr) (s : vt220) : vt220 :=
  if decide (x < 0 \/ x >= m_width s) then s
  else if decide (y < 0 \/ y >= m_height s) then s
  else screen_set x y pa s.

(** [vt220::zap]: fill from (x0,y0) to (x1,y1); after the first row the
    column range is reset to the whole row. *)
Definition zap (x0 y0 x1 y1 : Z) (c : Z) (s : vt220) : vt220 :=
  let space := set_mark 0 (set_code c (m_att s)) in
  for_each (zrange y0 (y1 + 1))
    (fun y s =>
       let a := if decide (y = y0) then x0 else 0 in
       let b := if decide (y = y0) then x1 else m_width s - 1 in
       for_each (zrange a (b + 1)) (fun x s => screen_set x y space s) s)
    s.

(** [vt220::set_cursor]: only the visibility flag is engine state. *)
Definition set_cursor (on : bool) (s : vt220) : vt220 :=
  if decide (cy s < 0 \/ cy s >= m_height s) then s
  else if decide (cnewx s < 0 \/ cnewx s >= m_width s) then s
  else
    let on := if m_deccm s then on else false in
    set_m_cursor (set_cur_on on (m_cursor s)) s.

(** [vt220::set_newx] *)
Definition set_newx (newx : Z) (s : vt220) : vt220 :=
  let s := set_cursor false s in
  let s := set_m_cursor (set_cur_newx newx (m_cursor s)) s in
  if decide (cy s < 0 \/ cy s >= m_height s) then s
  else if decide (cnewx s < 0 \/ cnewx s >= m_width s) then s
  else set_cursor (cur_on (m_cursor s)) s.

(** The blank line a scroll brings in: single height, single width, every
    cell the current blank. *)
Definition blank_line (s : vt220) (l : vtLine) : vtLine :=
  line_fill (space_of (m_att s)) (m_width s) (set_decswl (set_decshl l)).

(** [vt220::vt_scroll_dn] *)
Definition vt_scroll_dn (s : vt220) : vt220 :=
  let s := for_each (zrange_down (m_top s + 1) (m_bottom s))
             (fun y s => screen_copy_line y (y - 1) s) s in
  set_m_screen (zalter (blank_line s) (m_top s) (m_screen s)) s.

(** [vt220::vt_scroll_up] *)
Definition vt_scroll_up (s : vt220) : vt220 :=
  let s :=
    if decide (0 = m_top s /\ m_height s = m_bottom s) then
      match screen_line s 0 with
      | Some l => add_backlog l s
      | None => s
      end
    else s in
  let s := for_each (zrange (m_top s) (m_bottom s - 1))
             (fun y s => screen_copy_line y (y + 1) s) s in
  set_m_screen (zalter (blank_line s) (m_bottom s - 1) (m_screen s)) s.

(** ** C0 controls *)

(** [vt220::vt_CR] *)
Definition vt_CR (s : vt220) : vt220 :=
  let was_on := cur_on (m_cursor s) in
  let s := set_cursor false s in
  let s := set_newx 0 s in
  let s := set_x (cnewx s) s in
  set_cursor was_on s.

(** [vt220::vt_LF]: scroll at the bottom margin, otherwise step down. *)
Definition vt_LF (s : vt220) : vt220 :=
  let was_on := cur_on (m_cursor s) in
  let s := set_cursor false s in
  let s :=
    if decide (cy s + 1 >= m_bottom s) then vt_scroll_up s
    else if decide (cy s < m_height s - 1) then set_y (cy s + 1) s
    else s in
  set_cursor was_on s.

(** [vt220::vt_BS] *)
Definition vt_BS (s : vt220) : vt220 :=
  let was_on := cur_on (m_cursor s) in
  let s := set_cursor false s in
  let s := set_x (cnewx s) s in
  let s := if decide (cx s > 0) then set_newx (cx s - 1) s else s in
  let s := set_x (cnewx s) s in
  set_cursor was_on s.

(** The loop of [vt_TAB]: blank cells up to the next tab stop; it ends at
    the last column at the latest, so [m_width] rounds suffice. *)
Fixpoint tab_loop (fuel : nat) (space : vtAttr) (s : vt220) : vt220 :=
  match fuel with
  | O => s
  | S k =>
      if decide (cnewx s < m_width s - 1) then
        let s := outch (cnewx s) (cy s) space s in
        let s := set_m_cursor (set_cur_newx (cnewx s + 1) (m_cursor s)) s in
        if decide (cnewx s >= Z.of_nat (length (m_tabstop s))
                   \/ zlookup (m_tabstop s) (cnewx s) = Some true)
        then s
        else tab_loop k space s
      else s
  end.

(** [vt220::vt_TAB] *)
Definition vt_TAB (s : vt220) : vt220 :=
  let s :=
    if decide (cnewx s >= m_width s) then
      if m_decawm s then vt_LF (vt_CR s)
      else set_m_cursor (set_cur_newx (m_width s) (m_cursor s)) s
    else s in
  if decide (cnewx s >= m_width s) then s
  else
    let s := set_x (cnewx s) s in
    let space := space_of (m_att s) in
    let s := tab_loop (Z.to_nat (m_width s)) space s in
    set_newx (cnewx s) s.

(** [vt220::vt_RI]: scroll down at the top margin, otherwise step up. *)
Definition vt_RI (s : vt220) : vt220 :=
  let was_on := cur_on (m_cursor s) in
  let s := set_cursor false s in
  let s :=
    if decide (cy s <= m_top s) then set_y (m_top s) (vt_scroll_dn s)
    else if decide (cy s > 0) then set_y (cy s - 1) s
    else s in
  set_cursor was_on s.

(** [vt220::vt_IND] *)
Definition vt_IND (s : vt220) : vt220 :=
  let was_on := cur_on (m_cursor s) in
  let s := set_cursor false s in
  let s :=
    if decide (cy s + 1 >= m_bottom s)
    then set_y (m_bottom s - 1) (vt_scroll_up s)
    else if decide (cy s < m_height s - 1) then set_y (cy s + 1) s
    else s in
  set_cursor was_on s.

(** [vt220::vt_NEL]: carriage return, then line feed. *)
Definition vt_NEL (s : vt220) : vt220 := vt_LF (vt_CR s).

(** [vt220::vt_HTS] *)
Definition vt_HTS (s : vt220) : vt220 :=
  if decide (cnewx s < Z.of_nat (length (m_tabstop s)))
  then set_m_tabstop (zinsert (cnewx s) true (m_tabstop s)) s
  else s.

(** [vt220::vt_VT] *)
Definition vt_VT (s : vt220) : vt220 :=
  let was_on := cur_on (m_cursor s) in
  let s := set_cursor false s in
  let s :=
    if decide (cy s = m_top s) then vt_scroll_dn s
    else if decide (cy s > 0) then set_y (cy s - 1) s
    else s in
  set_cursor was_on s.

(** [vt220::vt_FF] *)
Definition vt_FF (s : vt220) : vt220 :=
  let was_on := cur_on (m_cursor s) in
  let s := set_cursor false s in
  let s := repeat_n (m_height s) vt_scroll_up s in
  let s := set_y (m_bottom s - 1) s in
  set_cursor was_on s.

(** ** Character set shifts *)

Definition gmaps_at (s : vt220) (i : Z) : cmapHash :=
  default ∅ (zlookup (m_gmaps s) i).

(** [vt_LS0] .. [vt_LS3]: invoke G0..G3 as GL. *)
Definition vt_LSn (n : Z) (dspctrl : bool) (s : vt220) : vt220 :=
  let s := set_m_att (set_gl n (m_att s)) s in
  let s := set_m_att (set_charset (gl (m_att s)) (m_att s)) s in
  let s := set_m_dspctrl dspctrl s in
  set_m_trans (gmaps_at s (charset (m_att s))) s.

Definition vt_LS0 : vt220 -> vt220 := vt_LSn 0 false.
Definition vt_LS1 : vt220 -> vt220 := vt_LSn 1 true.
Definition vt_LS2 : vt220 -> vt220 := vt_LSn 2 true.
Definition vt_LS3 : vt220 -> vt220 := vt_LSn 3 true.

(** [vt_LS1R] .. [vt_LS3R]: invoke G1..G3 as GR. *)
Definition vt_LSnR (n : Z) (s : vt220) : vt220 :=
  let s := set_m_att (set_gr n (m_att s)) s in
  let s := set_m_att (set_charset (gr (m_att s)) (m_att s)) s in
  set_m_dspctrl true s.

(** [vt_SS2], [vt_SS3]: single shift. *)
Definition vt_SSn (n : Z) (s : vt220) : vt220 :=
  let s := set_m_shift (charset (m_att s)) s in
  let s := set_m_att (set_charset n (m_att s)) s in
  let s := set_m_trans (gmaps_at s (charset (m_att s))) s in
  set_m_dspctrl true s.

(** [vt_SOS], [vt_ST], [vt_PM], [vt_APC] *)
Definition vt_SOS (s : vt220) : vt220 :=
  set_m_state ESstring (set_m_string [] s).

Definition vt_ST (s : vt220) : vt220 := set_m_state ESnormal s.
Definition vt_PM (s : vt220) : vt220 := set_m_state ESnormal s.
Definition vt_APC (s : vt220) : vt220 := set_m_state ESnormal s.

(** ** Cursor movement *)

(** [vt220::vt_CUP]: the absolute positioning primitive.  The column is
    clamped to the screen, the row to the scroll region in origin mode
    and to the screen otherwise. *)
Definition vt_CUP (x y : Z) (s : vt220) : vt220 :=
  let s :=
    if decide (x < 0) then set_x 0 (set_newx 0 s)
    else
      let s := if decide (x >= m_width s) then set_newx (m_width s - 1) s
               else set_newx x s in
      set_x (cnewx s) s in
  let miny := if m_decom s then m_top s else 0 in
  let maxy := if m_decom s then m_bottom s - 1 else m_height s - 1 in
  set_y (qBound miny y maxy) s.

(** [vt220::vt_CUU] *)
Definition vt_CUU (n : Z) (s : vt220) : vt220 :=
  let y := int_wrap (cy s - n) in
  let s := set_x (cnewx s) s in
  vt_CUP (cx s) y s.

(** [vt220::vt_CUD] *)
Definition vt_CUD (n : Z) (s : vt220) : vt220 :=
  let y := int_wrap (cy s + n) in
  let s := set_x (cnewx s) s in
  vt_CUP (cx s) y s.

(** [vt220::vt_CUF] *)
Definition vt_CUF (n : Z) (s : vt220) : vt220 :=
  let x := int_wrap (cnewx s + n) in
  vt_CUP x (cy s) s.

(** [vt220::vt_CUB] *)
Definition vt_CUB (n : Z) (s : vt220) : vt220 :=
  let x := int_wrap (cnewx s - n) in
  vt_CUP x (cy s) s.

(** [vt220::vt_CHA] *)
Definition vt_CHA (n : Z) (s : vt220) : vt220 := vt_CUP n (cy s) s.

(** [vt220::vt_CNL]: [n] times next line. *)
Definition vt_CNL (n : Z) (s : vt220) : vt220 := repeat_n n vt_NEL s.

(** [vt220::vt_CPL]: [n] times reverse index. *)
Definition vt_CPL (n : Z) (s : vt220) : vt220 := repeat_n n vt_RI s.

(** [vt220::vt_CHT] *)
Definition vt_CHT (n : Z) (s : vt220) : vt220 := repeat_n n vt_TAB s.

(** [vt220::vt_CUA] *)
Definition vt_CUA (x y : Z) (s : vt220) : vt220 :=
  vt_CUP x (if m_decom s then int_wrap (m_top s + y) else y) s.

(** ** Erasing, inserting and deleting *)

(** [vt220::vt_ED] *)
Definition vt_ED (n : Z) (s : vt220) : vt220 :=
  let s := set_x (cnewx s) s in
  if decide (n = 0) then zap (cx s) (cy s) (m_width s - 1) (m_height s - 1) 32 s
  else if decide (n = 1) then zap 0 0 (cx s) (cy s) 32 s
  else if decide (n = 2) then zap 0 0 (m_width s - 1) (m_height s - 1) 32 s
  else s.

(** [vt220::vt_EL] *)
Definition vt_EL (n : Z) (s : vt220) : vt220 :=
  let s := set_x (cnewx s) s in
  if decide (n = 0) then zap (cx s) (cy s) (m_width s - 1) (cy s) 32 s
  else if decide (n = 1) then zap 0 (cy s) (cx s) (cy s) 32 s
  else if decide (n = 2) then zap 0 (cy s) (m_width s - 1) (cy s) 32 s
  else s.

(** [vt220::vt_IL]: scroll down from the cursor row. *)
Definition vt_IL (n : Z) (s : vt220) : vt220 :=
  let top := m_top s in
  let s := set_x (cnewx s) s in
  let s := set_m_top (cy s) s in
  let s := repeat_n n vt_scroll_dn s in
  set_m_top top s.

(** [vt220::vt_DL]: scroll up from the cursor row. *)
Definition vt_DL (n : Z) (s : vt220) : vt220 :=
  let top := m_top s in
  let s := set_x (cnewx s) s in
  let s := set_m_top (cy s) s in
  let s := repeat_n n vt_scroll_up s in
  set_m_top top s.

(** [outch(x, y, m_screen[y][x'])] *)
Definition outch_from (x x' y : Z) (s : vt220) : vt220 :=
  match screen_cell s x' y with
  | Some a => outch x y a s
  | None => s
  end.

(** [vt220::vt_ICH] *)
Definition vt_ICH (n : Z) (s : vt220) : vt220 :=
  let s := set_x (cnewx s) s in
  repeat_n n
    (fun s =>
       let s := for_each (zrange_down (cx s + 1) (m_width s))
                  (fun x s => outch_from x (x - 1) (cy s) s) s in
       outch (cx s) (cy s) (space_of (m_att s)) s)
    s.

(** [vt220::vt_DCH] *)
Definition vt_DCH (n : Z) (s : vt220) : vt220 :=
  let s := set_x (cnewx s) s in
  repeat_n n
    (fun s =>
       let s := for_each (zrange (cx s) (m_width s - 1))
                  (fun x s => outch_from x (x + 1) (cy s) s) s in
       outch (m_width s - 1) (cy s) (space_of (m_att s)) s)
    s.

(** [vt220::vt_ECH]: the last cell of the row is blanked first, then the
    cells from the cursor on, as long as [x < m_cursor.x + n] and
    [x < m_width]. *)
Definition vt_ECH (n : Z) (s : vt220) : vt220 :=
  let s := set_x (cnewx s) s in
  let space := space_of (m_att s) in
  let s := outch (m_width s - 1) (cy s) space s in
  for_each (zrange (cx s) (Z.min (int_wrap (cx s + n)) (m_width s)))
    (fun x s => outch x (cy s) space s) s.

(** ** Tab stops, size, save and restore *)

(** [vt220::vt_tabstop_reset]: 256 bits, one set at 8, 16, ..., 248. *)
Definition vt_tabstop_reset (s : vt220) : vt220 :=
  let ts := replicate 256 false in
  let ts := for_each (map (fun i : nat => 8 + 8 * Z.of_nat i) (seq 0 31))
              (fun i ts => zinsert i true ts) ts in
  set_m_tabstop ts s.

(** The column loop of [term_set_size] on one line. *)
Definition resize_line (old_w w : Z) (line : vtLine) : vtLine :=
  let line := line_resize w line in
  if decide (w > old_w) then
    match cell_at line 0 with
    | Some a =>
        let space := space_of a in
        for_each (zrange old_w w) (fun x l => line_set x space l) line
    | None => line
    end
  else line.

(** [while (height > m_height && !m_backlog.isEmpty())]: every round takes
    a line from the log, so its length bounds the rounds. *)
Fixpoint pull_backlog (fuel : nat) (h : Z) (s : vt220) : vt220 :=
  match fuel with
  | O => s
  | S k =>
      if decide (h > m_height s) then
        match last (m_backlog s) with
        | Some l =>
            let s := set_m_backlog (removelast (m_backlog s)) s in
            let s := set_m_screen (l :: m_screen s) s in
            pull_backlog k h (set_m_height (m_height s + 1) s)
        | None => s
        end
      else s
  end.

(** [vt220::term_set_size]: a width or height that is not positive is
    replaced by the DECCOLM width and by 25 rows. *)
Definition term_set_size (w h : Z) (s : vt220) : vt220 :=
  let w := if decide (w <= 0) then m_deccolm s else w in
  let h := if decide (h <= 0) then 25 else h in
  let s := for_each (zrange 0 (m_height s))
             (fun y s => set_m_screen
                           (zalter (resize_line (m_width s) w) y (m_screen s)) s)
             s in
  let s := for_each (zrange 0 (Z.of_nat (length (m_backlog s))))
             (fun y s => set_m_backlog
                           (zalter (resize_line (m_width s) w) y (m_backlog s)) s)
             s in
  let s :=
    if decide (h < m_height s) then
      for_each (zrange 0 (m_height s - h))
        (fun _ s =>
           match m_screen s with
           | l :: rest => add_backlog l (set_m_screen rest s)
           | [] => s
           end) s
    else s in
  let s := pull_backlog (length (m_backlog s)) h s in
  let s := for_each (zrange (m_height s) h)
             (fun _ s => set_m_screen (m_screen s ++ [new_line w (m_def s)]) s)
             s in
  let s := set_m_deccolm w s in
  let s := set_m_width w s in
  let s := set_m_height h s in
  let s := set_m_top 0 s in
  set_m_bottom h s.

(** [vt220::term_set_columns] *)
Definition term_set_columns (w : Z) (s : vt220) : vt220 :=
  let w := if decide (w <= 0) then m_deccolm s else w in
  let s := term_set_size w (m_height s) s in
  set_newx (cnewx s) s.

(** [vt220::term_set_rows] *)
Definition term_set_rows (h : Z) (s : vt220) : vt220 :=
  if decide (h <= 0) then s
  else
    let s := term_set_size (m_width s) h s in
    set_newx (cnewx s) s.

(** [vt220::save] and [vt220::restore] *)
Definition save (s : vt220) : vt220 :=
  set_m_att_saved (m_att s) (set_m_cursor_saved (m_cursor s) s).

Definition restore (s : vt220) : vt220 :=
  let s := vt_CUP (cur_x (m_cursor_saved s)) (cur_y (m_cursor_saved s)) s in
  let s := set_m_att (m_att_saved s) s in
  set_m_trans
    (gmaps_at s (if decide (charset (m_att s) = 0) then gl (m_att s)
                 else gr (m_att s))) s.

(** ** What the engine takes from outside vt220.cpp *)

(** [QChar::category], as far as [putch] looks at it. *)
Inductive QCategory : Type :=
| Mark_NonSpacing | Mark_SpacingCombining | Mark_Enclosing | Other_Category.

#[global] Instance QCategory_eq_dec : EqDecision QCategory.
Proof. solve_decision. Defined.

(** The constants of vt220.h, Qt's character classification, and the member
    functions that no statement below looks into (they are state
    transformers like the rest, and every theorem holds whatever they do). *)
Record Extern : Type := Build_Extern {
  UC_INVALID : Z;
  UC_REPLACE : Z;
  CTRL_ACTION : Z;
  CTRL_ALWAYS : Z;
  MAP_VT500 : Z;
  isPrint : Z -> bool;
  category : Z -> QCategory;
  charmaps : Z -> cmapHash;
  select_map_vt200 : Z -> Z;
  select_map_vt500 : Z -> Z;
  term_reset : Z -> Z -> vt220 -> vt220;
  vt_palette_reset : vt220 -> vt220;
  vt_SGR : vt220 -> vt220;
  vt_OSC : vt220 -> vt220;
  vt_DECSET : vt220 -> vt220;
  vt_RM : vt220 -> vt220
}.

(** Control codes (ASCII and the C1 set of ISO 6429). *)
Definition NUL : Z := 0.
Definition ETX : Z := 3.
Definition ENQ : Z := 5.
Definition BEL : Z := 7.
Definition BS : Z := 8.
Definition HT : Z := 9.
Definition LF : Z := 10.
Definition VT : Z := 11.
Definition FF : Z := 12.
Definition CR : Z := 13.
Definition SO : Z := 14.
Definition SI : Z := 15.
Definition CAN : Z := 24.
Definition SUB : Z := 26.
Definition ESC : Z := 27.
Definition DEL : Z := 127.
Definition IND : Z := 132.
Definition NEL : Z := 133.
Definition HTS : Z := 136.
Definition RI : Z := 141.
Definition SS2 : Z := 142.
Definition SS3 : Z := 143.
Definition DCS : Z := 144.
Definition SPA : Z := 150.
Definition EPA : Z := 151.
Definition SOS : Z := 152.
Definition DECID : Z := 154.
Definition CSI : Z := 155.
Definition ST : Z := 156.
Definition OSC : Z := 157.
Definition PM : Z := 158.
Definition APC : Z := 159.

(** [qRgb(r, g, b)]: opaque alpha, then the three channels. *)
Definition qRgb (r g b : Z) : Z :=
  Z.lor (Z.shiftl 255 24)
    (Z.lor (Z.shiftl (Z.land r 255) 16)
       (Z.lor (Z.shiftl (Z.land g 255) 8) (Z.land b 255))).

(** [QByteArray::fromHex] of a single character, read with [at(0)]: the
    value of the hexadecimal digit.  For any other character the array is
    empty and the read is out of range; the model reads 0. *)
Definition from_hex (ch : Z) : Z :=
  if decide (48 <= ch <= 57) then ch - 48
  else if decide (65 <= ch <= 70) then ch - 55
  else if decide (97 <= ch <= 102) then ch - 87
  else 0.

(** [m_csi_args.value(i)] is 0 out of range; [m_csi_args[i]] is undefined
    there and modelled alike. *)
Definition csi_arg (s : vt220) (i : Z) : Z :=
  default 0 (zlookup (m_csi_args s) i).

Definition csi_count (s : vt220) : Z := Z.of_nat (length (m_csi_args s)).

(** [m_csi_args.resize(n)] *)
Definition csi_resize (n : nat) (s : vt220) : vt220 :=
  set_m_csi_args
    (take n (m_csi_args s) ++ replicate (n - length (m_csi_args s)) 0) s.

Definition csi_append (v : Z) (s : vt220) : vt220 :=
  set_m_csi_args (m_csi_args s ++ [v]) s.

(** [m_csi_args.count() < 1 ? d : m_csi_args[0]] *)
Definition csi_arg0_or (d : Z) (s : vt220) : Z :=
  if decide (csi_count s < 1) then d else csi_arg s 0.

Section Putch.

Variable E : Extern.

(** *** The decoder at the head of [putch] *)

(** The end of a single shift: [if (m_shift >= 0) { ... }]. *)
Definition end_shift (s : vt220) : vt220 :=
  if decide (m_shift s >= 0) then
    let s := set_m_att (set_charset (uchar (m_shift s)) (m_att s)) s in
    let s := set_m_trans (gmaps_at s (uchar (m_shift s))) s in
    set_m_shift (-1) s
  else s.

(** A lead byte: [m_utf_more = more; m_utf_code = ch & mask;
    m_utf_code_min = min]. *)
Definition utf_lead (more mask min ch : Z) (s : vt220) : vt220 :=
  set_m_utf_code_min min
    (set_m_utf_code (Z.land ch mask) (set_m_utf_more more s)).

(** The locals [ch], [tc] and [ch2] of [putch] beside the state. *)
Record locals : Type := Build_locals {
  l_ch : Z;
  l_tc : Z;
  l_ch2 : Z
}.

(** The [if (m_utf_mode) { ... }] branch up to, not including, the test
    for a pending sequence.  [m_utf_code] is taken to be 32 bits wide, so
    [m_utf_code <<= 6] drops what is shifted out. *)
Definition decode_utf8 (l : locals) (s : vt220) : locals * vt220 :=
  let ch := l_ch l in
  if decide (Z.land ch 128 <> 0) then
    if decide (m_utf_more s > 0) then
      let s := set_m_utf_code
                 (Z.modulo (Z.shiftl (m_utf_code s) 6) (2 ^ 32)) s in
      if decide (Z.land ch 192 = 128) then
        let s := set_m_utf_code (Z.lor (m_utf_code s) (Z.land ch 63)) s in
        let s := set_m_utf_more (m_utf_more s - 1) s in
        if decide (m_utf_more s = 0) then
          let tc := m_utf_code s in
          let s := set_m_utf_code 0 s in
          let tc := if decide (tc < m_utf_code_min s) then UC_REPLACE E
                    else tc in
          (Build_locals ch tc (l_ch2 l), s)
        else (l, s)
      else
        let s := set_m_utf_more 0 s in
        (Build_locals ch (UC_REPLACE E) (l_ch2 l), s)
    else if decide (Z.land ch 224 = 192) then (l, utf_lead 1 31 128 ch s)
    else if decide (Z.land ch 240 = 224) then (l, utf_lead 2 15 2048 ch s)
    else if decide (Z.land ch 248 = 240) then (l, utf_lead 3 7 65536 ch s)
    else if decide (Z.land ch 252 = 248) then (l, utf_lead 4 3 1114112 ch s)
    else if decide (Z.land ch 254 = 252) then
      (l, utf_lead 5 1 134217728 ch s)
    else
      let s := set_m_utf_code 0 (set_m_utf_more 0 s) in
      (Build_locals ch (UC_REPLACE E) (l_ch2 l), s)
  else
    if decide (m_utf_more s > 0) then
      let s := set_m_utf_code (UC_INVALID E) (set_m_utf_more 0 s) in
      (Build_locals ch (UC_REPLACE E) ch, s)
    else
      let s := set_m_utf_code ch s in
      let tc := cmap_value (m_trans s) ch in
      (Build_locals ch tc (l_ch2 l), end_shift s).

(** The [else] branch: one byte, one character. *)
Definition decode_byte (l : locals) (s : vt220) : locals * vt220 :=
  let ch := uchar (if m_togmeta s then Z.lor (l_ch l) 128
                   else Z.land (l_ch l) 127) in
  let tc := cmap_value (m_trans s) ch in
  (Build_locals ch tc (l_ch2 l), end_shift s).

(** [have_glyph]: is there a character to put on the screen? *)
Definition have_glyph (l : locals) (s : vt220) : bool :=
  let ctrl := if m_dspctrl s then CTRL_ALWAYS E else CTRL_ACTION E in
  bool_decide (l_tc l <> UC_INVALID E)
  && (bool_decide (l_ch l >= 32)
      || (negb (m_utf_mode s) && negb (Z.testbit ctrl (l_ch l))))
  && (bool_decide (l_ch l <> DEL) || m_dspctrl s)
  && (bool_decide (l_ch l <> CSI) || m_utf_mode s).

Definition is_mark (c : QCategory) : bool :=
  match c with
  | Mark_NonSpacing | Mark_Enclosing | Mark_SpacingCombining => true
  | Other_Category => false
  end.

(** The body of the loop after the [break] test: the character [tc] goes
    to the screen, a mark onto the cell under the cursor, anything else at
    the cursor, wrapping first when the pending column is off the row. *)
Definition put_glyph (tc : Z) (s : vt220) : vt220 :=
  let qc := Z.modulo tc 65536 in
  let w := if decide (category E tc = Mark_Enclosing) then 2 else 1 in
  let s :=
    if is_mark (category E qc) then
      match screen_cell s (cx s) (cy s) with
      | Some chr => outch (cx s) (cy s) (set_width w (set_mark tc chr)) s
      | None => s
      end
    else
      let s :=
        if decide (cnewx s >= m_width s) then
          if m_decawm s then vt_LF (vt_CR s)
          else set_newx (m_width s - 1) s
        else s in
      let s := set_x (cnewx s) s in
      let s := if m_decim s then vt_ICH 1 s else s in
      let s := set_m_att (set_mark 0 (set_code tc (m_att s))) s in
      outch (cx s) (cy s) (m_att s) s in
  set_newx (cx s + w) s.

(** How the loop at the head of [putch] ends: with a [return], or with a
    [break] that hands [ch] to the state machine. *)
Inductive front : Type :=
| Returned (s : vt220)
| Broke (ch : Z) (s : vt220).

(** The [for (;;)] loop.  It runs a second time only to reprocess the byte
    that cut a multi-byte sequence short, so two rounds are all there are
    (see [putch_front_total]). *)
Fixpoint putch_front (fuel : nat) (l : locals) (s : vt220) : option front :=
  match fuel with
  | O => None
  | S k =>
      let '(l, s, pending) :=
        if m_utf_mode s then
          let '(l, s) := decode_utf8 l s in
          (l, s, bool_decide (m_utf_code s <> UC_INVALID E /\ m_utf_more s > 0))
        else
          let '(l, s) := decode_byte l s in (l, s, false) in
      if pending then Some (Returned s)
      else
        let hg := have_glyph l s in
        let tc := if hg && negb (isPrint E (l_tc l)) then UC_REPLACE E
                  else l_tc l in
        if negb hg || negb (bool_decide (m_state s = ESnormal))
        then Some (Broke (l_ch l) s)
        else
          let s := put_glyph tc s in
          if decide (l_ch2 l = 0) then Some (Returned s)
          else putch_front k (Build_locals (l_ch2 l) tc 0) s
  end.

(** *** The escape sequence state machine *)

(** [case ESgotargs], second [switch]: the final byte of a control
    sequence without the private marker. *)
Definition csi_dispatch (ch : Z) (s : vt220) : vt220 :=
  match ch with
  | 64 (* @ *) => vt_ICH (csi_arg0_or 1 s) s
  | 65 (* A *) => vt_CUU (csi_arg0_or 1 s) s
  | 66 (* B *) | 101 (* e *) => vt_CUD (csi_arg0_or 1 s) s
  | 67 (* C *) | 97 (* a *) =>
      let s := set_x (cnewx s) s in vt_CUF (csi_arg0_or 1 s) s
  | 68 (* D *) =>
      let s := set_x (cnewx s) s in vt_CUB (csi_arg0_or 1 s) s
  | 69 (* E *) => vt_CNL (csi_arg0_or 1 s) s
  | 70 (* F *) => vt_CPL (csi_arg0_or 1 s) s
  | 71 (* G *) | 96 (* ` *) => vt_CHA (csi_arg0_or 1 s) s
  | 72 (* H *) | 102 (* f *) =>
      let s := if decide (csi_count s < 1) then csi_append 1 s else s in
      let s := if decide (csi_count s < 2) then csi_append 1 s else s in
      vt_CUA (int_wrap (csi_arg s 1 - 1)) (int_wrap (csi_arg s 0 - 1)) s
  | 73 (* I *) => vt_CHT (csi_arg0_or 0 s) s
  | 74 (* J *) => vt_ED (csi_arg0_or 0 s) s
  | 75 (* K *) => vt_EL (csi_arg0_or 0 s) s
  | 76 (* L *) => vt_IL (csi_arg0_or 1 s) s
  | 77 (* M *) => vt_DL (csi_arg0_or 1 s) s
  | 80 (* P *) =>
      let s := csi_resize 1 s in
      let s := if decide (0 = csi_arg s 0) then set_m_csi_args [1] s else s in
      vt_DCH (csi_arg s 0) s
  | 88 (* X *) =>
      let s := csi_resize 1 s in
      let s := if decide (0 = csi_arg s 0) then set_m_csi_args [1] s else s in
      vt_ECH (csi_arg s 0) s
  | 99 (* c *) => csi_resize 1 s
  | 100 (* d *) =>
      let s := if decide (csi_count s < 1) then csi_append 1 s else s in
      let s := set_x (cnewx s) s in
      vt_CUA (cx s) (int_wrap (csi_arg s 0 - 1)) s
  | 103 (* g *) =>
      let s := csi_resize 1 s in
      if decide (csi_arg s 0 = 0)
      then set_m_tabstop (zinsert (cnewx s) false (m_tabstop s)) s
      else if decide (csi_arg s 0 = 3)
      then set_m_tabstop (replicate 256 false) s
      else s
  | 109 (* m *) => vt_SGR E s
  | 114 (* r *) =>
      let s := if decide (csi_count s < 1) then csi_append 1 s else s in
      let s := if decide (csi_count s < 1) then csi_append (m_height s) s
               else s in
      if decide (csi_arg s 0 < csi_arg s 1 /\ csi_arg s 1 <= m_height s) then
        let s := set_m_top (csi_arg s 0 - 1) s in
        let s := set_m_bottom (csi_arg s 1) s in
        vt_CUA 0 0 s
      else s
  | 115 (* s *) => save s
  | 117 (* u *) => restore s
  | 93 (* ] *) => vt_OSC E s
  | _ => s
  end.

(** [case ESgotargs]: back to [ESnormal]; the private sequences first,
    which end the dispatch when the marker [?] was seen. *)
Definition putch_gotargs (ch : Z) (s : vt220) : vt220 :=
  let s := set_m_state ESnormal s in
  match ch with
  | 104 (* h *) => vt_DECSET E s
  | 108 (* l *) => vt_RM E s
  | _ =>
      let s :=
        match ch with
        | 99 (* c *) =>
            if m_ques s then
              if decide (csi_count s > 2) then
                set_m_cursor_type
                  (int_wrap (csi_arg s 0 + Z.shiftl (csi_arg s 1) 8
                             + Z.shiftl (csi_arg s 2) 16)) s
              else set_m_cursor_type 0 s
            else s
        | 109 (* m *) =>
            if m_ques s then
              if decide (csi_count s > 1) then
                set_m_cc_mask
                  (int_wrap (Z.lor (Z.shiftl (csi_arg s 0) 8) (csi_arg s 1))) s
              else set_m_cc_mask (m_cc_save s) s
            else s
        | _ => s
        end in
      if m_ques s then set_m_ques false s
      else csi_dispatch ch s
  end.

(** [case ESgetargs]: collect the parameters; any byte that is neither a
    digit nor [;] is the final byte. *)
Definition putch_getargs (ch : Z) (s : vt220) : vt220 :=
  if decide (ch = 59 (* ; *)) then csi_append 0 s
  else if decide (48 <= ch <= 57) then
    let idx := csi_count s - 1 in
    set_m_csi_args
      (zalter (fun v => int_wrap (v * 10 + ch - 48)) idx (m_csi_args s)) s
  else putch_gotargs ch (set_m_state ESgotargs s).

(** [case ESesc] *)
Definition putch_esc (ch : Z) (s : vt220) : vt220 :=
  let s := set_m_state ESnormal s in
  match ch with
  | 12 (* FF *) => vt_FF s
  | 32 (* space *) => set_m_state ESspc s
  | 37 (* % *) => set_m_state ESperc s
  | 68 (* D *) => vt_IND s
  | 69 (* E *) => vt_NEL s
  | 72 (* H *) => vt_HTS s
  | 77 (* M *) => vt_RI s
  | 78 (* N *) => vt_SSn 2 s
  | 79 (* O *) => vt_SSn 3 s
  | 88 (* X *) => vt_SOS s
  | 91 (* [ *) => set_m_state EScsi s
  | 92 (* \ *) => vt_ST s
  | 93 (* ] *) => set_m_state ESosc s
  | 55 (* 7 *) => save s
  | 56 (* 8 *) => restore s
  | 40 (* ( *) => set_m_state ESsetG0_vt200 s
  | 41 (* ) *) => set_m_state ESsetG1_vt200 s
  | 42 (* * *) => set_m_state ESsetG2_vt200 s
  | 43 (* + *) => set_m_state ESsetG3_vt200 s
  | 35 (* # *) => set_m_state EShash s
  | 99 (* c *) => vt_ED 2 (term_reset E (m_width s) (m_height s) s)
  | 110 (* n *) => vt_LS2 s
  | 111 (* o *) => vt_LS3 s
  | 126 (* ~ *) => vt_LSnR 1 s
  | 125 (* } *) => vt_LSnR 2 s
  | 124 (* | *) => vt_LSnR 3 s
  | _ => s
  end.

(** [case ESsetGn_vt200] and [case ESsetGn_vt500]: designate a character
    map as Gn. *)
Definition set_gmap (n : Z) (map : Z) (s : vt220) : vt220 :=
  set_m_gmaps (zinsert n (charmaps E map) (m_gmaps s)) s.

Definition putch_setG_vt200 (n : Z) (next : ESstate) (ch : Z) (s : vt220)
  : vt220 :=
  let s := set_m_state ESnormal s in
  let map := select_map_vt200 E ch in
  if decide (MAP_VT500 E = map) then set_m_state next s
  else set_gmap n map s.

Definition putch_setG_vt500 (n : Z) (ch : Z) (s : vt220) : vt220 :=
  let s := set_m_state ESnormal s in
  set_gmap n (select_map_vt500 E ch) s.

(** [case ESpalette]: every byte grows [m_csi_args] by one element through
    [resize] and by another through [append]; the palette entry is written
    when the count is 7. *)
Definition putch_palette (ch : Z) (s : vt220) : vt220 :=
  let s := csi_resize (length (m_csi_args s) + 1) s in
  let s := csi_append (from_hex ch) s in
  if decide (csi_count s = 7) then
    let i := uchar (csi_arg s 0) in
    let r := uchar (Z.lor (Z.shiftl (csi_arg s 1) 4) (csi_arg s 2)) in
    let g := uchar (Z.lor (Z.shiftl (csi_arg s 3) 4) (csi_arg s 4)) in
    let b := uchar (Z.lor (Z.shiftl (csi_arg s 5) 4) (csi_arg s 6)) in
    let s := set_m_pal (zinsert i (qRgb r g b) (m_pal s)) s in
    set_m_state ESnormal s
  else s.

(** [case ESstring] *)
Definition putch_string (ch : Z) (s : vt220) : vt220 :=
  match m_string s with
  | [] => set_m_string [ch] s
  | _ =>
      if decide (ch = 92 /\ last (m_string s) = Some ESC) then
        set_m_state ESnormal (set_m_string (removelast (m_string s)) s)
      else if decide (ch = ST) then set_m_state ESnormal s
      else set_m_string (m_string s ++ [ch]) s
  end.

(** [switch (m_state)] *)
Definition putch_state (ch : Z) (s : vt220) : vt220 :=
  match m_state s with
  | ESnormal => s
  | ESesc => putch_esc ch s
  | ESspc =>
      let s := set_m_state ESnormal s in
      match ch with
      | 70 (* F *) => set_m_s8c1t false s
      | 71 (* G *) => set_m_s8c1t true s
      | 76 (* L *) => set_m_ansi 1 s
      | 77 (* M *) => set_m_ansi 2 s
      | 78 (* N *) => set_m_ansi 3 s
      | _ => s
      end
  | ESosc =>
      let s := set_m_state ESnormal s in
      match ch with
      | 80 (* P *) => set_m_csi_args [] (set_m_state ESpalette s)
      | 82 (* R *) => vt_palette_reset E s
      | _ => s
      end
  | ESpalette => putch_palette ch s
  | EScsi =>
      let s := set_m_state ESgetargs s in
      let s := set_m_csi_args [0] s in
      if decide (ch = 91 (* [ *)) then set_m_state ESfunckey s
      else
        let s := set_m_ques (bool_decide (ch = 63 (* ? *))) s in
        if m_ques s then s else putch_getargs ch s
  | ESgetargs => putch_getargs ch s
  | ESgotargs => putch_gotargs ch s
  | ESstring => putch_string ch s
  | ESperc =>
      let s := set_m_state ESnormal s in
      match ch with
      | 64 (* @ *) => set_m_utf_mode false s
      | 71 (* G *) | 56 (* 8 *) => set_m_utf_mode true s
      | _ => s
      end
  | ESsetG0_vt200 => putch_setG_vt200 0 ESsetG0_vt500 ch s
  | ESsetG0_vt500 => putch_setG_vt500 0 ch s
  | ESsetG1_vt200 => putch_setG_vt200 1 ESsetG1_vt500 ch s
  | ESsetG1_vt500 => putch_setG_vt500 1 ch s
  | ESsetG2_vt200 => putch_setG_vt200 2 ESsetG2_vt500 ch s
  | ESsetG2_vt500 => putch_setG_vt500 2 ch s
  | ESsetG3_vt200 => putch_setG_vt200 3 ESsetG3_vt500 ch s
  | ESsetG3_vt500 => putch_setG_vt500 3 ch s
  | EShash =>
      let s := set_m_state ESnormal s in
      match ch with
      | 51 (* 3 *) =>
          set_m_screen (zalter (set_decdhl false) (cy s) (m_screen s)) s
      | 52 (* 4 *) =>
          set_m_screen (zalter (set_decdhl true) (cy s) (m_screen s)) s
      | 53 (* 5 *) => set_m_screen (zalter set_decswl (cy s) (m_screen s)) s
      | 54 (* 6 *) => set_m_screen (zalter set_decdwl (cy s) (m_screen s)) s
      | _ => s
      end
  | ESfunckey => set_m_state ESnormal s
  end.

(** [if (ESnormal == m_state) switch (ch)]: the C0 and C1 controls.  All
    of them return, except CSI, which goes on into [switch (m_state)], as
    does every byte that is no control. *)
Definition putch_normal (ch : Z) (s : vt220) : vt220 :=
  match ch with
  | 0 (* NUL *) | 7 (* BEL *) => s
  | 8 (* BS *) => vt_BS s
  | 9 (* HT *) => vt_TAB s
  | 10 (* LF *) | 12 (* FF *) =>
      let s := if m_deccr s then vt_CR s else s in vt_LF s
  | 11 (* VT *) =>
      let s := if m_deccr s then vt_CR s else s in vt_VT s
  | 13 (* CR *) => vt_CR s
  | 14 (* SO *) => vt_LS1 s
  | 15 (* SI *) => vt_LS0 s
  | 24 (* CAN *) | 26 (* SUB *) => set_m_state ESnormal s
  | 27 (* ESC *) => set_m_state ESesc s
  | 132 (* IND *) => vt_IND s
  | 133 (* NEL *) => vt_NEL s
  | 136 (* HTS *) => vt_HTS s
  | 141 (* RI *) => vt_RI s
  | 142 (* SS2 *) => vt_SSn 2 s
  | 143 (* SS3 *) => vt_SSn 3 s
  | 144 (* DCS *) | 150 (* SPA *) | 151 (* EPA *) | 154 (* DECID *) => s
  | 152 (* SOS *) => vt_SOS s
  | 155 (* CSI *) => putch_state ch (set_m_state EScsi s)
  | 156 (* ST *) => vt_ST s
  | 157 (* OSC *) => set_m_state ESosc s
  | 158 (* PM *) => vt_PM s
  | 159 (* APC *) => vt_APC s
  | _ => putch_state ch s
  end.

(** [vt220::putch] *)
Definition putch (ch : Z) (s : vt220) : vt220 :=
  match putch_front 2 (Build_locals ch (UC_INVALID E) 0) s with
  | Some (Returned s) => s
  | Some (Broke ch s) =>
      if decide (m_state s = ESnormal) then putch_normal ch s
      else putch_state ch s
  | None => s
  end.

(** [vt220::write]: every byte in order, the cursor hidden meanwhile. *)
Definition write (data : list Z) (s : vt220) : vt220 :=
  let was_on := cur_on (m_cursor s) in
  let s := set_cursor false s in
  let s := fold_left (fun s ch => putch (uchar ch) s) data s in
  set_cursor was_on s.

End Putch.

(** ** Predicates and vocabulary of the statements *)

(** The screen has [m_height] rows of [m_width] cells each. *)
Definition screen_ok (s : vt220) : Prop :=
  Z.of_nat (length (m_screen s)) = m_height s
  /\ Forall (fun l => Z.of_nat (length (cells l)) = m_width s) (m_screen s).

(** The screen is not empty and the scroll region [m_top, m_bottom) lies
    inside it.  [term_reset] and [term_set_size] set the region to the
    whole screen. *)
Definition geometry_ok (s : vt220) : Prop :=
  1 <= m_width s /\ 1 <= m_height s
  /\ 0 <= m_top s /\ m_top s < m_bottom s /\ m_bottom s <= m_height s.

Definition cursor_in_range (s : vt220) : Prop :=
  (0 <= cy s <= m_height s - 1) /\ (0 <= cx s <= m_width s - 1).

(** Dimensions, scroll region and origin mode. *)
Definition geom (s : vt220) : Z * Z * Z * Z * bool :=
  (m_width s, m_height s, m_top s, m_bottom s, m_decom s).

(** The cursor movement commands of a control sequence, each with the
    [int] arguments its member function takes. *)
Inductive move : Type :=
| Up (n : Z)
| Down (n : Z)
| Forward (n : Z)
| Back (n : Z)
| NextLine (n : Z)
| PrevLine (n : Z)
| Column (x : Z)
| Position (x y : Z).

Definition run_move (m : move) (s : vt220) : vt220 :=
  match m with
  | Up n => vt_CUU n s
  | Down n => vt_CUD n s
  | Forward n => vt_CUF n s
  | Back n => vt_CUB n s
  | NextLine n => vt_CNL n s
  | PrevLine n => vt_CPL n s
  | Column x => vt_CHA x s
  | Position x y => vt_CUA x y s
  end.

(** The states after each command of a sequence. *)
Fixpoint states_after (ms : list move) (s : vt220) : list vt220 :=
  match ms with
  | [] => []
  | m :: ms => run_move m s :: states_after ms (run_move m s)
  end.

(** The clamping of a target position as the specification words it:
    the column to [0, columns-1], the row to [top, bottom-1] in origin
    mode and to [0, rows-1] otherwise. *)
Definition clamp_column (s : vt220) (x : Z) : Z := qBound 0 x (m_width s - 1).

Definition clamp_row (s : vt220) (y : Z) : Z :=
  if m_decom s then qBound (m_top s) y (m_bottom s - 1)
  else qBound 0 y (m_height s - 1).

(** The rows that [n] successive scrolls push out of the top of the
    screen, oldest first. *)
Fixpoint evicted (n : nat) (s : vt220) : list vtLine :=
  match n with
  | O => []
  | S k => from_option (fun l => [l]) [] (screen_line s 0)
            ++ evicted k (vt_scroll_up s)
  end.

(** ** Sample states *)

(** A cell in the default rendition: white on black, no style. *)
Definition sample_attr (c : Z) : vtAttr :=
  Build_vtAttr c 0 1 7 0 0 0 1 false false false false false false false
    false false.

(** A row spelling out the given code points. *)
Definition sample_row (cs : list Z) : vtLine :=
  Build_vtLine (map sample_attr cs) false false false.

(** An engine in [ESnormal] with the given screen, the scroll region set
    to the whole screen, UTF-8 mode on, the default tab stops, identity
    character maps and an all-black palette of 256 entries. *)
Definition sample_state (w h : Z) (rows : list vtLine) : vt220 :=
  vt_tabstop_reset
    (Build_vt220 10000 [] rows w h 0 h (replicate 256 (qRgb 0 0 0))
       (sample_attr 32) (sample_attr 32) (sample_attr 32)
       (Build_vtCursor 0 0 0 false 0) (Build_vtCursor 0 0 0 false 0)
       30464 30464 0 [] [] ESnormal w false true false false true true true
       false true 3 [∅; ∅; ∅; ∅] ∅ (-1) [] true 0 0 0).

(** Constants and Qt functions for the samples: the replacement character
    U+FFFD, an invalid code outside the Unicode range, every code point
    from the space on printable except DEL, no marks, and the opaque member
    functions doing nothing. *)
Definition sample_extern : Extern :=
  Build_Extern 4294967295 65533 218169217 134280449 (-1)
    (fun c => bool_decide (32 <= c /\ c <> 127))
    (fun _ => Other_Category)
    (fun _ => ∅) (fun c => c) (fun c => c)
    (fun _ _ s => s) (fun s => s) (fun s => s) (fun s => s) (fun s => s)
    (fun s => s).

(** The target position computed by the commands that go through
    [vt_CUP]: column first, then row.  Next line and previous line are
    loops of NEL and RI and compute no target. *)
Definition cup_target (m : move) (s : vt220) : option (Z * Z) :=
  match m with
  | Up n => Some (cnewx s, int_wrap (cy s - n))
  | Down n => Some (cnewx s, int_wrap (cy s + n))
  | Forward n => Some (int_wrap (cnewx s + n), cy s)
  | Back n => Some (int_wrap (cnewx s - n), cy s)
  | Column x => Some (x, cy s)
  | Position x y => Some (x, if m_decom s then int_wrap (m_top s + y) else y)
  | NextLine _ | PrevLine _ => None
  end.

(** The target row of every command in the words of the specification:
    so many rows up or down from the cursor, or the row given. *)
Definition spec_target_row (m : move) (s : vt220) : Z :=
  match m with
  | Up n | PrevLine n => cy s - n
  | Down n | NextLine n => cy s + n
  | Forward _ | Back _ | Column _ => cy s
  | Position _ y => if m_decom s then m_top s + y else y
  end.

(** Three rows of two cells, the scroll region on the first two rows
    (as after CSI 1;2 r) and the cursor on the second row. *)
Definition region_state : vt220 :=
  set_y 1 (set_m_bottom 2
             (sample_state 2 3 [sample_row [65; 66]; sample_row [67; 68];
                                sample_row [69; 70]])).


(** Three rows, the whole screen the scroll region, and a scrollback that
    holds two rows at most. *)
Definition small_log_state : vt220 :=
  set_m_backlog_max 2
    (sample_state 2 3 [sample_row [65; 66]; sample_row [67; 68];
                       sample_row [69; 70]]).

(** ** Which bytes reach a tab stop operation *)

(** The byte that the head of [putch] hands to the state machine, if it
    does not return before. *)
Definition dispatched (E : Extern) (ch : Z) (s : vt220) : option Z :=
  match putch_front E 2 (Build_locals ch (UC_INVALID E) 0) s with
  | Some (Broke c _) => Some c
  | _ => None
  end.

(** The dispatches that set or clear tab stops: HTS as a C1 control or as
    ESC H, the final byte g of a control sequence (clear one, clear all),
    and the full reset ESC c. *)
Definition is_tab_op (st : ESstate) (c : Z) : bool :=
  match st with
  | ESnormal => bool_decide (c = HTS)
  | ESesc => bool_decide (c = 72 \/ c = 99)
  | EScsi | ESgetargs | ESgotargs => bool_decide (c = 103)
  | _ => false
  end.

(** The opaque member functions other than [term_reset] have nothing to
    do with tab stops. *)
Definition opaque_keep_tabs (E : Extern) : Prop :=
  (forall s, m_tabstop (vt_SGR E s) = m_tabstop s)
  /\ (forall s, m_tabstop (vt_OSC E s) = m_tabstop s)
  /\ (forall s, m_tabstop (vt_DECSET E s) = m_tabstop s)
  /\ (forall s, m_tabstop (vt_RM E s) = m_tabstop s)
  /\ (forall s, m_tabstop (vt_palette_reset E s) = m_tabstop s).

(** ** Vocabulary of the proofs *)


(** The fields a scroll does not touch. *)
Definition ctl (s : vt220)
  : (Z * Z * Z * Z * bool) * vtCursor * vtAttr * Z * list bool :=
  (geom s, m_cursor s, m_att s, m_backlog_max s, m_tabstop s).

(** The state [s] with the cursor at column [x] (also the pending column
    [nx]) and row [y], visibility [b]. *)
Definition at_cursor (x y nx : Z) (b : bool) (s : vt220) : vt220 :=
  set_m_cursor (Build_vtCursor x y nx b (cur_phase (m_cursor s))) s.

(** The column and the row [vt_CUP] ends on. *)
Definition cup_column (x : Z) (s : vt220) : Z :=
  if decide (x < 0) then 0
  else if decide (x >= m_width s) then m_width s - 1 else x.

(** A state invariant of the cursor operations: the geometry and the
    cursor range. *)
Definition on_screen (s : vt220) : Prop := geometry_ok s /\ cursor_in_range s.

(** The state in which [vt_scroll_up] runs its copy loop. *)
Definition pushed_top (s : vt220) : vt220 :=
  if decide (0 = m_top s /\ m_height s = m_bottom s) then
    match screen_line s 0 with
    | Some l => add_backlog l s
    | None => s
    end
  else s.

(** The log after one more line, as [add_backlog] leaves it. *)
Definition log_push (max : Z) (bl : list vtLine) (l : vtLine) : list vtLine :=
  if decide (Z.of_nat (length (bl ++ [l])) > max) then tail (bl ++ [l])
  else bl ++ [l].

(** [s'] differs from [s] at most in the screen, the scrollback, the
    cursor and the current attributes. *)
Definition screen_only (s s' : vt220) : Prop :=
  exists scr bl cur att,
    s' = set_m_att att (set_m_cursor cur (set_m_backlog bl (set_m_screen scr s))).

(** [s'] differs from [s] at most in the fields of the decoder: the state
    of the UTF-8 sequence, and what the end of a single shift sets. *)
Definition decoder_only (s s' : vt220) : Prop :=
  exists more code min att tr sh,
    s' = set_m_utf_more more
           (set_m_utf_code code
              (set_m_utf_code_min min
                 (set_m_att att (set_m_trans tr (set_m_shift sh s))))).

(** [s'] has the tab stops of [s]. *)
Definition same_tabs (s s' : vt220) : Prop := m_tabstop s' = m_tabstop s.

(** * Vocabulary of the further properties *)

(** ** The UTF-8 decoder and the loop of [putch] *)

(** The lead bytes of UTF-8 as the standard tabulates them: the number of
    continuation bytes that follow, the payload bits of the lead byte, and
    the least code point the sequence may encode. *)
Definition utf8_lead (ch : Z) : option (Z * Z * Z) :=
  if decide (192 <= ch <= 223) then Some (1, ch - 192, 128)
  else if decide (224 <= ch <= 239) then Some (2, ch - 224, 2048)
  else if decide (240 <= ch <= 247) then Some (3, ch - 240, 65536)
  else if decide (248 <= ch <= 251) then Some (4, ch - 248, 1114112)
  else if decide (252 <= ch <= 253) then Some (5, ch - 252, 134217728)
  else None.

(** The code point of a sequence: six more bits with every continuation
    byte. *)
Definition utf8_value (payload : Z) (conts : list Z) : Z :=
  fold_left (fun acc c => acc * 64 + (c - 128)) conts payload.

(** What [putch] puts on the screen for a decoded code point: the
    replacement character in place of a code below the least one of the
    sequence, and in place of anything Qt does not print. *)
Definition utf8_shown (E : Extern) (min v : Z) : Z :=
  let tc := if decide (v < min) then UC_REPLACE E else v in
  if isPrint E tc then tc else UC_REPLACE E.

(** The decoder with [more] continuation bytes to come. *)
Definition pending (more code : Z) (s : vt220) : vt220 :=
  set_m_utf_code code (set_m_utf_more more s).

(** ** Erasing: [zap], [vt_EL], [vt_ED] *)

(** The cells of the cursor row that erase in line takes: from the cursor
    on, up to the cursor, or the whole row. *)
Definition erased_in_line (n c x : Z) : Prop :=
  (n = 0 /\ c <= x) \/ (n = 1 /\ x <= c) \/ n = 2.

(** The cells that erase in display takes, the cursor at column [c] of row
    [r]. *)
Definition erased_in_display (n c r x y : Z) : Prop :=
  (n = 0 /\ (y = r /\ c <= x \/ r < y))
  \/ (n = 1 /\ y <= r /\ (y = 0 -> x <= c))
  \/ n = 2.

#[global] Instance erased_in_line_dec n c x : Decision (erased_in_line n c x).
Proof. unfold erased_in_line. apply _. Defined.

#[global] Instance erased_in_display_dec n c r x y :
  Decision (erased_in_display n c r x y).
Proof. unfold erased_in_display. apply _. Defined.

(** ** Resizing: [term_set_size] *)

(** The phases of [term_set_size]: the rows of the screen and of the
    scrollback take the new width, rows leave at the top when the screen
    shrinks, come back from the scrollback when it grows, and new rows are
    appended. *)
Definition resize_screen (w : Z) (s : vt220) : vt220 :=
  for_each (zrange 0 (m_height s))
    (fun y s => set_m_screen
                  (zalter (resize_line (m_width s) w) y (m_screen s)) s) s.

Definition resize_backlog (w : Z) (s : vt220) : vt220 :=
  for_each (zrange 0 (Z.of_nat (length (m_backlog s))))
    (fun y s => set_m_backlog
                  (zalter (resize_line (m_width s) w) y (m_backlog s)) s) s.

Definition shrink_rows (h : Z) (s : vt220) : vt220 :=
  if decide (h < m_height s) then
    for_each (zrange 0 (m_height s - h))
      (fun _ s =>
         match m_screen s with
         | l :: rest => add_backlog l (set_m_screen rest s)
         | [] => s
         end) s
  else s.

Definition append_rows (w h : Z) (s : vt220) : vt220 :=
  for_each (zrange (m_height s) h)
    (fun _ s => set_m_screen (m_screen s ++ [new_line w (m_def s)]) s) s.

(** Every row of the screen and of the scrollback is [w] cells wide. *)
Definition rows_wide (w : Z) (s : vt220) : Prop :=
  Forall (fun l => Z.of_nat (length (cells l)) = w) (m_screen s)
  /\ Forall (fun l => Z.of_nat (length (cells l)) = w) (m_backlog s).

(** ** Backspace and tabulation *)

(** Where a tabulation stops: at a column whose bit is set, or beyond the
    bits there are. *)
Definition is_stop (ts : list bool) (x : Z) : Prop :=
  x >= Z.of_nat (length ts) \/ zlookup ts x = Some true.

#[global] Instance is_stop_dec ts x : Decision (is_stop ts x).
Proof. unfold is_stop. apply _. Defined.

(** ** Putting a character on the screen *)

(** Constants and Qt functions with marks: U+0301 is a non-spacing mark and
    U+20DD an enclosing one; everything else as in [sample_extern]. *)
Definition mark_extern : Extern :=
  Build_Extern 4294967295 65533 218169217 134280449 (-1)
    (fun c => bool_decide (32 <= c /\ c <> 127))
    (fun c => if decide (c = 769) then Mark_NonSpacing
              else if decide (c = 8413) then Mark_Enclosing
              else Other_Category)
    (fun _ => ∅) (fun c => c) (fun c => c)
    (fun _ _ s => s) (fun s => s) (fun s => s) (fun s => s) (fun s => s)
    (fun s => s).

(** ** Control sequences and their parameters *)

(** The value of a string of decimal digits. *)
Definition decimal_from (v : Z) (ds : list Z) : Z :=
  fold_left (fun acc d => acc * 10 + d) ds v.

Definition decimal (ds : list Z) : Z := decimal_from 0 ds.

(** The bytes of the parameters of a control sequence: the digits of each
    parameter, with a semicolon between one parameter and the next. *)
Fixpoint param_bytes (dss : list (list Z)) : list Z :=
  match dss with
  | [] => []
  | [ds] => map (fun d => 48 + d) ds
  | ds :: rest => map (fun d => 48 + d) ds ++ 59 :: param_bytes rest
  end.

(** The engine while it collects parameters: the last byte seen and the
    values so far. *)
Definition collecting (code : Z) (args : list Z) (s : vt220) : vt220 :=
  set_m_state ESgetargs
    (set_m_utf_code code (set_m_ques false (set_m_csi_args args s))).

(** What a parameter byte does to the values collected so far: a
    semicolon starts the next value at 0, a digit goes into the last
    one. *)
Definition collect (b : Z) (args : list Z) : list Z :=
  if decide (b = 59) then args ++ [0]
  else zalter (fun v => int_wrap (v * 10 + b - 48))
         (Z.of_nat (length args) - 1) args.

(** ** Which bytes are carried out as controls *)

(** An engine in 8-bit mode that sets the high bit of every byte. *)
Definition meta_state : vt220 :=
  set_m_togmeta true (set_m_utf_mode false region_state).

(** ** The cursor stays on the screen *)


(** * Theorems *)

(** ** Indexing by [int] *)

Lemma zlookup_Some_range {A} (l : list A) i x :
  zlookup l i = Some x -> 0 <= i < Z.of_nat (length l).
Proof.
  unfold zlookup. case_decide; [|done].
  intros Hl%lookup_lt_Some. lia.
Qed.

Lemma zlookup_is_Some {A} (l : list A) i :
  is_Some (zlookup l i) <-> 0 <= i < Z.of_nat (length l).
Proof.
  unfold zlookup. case_decide.
  - rewrite lookup_lt_is_Some. lia.
  - split; [intros [? ?]; done | lia].
Qed.

Lemma length_zalter {A} (f : A -> A) i (l : list A) :
  length (zalter f i l) = length l.
Proof. unfold zalter. case_decide; [apply length_alter | done]. Qed.

Lemma zlookup_zalter {A} (f : A -> A) i j (l : list A) :
  zlookup (zalter f i l) j
  = if decide (i = j) then f <$> zlookup l j else zlookup l j.
Proof.
  unfold zlookup, zalter.
  destruct (decide (0 <= i)), (decide (0 <= j)), (decide (i = j)); subst;
    try done; try lia.
  - by rewrite list_lookup_alter_eq.
  - rewrite list_lookup_alter_ne; [done | lia].
Qed.

Lemma zlookup_zinsert {A} (x : A) i j (l : list A) :
  zlookup (zinsert i x l) j
  = if decide (i = j) then (fun _ => x) <$> zlookup l j else zlookup l j.
Proof. apply zlookup_zalter. Qed.

Lemma elem_of_zrange lo hi x : x ∈ zrange lo hi <-> lo <= x < hi.
Proof.
  unfold zrange. rewrite list_elem_of_fmap. split.
  - intros (i & -> & Hi). apply elem_of_seq in Hi. lia.
  - intros Hx. exists (Z.to_nat (x - lo)). split; [lia|].
    apply elem_of_seq. lia.
Qed.

Lemma for_each_ind {S} (P : S -> Prop) (xs : list Z) (body : Z -> S -> S) s :
  P s -> (forall x s, x ∈ xs -> P s -> P (body x s)) ->
  P (for_each xs body s).
Proof.
  unfold for_each. revert s. induction xs as [|x xs IH]; intros s Hs Hb; [done|].
  simpl. apply IH.
  - apply Hb; [left | done].
  - intros y s' Hy. apply Hb. by right.
Qed.

(** ** Cells of the screen *)

Lemma screen_cell_screen_set x y a s x' y' :
  screen_cell (screen_set x y a s) x' y'
  = if decide (x = x' /\ y = y') then (fun _ => a) <$> screen_cell s x' y'
    else screen_cell s x' y'.
Proof.
  unfold screen_cell, screen_line, screen_set. simpl.
  rewrite zlookup_zalter.
  destruct (decide (y = y')) as [->|Hy].
  - destruct (zlookup (m_screen s) y') as [l|]; simpl.
    + unfold cell_at, line_set. simpl. rewrite zlookup_zinsert.
      destruct (decide (x = x')) as [->|Hx].
      * rewrite decide_True by done. done.
      * rewrite decide_False by tauto. done.
    + by destruct (decide _).
  - rewrite decide_False by tauto. done.
Qed.

Lemma screen_cell_outch x y a s x' y' :
  screen_cell (outch x y a s) x' y'
  = if decide (x = x' /\ y = y' /\ 0 <= x < m_width s /\ 0 <= y < m_height s)
    then (fun _ => a) <$> screen_cell s x' y'
    else screen_cell s x' y'.
Proof.
  unfold outch.
  destruct (decide (x < 0 \/ x >= m_width s)).
  { rewrite decide_False by lia. done. }
  destruct (decide (y < 0 \/ y >= m_height s)).
  { rewrite decide_False by lia. done. }
  rewrite screen_cell_screen_set.
  destruct (decide (x = x' /\ y = y')).
  - rewrite decide_True by lia. done.
  - rewrite decide_False by tauto. done.
Qed.





(** ** What the cursor operations leave alone *)

Lemma set_cursor_frame on s :
  geom (set_cursor on s) = geom s
  /\ cx (set_cursor on s) = cx s /\ cy (set_cursor on s) = cy s
  /\ cnewx (set_cursor on s) = cnewx s
  /\ m_screen (set_cursor on s) = m_screen s
  /\ m_backlog (set_cursor on s) = m_backlog s.
Proof. unfold set_cursor. repeat case_decide; done. Qed.

Lemma set_newx_frame v s :
  geom (set_newx v s) = geom s
  /\ cx (set_newx v s) = cx s /\ cy (set_newx v s) = cy s
  /\ cnewx (set_newx v s) = v
  /\ m_screen (set_newx v s) = m_screen s
  /\ m_backlog (set_newx v s) = m_backlog s.
Proof.
  unfold set_newx.
  destruct (set_cursor_frame false s) as (Hg & Hx & Hy & Hn & Hs & Hb).
  set (s1 := set_cursor false s) in *.
  set (s2 := set_m_cursor (set_cur_newx v (m_cursor s1)) s1).
  assert (H2 : geom s2 = geom s /\ cx s2 = cx s /\ cy s2 = cy s
               /\ cnewx s2 = v /\ m_screen s2 = m_screen s
               /\ m_backlog s2 = m_backlog s).
  { unfold s2, geom, cx, cy, cnewx in *. simpl. done. }
  repeat case_decide; try done.
  destruct (set_cursor_frame (cur_on (m_cursor s2)) s2)
    as (Hg' & Hx' & Hy' & Hn' & Hs' & Hb').
  destruct H2 as (? & ? & ? & ? & ? & ?).
  repeat split; congruence.
Qed.

Lemma set_x_frame v s :
  geom (set_x v s) = geom s /\ cx (set_x v s) = v /\ cy (set_x v s) = cy s
  /\ cnewx (set_x v s) = cnewx s /\ m_screen (set_x v s) = m_screen s
  /\ m_backlog (set_x v s) = m_backlog s.
Proof. done. Qed.

Lemma set_y_frame v s :
  geom (set_y v s) = geom s /\ cx (set_y v s) = cx s /\ cy (set_y v s) = v
  /\ cnewx (set_y v s) = cnewx s /\ m_screen (set_y v s) = m_screen s
  /\ m_backlog (set_y v s) = m_backlog s.
Proof. done. Qed.

Lemma screen_copy_line_ctl d r s : ctl (screen_copy_line d r s) = ctl s.
Proof. unfold screen_copy_line. by destruct (screen_line s r). Qed.

Lemma screen_copy_line_backlog d r s :
  m_backlog (screen_copy_line d r s) = m_backlog s.
Proof. unfold screen_copy_line. by destruct (screen_line s r). Qed.

Lemma add_backlog_ctl l s : ctl (add_backlog l s) = ctl s.
Proof. unfold add_backlog. by case_decide. Qed.

Lemma add_backlog_screen l s : m_screen (add_backlog l s) = m_screen s.
Proof. unfold add_backlog. by case_decide. Qed.

Lemma vt_scroll_dn_ctl s : ctl (vt_scroll_dn s) = ctl s.
Proof.
  unfold vt_scroll_dn. cbn zeta.
  match goal with |- ctl (set_m_screen _ ?t) = _ => set (s1 := t) end.
  assert (ctl s1 = ctl s) as <-; [|done].
  apply for_each_ind; [done|]. intros x s' _ <-. apply screen_copy_line_ctl.
Qed.

Lemma vt_scroll_dn_backlog s : m_backlog (vt_scroll_dn s) = m_backlog s.
Proof.
  unfold vt_scroll_dn. cbn zeta. simpl.
  apply for_each_ind; [done|]. intros x s' _ <-.
  apply screen_copy_line_backlog.
Qed.

Lemma vt_scroll_up_ctl s : ctl (vt_scroll_up s) = ctl s.
Proof.
  unfold vt_scroll_up. cbn zeta.
  match goal with |- ctl (set_m_screen _ ?t) = _ => set (s2 := t) end.
  assert (ctl s2 = ctl s) as <-; [|done].
  apply for_each_ind.
  - case_decide; [|done]. destruct (screen_line s 0); [|done].
    apply add_backlog_ctl.
  - intros x s' _ <-. apply screen_copy_line_ctl.
Qed.

Lemma ctl_fields s s' :
  ctl s' = ctl s ->
  geom s' = geom s /\ cx s' = cx s /\ cy s' = cy s /\ cnewx s' = cnewx s.
Proof.
  unfold ctl. intros H.
  assert (geom s' = geom s) by congruence.
  assert (m_cursor s' = m_cursor s) by congruence.
  unfold cx, cy, cnewx. repeat split; congruence.
Qed.

Lemma geom_fields s s' :
  geom s' = geom s ->
  m_width s' = m_width s /\ m_height s' = m_height s
  /\ m_top s' = m_top s /\ m_bottom s' = m_bottom s /\ m_decom s' = m_decom s.
Proof. unfold geom. intros H. repeat split; congruence. Qed.

(** ** Operations that only move the cursor *)

Lemma at_cursor_eta s :
  at_cursor (cx s) (cy s) (cnewx s) (cur_on (m_cursor s)) s = s.
Proof. destruct s as [? ? ? ? ? ? ? ? ? ? ? [] ?]. reflexivity. Qed.

Lemma at_cursor_at_cursor x y nx b x' y' nx' b' s :
  at_cursor x' y' nx' b' (at_cursor x y nx b s) = at_cursor x' y' nx' b' s.
Proof. reflexivity. Qed.

Lemma set_cursor_nf on s :
  exists b, set_cursor on s = at_cursor (cx s) (cy s) (cnewx s) b s.
Proof.
  unfold set_cursor. repeat case_decide.
  - exists (cur_on (m_cursor s)). by rewrite at_cursor_eta.
  - exists (cur_on (m_cursor s)). by rewrite at_cursor_eta.
  - eexists. reflexivity.
Qed.

Lemma set_cursor_at on x y nx b s :
  exists b', set_cursor on (at_cursor x y nx b s) = at_cursor x y nx b' s.
Proof. destruct (set_cursor_nf on (at_cursor x y nx b s)) as [b' ->]. by exists b'. Qed.

Lemma set_newx_nf v s :
  exists b, set_newx v s = at_cursor (cx s) (cy s) v b s.
Proof.
  unfold set_newx. destruct (set_cursor_nf false s) as [b ->].
  cbn zeta. repeat case_decide; try (by eexists).
  match goal with |- context [set_cursor ?o ?t] =>
    destruct (set_cursor_nf o t) as [b' ->] end.
  by exists b'.
Qed.

Lemma set_newx_at v x y nx b s :
  exists b', set_newx v (at_cursor x y nx b s) = at_cursor x y v b' s.
Proof. destruct (set_newx_nf v (at_cursor x y nx b s)) as [b' ->]. by exists b'. Qed.

Lemma vt_CR_nf s : exists b, vt_CR s = at_cursor 0 (cy s) 0 b s.
Proof.
  unfold vt_CR. destruct (set_cursor_nf false s) as [b1 ->].
  cbn zeta. destruct (set_newx_at 0 (cx s) (cy s) (cnewx s) b1 s) as [b2 ->].
  unfold set_x. simpl.
  match goal with |- context [set_cursor ?o ?t] =>
    destruct (set_cursor_nf o t) as [b3 ->] end.
  by exists b3.
Qed.

Lemma cup_column_clamp x s :
  1 <= m_width s -> cup_column x s = clamp_column s x.
Proof. unfold cup_column, clamp_column, qBound. repeat case_decide; lia. Qed.

Lemma vt_CUP_nf x y s :
  exists b, vt_CUP x y s
            = at_cursor (cup_column x s) (clamp_row s y) (cup_column x s) b s.
Proof.
  unfold vt_CUP, cup_column, clamp_row. cbn zeta.
  destruct (decide (x < 0)).
  - destruct (set_newx_nf 0 s) as [b ->]. exists b.
    simpl. by destruct (m_decom s).
  - destruct (decide (x >= m_width s)).
    + destruct (set_newx_nf (m_width s - 1) s) as [b ->]. exists b.
      simpl. by destruct (m_decom s).
    + destruct (set_newx_nf x s) as [b ->]. exists b.
      simpl. by destruct (m_decom s).
Qed.

Lemma geom_at_cursor x y nx b s : geom (at_cursor x y nx b s) = geom s.
Proof. done. Qed.

Lemma clamp_row_range s y :
  geometry_ok s -> 0 <= clamp_row s y <= m_height s - 1.
Proof.
  unfold geometry_ok, clamp_row, qBound. intros (? & ? & ? & ? & ?).
  destruct (m_decom s); lia.
Qed.

Lemma clamp_column_range s x :
  geometry_ok s -> 0 <= clamp_column s x <= m_width s - 1.
Proof. unfold geometry_ok, clamp_column, qBound. lia. Qed.

Lemma vt_CUP_spec x y s :
  1 <= m_width s ->
  geom (vt_CUP x y s) = geom s
  /\ cx (vt_CUP x y s) = clamp_column s x
  /\ cy (vt_CUP x y s) = clamp_row s y
  /\ cnewx (vt_CUP x y s) = clamp_column s x
  /\ m_screen (vt_CUP x y s) = m_screen s
  /\ m_backlog (vt_CUP x y s) = m_backlog s.
Proof.
  intros Hw. destruct (vt_CUP_nf x y s) as [b ->].
  rewrite <- (cup_column_clamp x s Hw). done.
Qed.

(** ** Line feed and reverse index *)

Lemma on_screen_geom s s' :
  geom s' = geom s -> cx s' = cx s -> cy s' = cy s ->
  on_screen s -> on_screen s'.
Proof.
  intros (Hw & Hh & Ht & Hb & _)%geom_fields Hx Hy.
  unfold on_screen, geometry_ok, cursor_in_range.
  rewrite Hw, Hh, Ht, Hb, Hx, Hy. done.
Qed.

Lemma vt_LF_on_screen s : on_screen s -> on_screen (vt_LF s).
Proof.
  intros Hs. unfold vt_LF. destruct (set_cursor_nf false s) as [b ->].
  cbn zeta.
  match goal with |- on_screen (set_cursor ?o ?t) =>
    destruct (set_cursor_frame o t) as (Hg0 & Hx0 & Hy0 & _);
    apply (on_screen_geom t); [done..|]; clear Hg0 Hx0 Hy0 end.
  change (cy (at_cursor _ _ _ _ _)) with (cy s).
  change (m_bottom (at_cursor _ _ _ _ _)) with (m_bottom s).
  change (m_height (at_cursor _ _ _ _ _)) with (m_height s).
  repeat case_decide.
  - match goal with |- on_screen (vt_scroll_up ?t) =>
      destruct (ctl_fields _ _ (vt_scroll_up_ctl t)) as (Hg & Hx & Hy & _);
      apply (on_screen_geom s); [by rewrite Hg|by rewrite Hx|by rewrite Hy|done]
    end.
  - destruct Hs as [Hgeo [Hy Hx]]. split; [done|].
    unfold cursor_in_range, cy, cx in *. simpl. lia.
  - apply (on_screen_geom s); done.
Qed.

Lemma vt_RI_on_screen s : on_screen s -> on_screen (vt_RI s).
Proof.
  intros Hs. unfold vt_RI. destruct (set_cursor_nf false s) as [b ->].
  cbn zeta.
  match goal with |- on_screen (set_cursor ?o ?t) =>
    destruct (set_cursor_frame o t) as (Hg0 & Hx0 & Hy0 & _);
    apply (on_screen_geom t); [done..|]; clear Hg0 Hx0 Hy0 end.
  change (cy (at_cursor _ _ _ _ _)) with (cy s).
  change (m_top (at_cursor _ _ _ _ _)) with (m_top s).
  destruct Hs as [Hgeo [Hy Hx]].
  repeat case_decide.
  - match goal with |- on_screen (set_y _ (vt_scroll_dn ?t)) =>
      destruct (ctl_fields _ _ (vt_scroll_dn_ctl t)) as (Hg & Hx' & Hy' & _);
      apply geom_fields in Hg; destruct Hg as (Hw & Hh & Ht & Hb & _) end.
    unfold on_screen, geometry_ok, cursor_in_range in *.
    change (geom (set_y ?v ?t)) with (geom t).
    unfold cy, cx in *. simpl in *.
    rewrite Hw, Hh, Ht, Hb, Hx'. simpl. lia.
  - split; [done|]. unfold cursor_in_range, cy, cx in *. simpl. lia.
  - split; done.
Qed.

Lemma vt_CR_on_screen s : on_screen s -> on_screen (vt_CR s).
Proof.
  intros [Hgeo [Hy Hx]]. destruct (vt_CR_nf s) as [b ->].
  split; [done|]. unfold cursor_in_range, cx, cy, geometry_ok in *.
  simpl. lia.
Qed.

Lemma vt_NEL_on_screen s : on_screen s -> on_screen (vt_NEL s).
Proof. intros Hs. by apply vt_LF_on_screen, vt_CR_on_screen. Qed.

Lemma repeat_n_ind {S} (P : S -> Prop) n (f : S -> S) s :
  P s -> (forall s, P s -> P (f s)) -> P (repeat_n n f s).
Proof.
  intros Hs Hf. unfold repeat_n.
  induction (Z.to_nat n) as [|k IH]; simpl; auto.
Qed.

Lemma vt_CUP_on_screen x y s : on_screen s -> on_screen (vt_CUP x y s).
Proof.
  intros [Hgeo Hc].
  destruct (vt_CUP_spec x y s) as (Hg & Hx & Hy & _); [apply Hgeo|].
  apply geom_fields in Hg. destruct Hg as (Hw & Hh & Ht & Hb & _).
  pose proof (clamp_row_range s y Hgeo).
  pose proof (clamp_column_range s x Hgeo).
  unfold on_screen, geometry_ok, cursor_in_range in *.
  rewrite Hw, Hh, Ht, Hb, Hx, Hy. tauto.
Qed.

Lemma set_x_on_screen s : on_screen (set_x (cnewx s) s) <-> geometry_ok s /\
  (0 <= cy s <= m_height s - 1) /\ (0 <= cnewx s <= m_width s - 1).
Proof. done. Qed.

Lemma run_move_on_screen m s : on_screen s -> on_screen (run_move m s).
Proof.
  intros Hs. destruct m as [n|n|n|n|n|n|x|x y]; simpl.
  - unfold vt_CUU. cbn zeta.
    destruct (vt_CUP_spec (cx (set_x (cnewx s) s)) (int_wrap (cy s - n))
                (set_x (cnewx s) s)) as (Hg & Hx & Hy & _); [apply Hs|].
    destruct Hs as [Hgeo Hc].
    pose proof (clamp_row_range (set_x (cnewx s) s) (int_wrap (cy s - n)) Hgeo).
    pose proof (clamp_column_range (set_x (cnewx s) s)
                  (cx (set_x (cnewx s) s)) Hgeo).
    apply geom_fields in Hg. destruct Hg as (Hw & Hh & Ht & Hb & _).
    unfold on_screen, geometry_ok, cursor_in_range in *.
    rewrite Hw, Hh, Ht, Hb, Hx, Hy. simpl in *. tauto.
  - unfold vt_CUD. cbn zeta.
    destruct (vt_CUP_spec (cx (set_x (cnewx s) s)) (int_wrap (cy s + n))
                (set_x (cnewx s) s)) as (Hg & Hx & Hy & _); [apply Hs|].
    destruct Hs as [Hgeo Hc].
    pose proof (clamp_row_range (set_x (cnewx s) s) (int_wrap (cy s + n)) Hgeo).
    pose proof (clamp_column_range (set_x (cnewx s) s)
                  (cx (set_x (cnewx s) s)) Hgeo).
    apply geom_fields in Hg. destruct Hg as (Hw & Hh & Ht & Hb & _).
    unfold on_screen, geometry_ok, cursor_in_range in *.
    rewrite Hw, Hh, Ht, Hb, Hx, Hy. simpl in *. tauto.
  - by apply vt_CUP_on_screen.
  - by apply vt_CUP_on_screen.
  - unfold vt_CNL. apply repeat_n_ind; [done | apply vt_NEL_on_screen].
  - unfold vt_CPL. apply repeat_n_ind; [done | apply vt_RI_on_screen].
  - by apply vt_CUP_on_screen.
  - by apply vt_CUP_on_screen.
Qed.

Lemma states_after_on_screen ms s :
  on_screen s -> Forall on_screen (states_after ms s).
Proof.
  revert s. induction ms as [|m ms IH]; intros s Hs; simpl; [done|].
  pose proof (run_move_on_screen m s Hs). constructor; auto.
Qed.

Lemma cup_target_clamped m s x y :
  1 <= m_width s -> cup_target m s = Some (x, y) ->
  cx (run_move m s) = clamp_column s x /\ cy (run_move m s) = clamp_row s y.
Proof.
  intros Hw Ht.
  destruct m as [n|n|n|n|n|n|c|c r]; simpl in Ht; try discriminate;
    injection Ht as <- <-; simpl.
  - unfold vt_CUU. cbn zeta.
    destruct (vt_CUP_spec (cx (set_x (cnewx s) s)) (int_wrap (cy s - n))
                (set_x (cnewx s) s)) as (_ & Hx & Hy & _); done.
  - unfold vt_CUD. cbn zeta.
    destruct (vt_CUP_spec (cx (set_x (cnewx s) s)) (int_wrap (cy s + n))
                (set_x (cnewx s) s)) as (_ & Hx & Hy & _); done.
  - destruct (vt_CUP_spec (int_wrap (cnewx s + n)) (cy s) s)
      as (_ & Hx & Hy & _); done.
  - destruct (vt_CUP_spec (int_wrap (cnewx s - n)) (cy s) s)
      as (_ & Hx & Hy & _); done.
  - destruct (vt_CUP_spec c (cy s) s) as (_ & Hx & Hy & _); done.
  - unfold vt_CUA.
    destruct (vt_CUP_spec c (if m_decom s then int_wrap (m_top s + r) else r) s)
      as (_ & Hx & Hy & _); done.
Qed.

(** C3 (as amended): after every command of any sequence of cursor
    movement commands with arbitrary integer arguments the cursor row is in
    [0, rows-1] and the cursor column in [0, columns-1].  Up, down,
    forward, back, absolute column and absolute position compute a target
    and end on its column clamped to [0, columns-1] and its row clamped to
    [top, bottom-1] in origin mode and to [0, rows-1] otherwise.  (Next
    line and previous line are loops of NEL and RI, which scroll at the
    margins of the region, and compute no target.) *)
Theorem cursor_moves_stay_on_screen (ms : list move) (s : vt220) :
  geometry_ok s -> cursor_in_range s ->
  Forall cursor_in_range (states_after ms s)
  /\ forall m x y, cup_target m s = Some (x, y) ->
       cx (run_move m s) = clamp_column s x
       /\ cy (run_move m s) = clamp_row s y.
Proof.
  intros Hg Hc. split.
  - eapply Forall_impl; [apply states_after_on_screen; by split|].
    by intros s' [_ ?].
  - intros m x y. apply cup_target_clamped, Hg.
Qed.

Lemma cursor_moves_stay_on_screen_witness :
  Forall cursor_in_range
    (states_after [Up 5; NextLine 3; Back 100; Position 7 (-2); PrevLine 9]
       region_state)
  /\ forall m x y, cup_target m region_state = Some (x, y) ->
       cx (run_move m region_state) = clamp_column region_state x
       /\ cy (run_move m region_state) = clamp_row region_state y.
Proof.
  apply (cursor_moves_stay_on_screen _ region_state).
  - unfold geometry_ok. cbn. lia.
  - unfold cursor_in_range. cbn. lia.
Defined.

(** The claim as worded fails for next line: at the bottom margin of a
    region that ends above the last row the cursor stays where it is, while
    the clamped target is the row below. *)
Lemma next_line_is_not_clamped :
  cy (run_move (NextLine 1) region_state)
  <> clamp_row region_state (spec_target_row (NextLine 1) region_state).
Proof. vm_compute. discriminate. Qed.

Lemma int_wrap_id z : - 2 ^ 31 <= z < 2 ^ 31 -> int_wrap z = z.
Proof. intros H. unfold int_wrap. rewrite Z.mod_small; lia. Qed.

Lemma screen_ok_line s y :
  screen_ok s -> 0 <= y < m_height s ->
  exists l, screen_line s y = Some l
            /\ Z.of_nat (length (cells l)) = m_width s.
Proof.
  intros [Hlen Hall] Hy.
  destruct (proj2 (zlookup_is_Some (m_screen s) y)) as [l Hl]; [lia|].
  exists l. split; [done|].
  unfold zlookup in Hl. case_decide; [|done].
  rewrite Forall_lookup in Hall. eauto.
Qed.

Lemma screen_ok_cell s x y :
  screen_ok s -> 0 <= x < m_width s -> 0 <= y < m_height s ->
  is_Some (screen_cell s x y).
Proof.
  intros Hok Hx Hy. destruct (screen_ok_line s y Hok Hy) as (l & Hl & Hw).
  unfold screen_cell. rewrite Hl. unfold cell_at.
  apply zlookup_is_Some. lia.
Qed.

(** ** Erase character *)




(** ** Scrolling up *)

Lemma zrange_nil lo hi : hi <= lo -> zrange lo hi = [].
Proof. intros H. unfold zrange. by replace (Z.to_nat (hi - lo)) with 0%nat by lia. Qed.

Lemma zrange_cons lo hi : lo < hi -> zrange lo hi = lo :: zrange (lo + 1) hi.
Proof.
  intros H. unfold zrange.
  replace (Z.to_nat (hi - lo)) with (S (Z.to_nat (hi - (lo + 1)))) by lia.
  cbn [seq map]. f_equal; [lia|].
  rewrite <- seq_shift, map_map. apply map_ext. intros i. lia.
Qed.

Lemma screen_line_copy d r s y :
  screen_line (screen_copy_line d r s) y
  = match screen_line s r with
    | Some l => if decide (d = y) then (fun _ => l) <$> screen_line s y
                else screen_line s y
    | None => screen_line s y
    end.
Proof.
  unfold screen_copy_line. destruct (screen_line s r) as [l|] eqn:Hr; [|done].
  unfold screen_line. simpl. apply zlookup_zinsert.
Qed.

Lemma screen_length_copy d r s :
  length (m_screen (screen_copy_line d r s)) = length (m_screen s).
Proof.
  unfold screen_copy_line. destruct (screen_line s r); [|done].
  simpl. apply length_zalter.
Qed.

(** The copy loop of [vt_scroll_up]: every row of [lo, hi) takes the
    content of the row below. *)
Lemma shift_up_lines (k : nat) : forall lo hi s y,
  Z.to_nat (hi - lo) = k -> 0 <= lo ->
  hi < Z.of_nat (length (m_screen s)) ->
  screen_line
    (for_each (zrange lo hi) (fun y s => screen_copy_line y (y + 1) s) s) y
  = if decide (lo <= y < hi) then screen_line s (y + 1) else screen_line s y.
Proof.
  induction k as [|k IH]; intros lo hi s y Hk Hlo Hhi.
  - rewrite zrange_nil by lia. simpl. rewrite decide_False by lia. done.
  - rewrite zrange_cons by lia. unfold for_each. cbn [fold_left].
    fold (for_each (zrange (lo + 1) hi)
            (fun y s => screen_copy_line y (y + 1) s)
            (screen_copy_line lo (lo + 1) s)).
    rewrite IH; [|lia|lia|by rewrite screen_length_copy].
    rewrite !screen_line_copy.
    destruct (proj2 (zlookup_is_Some (m_screen s) (lo + 1))) as [l Hl]; [lia|].
    unfold screen_line at 1 3. rewrite Hl.
    destruct (proj2 (zlookup_is_Some (m_screen s) lo)) as [l0 Hl0]; [lia|].
    repeat case_decide; subst; try lia; try done.
    all: unfold screen_line; rewrite ?Hl0, ?Hl; done.
Qed.

Lemma for_each_copy_length xs (g : Z -> Z) s :
  length (m_screen (for_each xs (fun y s => screen_copy_line y (g y) s) s))
  = length (m_screen s).
Proof.
  apply (for_each_ind (fun s' => length (m_screen s') = length (m_screen s)));
    [done|].
  intros x s' _ <-. apply screen_length_copy.
Qed.

Lemma blank_line_eq s l :
  blank_line s l = new_line (m_width s) (space_of (m_att s)).
Proof. done. Qed.

Lemma pushed_top_ctl s : ctl (pushed_top s) = ctl s.
Proof.
  unfold pushed_top. case_decide; [|done].
  destruct (screen_line s 0); [apply add_backlog_ctl | done].
Qed.

Lemma pushed_top_screen s : m_screen (pushed_top s) = m_screen s.
Proof.
  unfold pushed_top. case_decide; [|done].
  destruct (screen_line s 0); [apply add_backlog_screen | done].
Qed.

Lemma vt_scroll_up_lines s y :
  0 <= m_top s -> m_top s < m_bottom s ->
  m_bottom s <= Z.of_nat (length (m_screen s)) ->
  screen_line (vt_scroll_up s) y
  = if decide (m_top s <= y < m_bottom s - 1) then screen_line s (y + 1)
    else if decide (y = m_bottom s - 1)
         then Some (new_line (m_width s) (space_of (m_att s)))
         else screen_line s y.
Proof.
  intros Ht Htb Hb. unfold vt_scroll_up. fold (pushed_top s). cbn zeta.
  pose proof (pushed_top_ctl s) as Hctl.
  pose proof (pushed_top_screen s) as Hscr.
  set (s1 := pushed_top s) in *.
  set (s2 := for_each _ _ s1).
  assert (Hctl2 : ctl s2 = ctl s).
  { rewrite <- Hctl. unfold s2.
    apply (for_each_ind (fun s' => ctl s' = ctl s1)). 1: reflexivity.
    intros x s' _ <-. apply screen_copy_line_ctl. }
  assert (Hgeo : geom s1 = geom s) by (unfold ctl in Hctl; congruence).
  apply geom_fields in Hgeo. destruct Hgeo as (_ & _ & Ht1 & Hb1 & _).
  assert (Hlines : forall z, screen_line s2 z
            = if decide (m_top s <= z < m_bottom s - 1)
              then screen_line s (z + 1) else screen_line s z).
  { intros z. unfold s2. rewrite Ht1, Hb1.
    rewrite (shift_up_lines _ _ _ _ _ eq_refl); [|lia|rewrite Hscr; lia].
    unfold screen_line. by rewrite Hscr. }
  assert (Hgeo2 : geom s2 = geom s) by (unfold ctl in Hctl2; congruence).
  apply geom_fields in Hgeo2. destruct Hgeo2 as (Hw2 & _ & _ & Hb2 & _).
  assert (Hatt : m_att s2 = m_att s) by (unfold ctl in Hctl2; congruence).
  unfold screen_line at 1. simpl. rewrite zlookup_zalter.
  fold (screen_line s2 y). rewrite Hlines, Hb2.
  destruct (proj2 (zlookup_is_Some (m_screen s) (m_bottom s - 1)))
    as [l Hl]; [lia|].
  repeat case_decide; subst; try lia; try done.
  unfold screen_line. rewrite Hl. simpl.
  rewrite blank_line_eq, Hw2, Hatt. done.
Qed.

Lemma vt_scroll_up_backlog s :
  m_backlog (vt_scroll_up s) = m_backlog (pushed_top s).
Proof.
  unfold vt_scroll_up. fold (pushed_top s). cbn zeta. simpl.
  apply for_each_ind; [done|]. intros x s' _ <-.
  apply screen_copy_line_backlog.
Qed.

(** ** Line feed at the bottom margin *)





(** ** The scrollback log *)

Lemma add_backlog_log l s :
  m_backlog (add_backlog l s) = log_push (m_backlog_max s) (m_backlog s) l.
Proof. unfold add_backlog, log_push. by case_decide. Qed.


Lemma vt_scroll_up_screen_ok s :
  geometry_ok s -> screen_ok s -> screen_ok (vt_scroll_up s).
Proof.
  intros (Hw & Hh & Ht & Htb & Hb) [Hlen Hall].
  assert (Hlines := vt_scroll_up_lines s).
  destruct (ctl_fields _ _ (vt_scroll_up_ctl s)) as (Hg & _).
  apply geom_fields in Hg. destruct Hg as (Hw' & Hh' & _).
  assert (Hl' : length (m_screen (vt_scroll_up s)) = length (m_screen s)).
  { unfold vt_scroll_up. fold (pushed_top s). cbn zeta. simpl.
    rewrite length_zalter, for_each_copy_length. by rewrite pushed_top_screen. }
  split; [lia|].
  rewrite Hw'. apply Forall_lookup. intros i l Hi.
  assert (Hz : screen_line (vt_scroll_up s) (Z.of_nat i) = Some l).
  { unfold screen_line, zlookup. rewrite decide_True by lia.
    by rewrite Nat2Z.id. }
  rewrite Hlines in Hz by lia.
  rewrite Forall_lookup in Hall.
  repeat case_decide.
  - unfold screen_line, zlookup in Hz. case_decide; [|done]. eauto.
  - injection Hz as <-. unfold new_line. simpl. rewrite length_replicate. lia.
  - unfold screen_line, zlookup in Hz. case_decide; [|done]. eauto.
Qed.

Lemma vt_scroll_up_geometry_ok s :
  geometry_ok s -> geometry_ok (vt_scroll_up s).
Proof.
  intros Hg. destruct (ctl_fields _ _ (vt_scroll_up_ctl s)) as (Hgeo & _).
  apply geom_fields in Hgeo. destruct Hgeo as (Hw & Hh & Ht & Hb & _).
  unfold geometry_ok. by rewrite Hw, Hh, Ht, Hb.
Qed.

(** On a full-height region, [n] scrolls push exactly the evicted rows. *)
Lemma scroll_up_log (n : nat) : forall s,
  geometry_ok s -> screen_ok s -> m_top s = 0 -> m_bottom s = m_height s ->
  m_backlog (Nat.iter n vt_scroll_up s)
  = fold_left (log_push (m_backlog_max s)) (evicted n s) (m_backlog s)
  /\ length (evicted n s) = n.
Proof.
  induction n as [|n IH]; intros s Hg Hok Ht Hb; [done|].
  rewrite Nat.iter_succ_r. cbn [evicted].
  destruct (screen_ok_line s 0 Hok) as (l & Hl & _); [unfold geometry_ok in Hg; lia|].
  rewrite Hl. cbn [from_option app fold_left].
  pose proof (vt_scroll_up_ctl s) as Hctl.
  destruct (ctl_fields _ _ Hctl) as (Hgeo & _).
  apply geom_fields in Hgeo. destruct Hgeo as (Hw' & Hh' & Ht' & Hb' & _).
  assert (Hmax : m_backlog_max (vt_scroll_up s) = m_backlog_max s)
    by (unfold ctl in Hctl; congruence).
  destruct (IH (vt_scroll_up s)) as [-> HlenE];
    [by apply vt_scroll_up_geometry_ok|by apply vt_scroll_up_screen_ok
     |congruence|congruence|].
  split; [|by rewrite <- HlenE at 2]. rewrite Hmax. f_equal.
  rewrite vt_scroll_up_backlog. unfold pushed_top.
  rewrite decide_True by (split; congruence). rewrite Hl.
  apply add_backlog_log.
Qed.



(** ** Operations on the screen and the cursor only *)

Lemma screen_only_refl s : screen_only s s.
Proof.
  exists (m_screen s), (m_backlog s), (m_cursor s), (m_att s). by destruct s.
Qed.

Lemma screen_only_trans s1 s2 s3 :
  screen_only s1 s2 -> screen_only s2 s3 -> screen_only s1 s3.
Proof.
  intros (a & b & c & d & ->) (a' & b' & c' & d' & ->).
  by exists a', b', c', d'.
Qed.

Lemma screen_only_set_m_screen scr s : screen_only s (set_m_screen scr s).
Proof. exists scr, (m_backlog s), (m_cursor s), (m_att s). by destruct s. Qed.

Lemma screen_only_set_m_backlog bl s : screen_only s (set_m_backlog bl s).
Proof. exists (m_screen s), bl, (m_cursor s), (m_att s). by destruct s. Qed.

Lemma screen_only_set_m_cursor c s : screen_only s (set_m_cursor c s).
Proof. exists (m_screen s), (m_backlog s), c, (m_att s). by destruct s. Qed.

Lemma screen_only_set_m_att a s : screen_only s (set_m_att a s).
Proof. exists (m_screen s), (m_backlog s), (m_cursor s), a. by destruct s. Qed.

Create HintDb scr discriminated.
#[local] Hint Constants Opaque : scr.
#[local] Hint Variables Opaque : scr.

#[local] Hint Resolve screen_only_set_m_screen screen_only_set_m_backlog
  screen_only_set_m_cursor screen_only_set_m_att : scr.

(** Composition, in the shape the definitions have: the outer operation
    applied to the result of the inner ones. *)
Lemma screen_only_step (f : vt220 -> vt220) s s' :
  screen_only s s' -> (forall t, screen_only t (f t)) -> screen_only s (f s').
Proof. intros H Hf. eapply screen_only_trans; [exact H | apply Hf]. Qed.

Lemma screen_only_for_each xs (body : Z -> vt220 -> vt220) s :
  (forall x t, screen_only t (body x t)) ->
  screen_only s (for_each xs body s).
Proof.
  intros Hb. apply (for_each_ind (screen_only s)); [apply screen_only_refl|].
  intros x t _ Ht. eapply screen_only_trans; [exact Ht | apply Hb].
Qed.

Lemma screen_only_repeat_n n (f : vt220 -> vt220) s :
  (forall t, screen_only t (f t)) -> screen_only s (repeat_n n f s).
Proof.
  intros Hf. apply (repeat_n_ind (screen_only s)); [apply screen_only_refl|].
  intros t Ht. eapply screen_only_trans; [exact Ht | apply Hf].
Qed.

Lemma screen_only_let (a : vt220) (b : vt220 -> vt220) s :
  screen_only s a -> (forall t, screen_only t (b t)) ->
  screen_only s (let x := a in b x).
Proof. intros Ha Hb. eapply screen_only_trans; [exact Ha | apply Hb]. Qed.

(** Chains of operations are closed one call at a time; a [let] that binds
    a state is cut there, so that the terms stay small. *)
Ltac scr_step :=
  lazymatch goal with
  | |- screen_only ?s ?t =>
      first [ constr_eq s t; apply screen_only_refl | fail ]
  end
  || lazymatch goal with
  | |- screen_only ?s (let x := ?a in @?b x) =>
      lazymatch type of a with
      | vt220 => refine (screen_only_let a b s _ _); [|intros ?]
      | _ => let t := eval cbv beta in (b a) in change (screen_only s t)
      end
  | |- screen_only _ (if ?c then _ else _) => destruct c
  | |- screen_only _ (match ?c with Some _ => _ | None => _ end) =>
      destruct c
  | |- screen_only _ (match ?c with [] => _ | _ :: _ => _ end) =>
      destruct c
  | |- screen_only _ (for_each _ _ _) =>
      eapply screen_only_trans; [|apply screen_only_for_each; intros ? ?]
  | |- screen_only _ (repeat_n _ _ _) =>
      eapply screen_only_trans; [|apply screen_only_repeat_n; intros ?]
  | |- screen_only ?s (?f ?t) =>
      apply (screen_only_trans s t); [|solve [auto with scr]]
  end.

Ltac scr := repeat scr_step.

Lemma screen_only_set_x v s : screen_only s (set_x v s).
Proof. unfold set_x. auto with scr. Qed.

Lemma screen_only_set_y v s : screen_only s (set_y v s).
Proof. unfold set_y. auto with scr. Qed.

Lemma screen_only_screen_set x y a s : screen_only s (screen_set x y a s).
Proof. unfold screen_set. auto with scr. Qed.

#[local] Hint Resolve screen_only_set_x screen_only_set_y
  screen_only_screen_set : scr.

Lemma screen_only_screen_copy_line d r s :
  screen_only s (screen_copy_line d r s).
Proof. unfold screen_copy_line. scr. Qed.

Lemma screen_only_add_backlog l s : screen_only s (add_backlog l s).
Proof. unfold add_backlog. scr. Qed.

Lemma screen_only_outch x y a s : screen_only s (outch x y a s).
Proof. unfold outch. scr. Qed.

Lemma screen_only_set_cursor on s : screen_only s (set_cursor on s).
Proof. unfold set_cursor. scr. Qed.

#[local] Hint Resolve screen_only_screen_copy_line screen_only_add_backlog
  screen_only_outch screen_only_set_cursor : scr.

Lemma screen_only_set_newx v s : screen_only s (set_newx v s).
Proof. unfold set_newx. scr. Qed.

Lemma screen_only_outch_from x x' y s : screen_only s (outch_from x x' y s).
Proof. unfold outch_from. scr. Qed.

#[local] Hint Resolve screen_only_set_newx screen_only_outch_from : scr.

Lemma screen_only_zap x0 y0 x1 y1 c s : screen_only s (zap x0 y0 x1 y1 c s).
Proof. unfold zap. scr. Qed.

Lemma screen_only_vt_scroll_dn s : screen_only s (vt_scroll_dn s).
Proof. unfold vt_scroll_dn. scr. Qed.

Lemma screen_only_vt_scroll_up s : screen_only s (vt_scroll_up s).
Proof. unfold vt_scroll_up. scr. Qed.

#[local] Hint Resolve screen_only_zap screen_only_vt_scroll_dn
  screen_only_vt_scroll_up : scr.

Lemma screen_only_vt_CR s : screen_only s (vt_CR s).
Proof. unfold vt_CR. scr. Qed.

Lemma screen_only_vt_LF s : screen_only s (vt_LF s).
Proof. unfold vt_LF. scr. Qed.

#[local] Hint Resolve screen_only_vt_CR screen_only_vt_LF : scr.

Lemma screen_only_vt_BS s : screen_only s (vt_BS s).
Proof. unfold vt_BS. scr. Qed.

Lemma screen_only_tab_loop k a s : screen_only s (tab_loop k a s).
Proof.
  revert s. induction k as [|k IH]; intros s; cbn [tab_loop]; [scr|].
  destruct (decide _); [|scr]. cbn zeta. destruct (decide _).
  - scr.
  - eapply screen_only_trans; [|apply IH]. scr.
Qed.

#[local] Hint Resolve screen_only_vt_BS screen_only_tab_loop : scr.

Lemma screen_only_vt_TAB s : screen_only s (vt_TAB s).
Proof. unfold vt_TAB. scr. Qed.

Lemma screen_only_vt_RI s : screen_only s (vt_RI s).
Proof. unfold vt_RI. scr. Qed.

Lemma screen_only_vt_IND s : screen_only s (vt_IND s).
Proof. unfold vt_IND. scr. Qed.

Lemma screen_only_vt_NEL s : screen_only s (vt_NEL s).
Proof. unfold vt_NEL. scr. Qed.

Lemma screen_only_vt_VT s : screen_only s (vt_VT s).
Proof. unfold vt_VT. scr. Qed.

Lemma screen_only_vt_FF s : screen_only s (vt_FF s).
Proof. unfold vt_FF. scr. Qed.

Lemma screen_only_vt_CUP x y s : screen_only s (vt_CUP x y s).
Proof. unfold vt_CUP. scr. Qed.

#[local] Hint Resolve screen_only_vt_TAB screen_only_vt_RI screen_only_vt_IND
  screen_only_vt_NEL screen_only_vt_VT screen_only_vt_FF screen_only_vt_CUP
  : scr.

Lemma screen_only_vt_CUU n s : screen_only s (vt_CUU n s).
Proof. unfold vt_CUU. scr. Qed.

Lemma screen_only_vt_CUD n s : screen_only s (vt_CUD n s).
Proof. unfold vt_CUD. scr. Qed.

Lemma screen_only_vt_CUF n s : screen_only s (vt_CUF n s).
Proof. unfold vt_CUF. scr. Qed.

Lemma screen_only_vt_CUB n s : screen_only s (vt_CUB n s).
Proof. unfold vt_CUB. scr. Qed.

Lemma screen_only_vt_CHA n s : screen_only s (vt_CHA n s).
Proof. unfold vt_CHA. scr. Qed.

Lemma screen_only_vt_CNL n s : screen_only s (vt_CNL n s).
Proof. unfold vt_CNL. scr. Qed.

Lemma screen_only_vt_CPL n s : screen_only s (vt_CPL n s).
Proof. unfold vt_CPL. scr. Qed.

Lemma screen_only_vt_CHT n s : screen_only s (vt_CHT n s).
Proof. unfold vt_CHT. scr. Qed.

Lemma screen_only_vt_CUA x y s : screen_only s (vt_CUA x y s).
Proof. unfold vt_CUA. scr. Qed.

Lemma screen_only_vt_ED n s : screen_only s (vt_ED n s).
Proof. unfold vt_ED. scr. Qed.

Lemma screen_only_vt_EL n s : screen_only s (vt_EL n s).
Proof. unfold vt_EL. scr. Qed.

Lemma screen_only_vt_ICH n s : screen_only s (vt_ICH n s).
Proof. unfold vt_ICH. scr. Qed.

Lemma screen_only_vt_DCH n s : screen_only s (vt_DCH n s).
Proof. unfold vt_DCH. scr. Qed.

Lemma screen_only_vt_ECH n s : screen_only s (vt_ECH n s).
Proof. unfold vt_ECH. scr. Qed.

#[local] Hint Resolve screen_only_vt_CUU screen_only_vt_CUD screen_only_vt_CUF
  screen_only_vt_CUB screen_only_vt_CHA screen_only_vt_CNL screen_only_vt_CPL
  screen_only_vt_CHT screen_only_vt_CUA screen_only_vt_ED screen_only_vt_EL
  screen_only_vt_ICH screen_only_vt_DCH screen_only_vt_ECH : scr.

(** Insert line and delete line move [m_top] and put it back. *)
Lemma screen_only_top (f : vt220 -> vt220) v s :
  (forall t, screen_only t (f t)) ->
  screen_only s (set_m_top (m_top s) (f (set_m_top v s))).
Proof.
  intros Hf. destruct (Hf (set_m_top v s)) as (a & b & c & d & ->).
  exists a, b, c, d. by destruct s.
Qed.

Lemma screen_only_vt_IL n s : screen_only s (vt_IL n s).
Proof.
  unfold vt_IL. cbn zeta.
  eapply screen_only_trans; [apply (screen_only_set_x (cnewx s) s)|].
  change (m_top s) with (m_top (set_x (cnewx s) s)).
  apply (screen_only_top (repeat_n n vt_scroll_dn)). intros t. scr.
Qed.

Lemma screen_only_vt_DL n s : screen_only s (vt_DL n s).
Proof.
  unfold vt_DL. cbn zeta.
  eapply screen_only_trans; [apply (screen_only_set_x (cnewx s) s)|].
  change (m_top s) with (m_top (set_x (cnewx s) s)).
  apply (screen_only_top (repeat_n n vt_scroll_up)). intros t. scr.
Qed.

Lemma screen_only_put_glyph E tc s : screen_only s (put_glyph E tc s).
Proof. cbv beta delta [put_glyph]. scr. Qed.

(** ** The decoder at the head of [putch] *)

(** What the screen operations leave alone, field by field. *)
Lemma screen_only_rest s s' :
  screen_only s s' ->
  m_state s' = m_state s /\ m_csi_args s' = m_csi_args s
  /\ m_pal s' = m_pal s /\ m_tabstop s' = m_tabstop s
  /\ m_utf_mode s' = m_utf_mode s /\ m_utf_more s' = m_utf_more s
  /\ m_utf_code s' = m_utf_code s /\ m_utf_code_min s' = m_utf_code_min s
  /\ m_trans s' = m_trans s /\ m_shift s' = m_shift s
  /\ m_dspctrl s' = m_dspctrl s /\ m_ques s' = m_ques s
  /\ geom s' = geom s.
Proof. intros (a & b & c & d & ->). repeat split. Qed.

Lemma decoder_only_refl s : decoder_only s s.
Proof.
  exists (m_utf_more s), (m_utf_code s), (m_utf_code_min s), (m_att s),
    (m_trans s), (m_shift s). by destruct s.
Qed.

Lemma decoder_only_trans s1 s2 s3 :
  decoder_only s1 s2 -> decoder_only s2 s3 -> decoder_only s1 s3.
Proof.
  intros (a & b & c & d & e & f & ->) (a' & b' & c' & d' & e' & f' & ->).
  by exists a', b', c', d', e', f'.
Qed.

Lemma decoder_only_rest s s' :
  decoder_only s s' ->
  m_state s' = m_state s /\ m_csi_args s' = m_csi_args s
  /\ m_pal s' = m_pal s /\ m_tabstop s' = m_tabstop s
  /\ m_utf_mode s' = m_utf_mode s /\ m_screen s' = m_screen s
  /\ m_cursor s' = m_cursor s /\ m_backlog s' = m_backlog s
  /\ m_dspctrl s' = m_dspctrl s /\ geom s' = geom s.
Proof. intros (a & b & c & d & e & f & ->). repeat split. Qed.

Lemma decoder_only_end_shift s : decoder_only s (end_shift s).
Proof.
  unfold end_shift. case_decide; [|apply decoder_only_refl]. cbn zeta.
  exists (m_utf_more s), (m_utf_code s), (m_utf_code_min s),
    (set_charset (uchar (m_shift s)) (m_att s)),
    (gmaps_at s (uchar (m_shift s))), (-1).
  by destruct s.
Qed.

Lemma decoder_only_utf more code min s :
  decoder_only s
    (set_m_utf_code_min min (set_m_utf_code code (set_m_utf_more more s))).
Proof.
  exists more, code, min, (m_att s), (m_trans s), (m_shift s). by destruct s.
Qed.

Lemma decoder_only_utf_more more s : decoder_only s (set_m_utf_more more s).
Proof.
  exists more, (m_utf_code s), (m_utf_code_min s), (m_att s), (m_trans s),
    (m_shift s). by destruct s.
Qed.

Lemma decoder_only_utf_code code s : decoder_only s (set_m_utf_code code s).
Proof.
  exists (m_utf_more s), code, (m_utf_code_min s), (m_att s), (m_trans s),
    (m_shift s). by destruct s.
Qed.

Ltac dec_step :=
  match goal with
  | |- decoder_only ?s ?s => apply decoder_only_refl
  | |- decoder_only _ (end_shift _) =>
      eapply decoder_only_trans; [|apply decoder_only_end_shift]
  | |- decoder_only _ (utf_lead _ _ _ _ _) =>
      eapply decoder_only_trans; [|apply decoder_only_utf]
  | |- decoder_only _ (set_m_utf_more _ _) =>
      eapply decoder_only_trans; [|apply decoder_only_utf_more]
  | |- decoder_only _ (set_m_utf_code _ _) =>
      eapply decoder_only_trans; [|apply decoder_only_utf_code]
  end.

Lemma decoder_only_decode_utf8 E l s :
  decoder_only s (decode_utf8 E l s).2.
Proof.
  unfold decode_utf8. cbn zeta.
  repeat case_decide; cbn [snd]; repeat dec_step.
Qed.

Lemma decoder_only_decode_byte l s :
  decoder_only s (decode_byte l s).2.
Proof. unfold decode_byte. cbn [snd]. repeat dec_step. Qed.

(** Outside [ESnormal] the head of [putch] puts nothing on the screen: it
    returns on a pending sequence or hands the byte on, and only the
    decoder has changed. *)
Lemma putch_front_escape E (fuel : nat) l s :
  m_state s <> ESnormal -> (0 < fuel)%nat ->
  exists s', decoder_only s s'
    /\ (putch_front E fuel l s = Some (Returned s')
        \/ exists ch, putch_front E fuel l s = Some (Broke ch s')).
Proof.
  intros Hst Hfuel. destruct fuel as [|k]; [lia|]. cbn [putch_front].
  destruct (m_utf_mode s).
  - pose proof (decoder_only_decode_utf8 E l s) as Hd.
    destruct (decode_utf8 E l s) as [l' s'] eqn:Heq. cbn [snd] in Hd.
    exists s'. split; [done|].
    destruct (bool_decide _); [by left|]. right.
    destruct (decoder_only_rest _ _ Hd) as (Hs & _).
    rewrite (bool_decide_eq_false_2 (m_state s' = ESnormal)) by congruence.
    rewrite orb_true_r. eauto.
  - pose proof (decoder_only_decode_byte l s) as Hd.
    destruct (decode_byte l s) as [l' s'] eqn:Heq. cbn [snd] in Hd.
    exists s'. split; [done|]. right.
    destruct (decoder_only_rest _ _ Hd) as (Hs & _).
    rewrite (bool_decide_eq_false_2 (m_state s' = ESnormal)) by congruence.
    rewrite orb_true_r. eauto.
Qed.

(** ** The palette path *)

Lemma putch_palette_even ch s :
  Nat.Even (length (m_csi_args s)) ->
  m_state (putch_palette ch s) = m_state s
  /\ m_pal (putch_palette ch s) = m_pal s
  /\ Nat.Even (length (m_csi_args (putch_palette ch s))).
Proof.
  intros [k Hk]. unfold putch_palette. cbn zeta.
  set (s1 := csi_append _ _).
  assert (Hlen : length (m_csi_args s1) = (2 * (k + 1))%nat).
  { unfold s1, csi_append, csi_resize. simpl.
    rewrite !length_app, length_take, length_replicate. simpl. lia. }
  rewrite decide_False; [|unfold csi_count; lia].
  repeat split. by exists (k + 1)%nat.
Qed.

(** Once in [ESpalette] with an even number of collected values, which is
    how [ESosc] enters it, no input leads out of it or writes the
    palette. *)
Lemma palette_state_is_never_left E (data : list Z) : forall s,
  m_state s = ESpalette -> Nat.Even (length (m_csi_args s)) ->
  let s' := fold_left (fun s ch => putch E (uchar ch) s) data s in
  m_state s' = ESpalette /\ m_pal s' = m_pal s.
Proof.
  induction data as [|ch data IH]; intros s Hst Hev; [done|].
  cbn [fold_left]. cbn zeta.
  assert (Hstep : m_state (putch E (uchar ch) s) = ESpalette
                  /\ m_pal (putch E (uchar ch) s) = m_pal s
                  /\ Nat.Even (length (m_csi_args (putch E (uchar ch) s)))).
  { unfold putch.
    destruct (putch_front_escape E 2 (Build_locals (uchar ch) (UC_INVALID E) 0) s)
      as (s' & Hd & [-> | [c ->]]); [congruence|lia|..];
      destruct (decoder_only_rest _ _ Hd) as (Hs & Ha & Hp & _).
    - rewrite Hs, Ha, Hp. done.
    - rewrite decide_False by congruence.
      unfold putch_state. rewrite Hs, Hst.
      destruct (putch_palette_even c s') as (Hs' & Hp' & He');
        [by rewrite Ha|].
      rewrite Hs', Hp', Hs, Hp. done. }
  destruct Hstep as (Hs1 & Hp1 & He1).
  destruct (IH _ Hs1 He1) as [Hs2 Hp2]. split; [done|congruence].
Qed.

(** A proposition without variables is settled by computation. *)
Ltac has_var P := match P with context [?x] => is_var x end.

Ltac by_computation :=
  lazymatch goal with
  | |- ?P => tryif has_var P then fail else (compute; congruence)
  end.

(** Settle the [decide]s whose proposition is closed or follows from the
    hypotheses by linear arithmetic. *)
Ltac settle :=
  repeat match goal with
  | |- context [decide ?P] =>
      first [ rewrite (decide_True (P := P))
                by first [lia | done | by_computation]
            | rewrite (decide_False (P := P))
                by first [lia | done | by_computation] ]
  | |- context [bool_decide ?P] =>
      first [ rewrite (bool_decide_eq_true_2 P)
                by first [lia | done | by_computation]
            | rewrite (bool_decide_eq_false_2 P)
                by first [lia | done | by_computation] ]
  end.

(** One round of the loop at the head of [putch]. *)
Lemma putch_front_step E (k : nat) l s :
  putch_front E (S k) l s
  = let '(l, s, pending) :=
      if m_utf_mode s then
        let '(l, s) := decode_utf8 E l s in
        (l, s, bool_decide (m_utf_code s <> UC_INVALID E /\ m_utf_more s > 0))
      else
        let '(l, s) := decode_byte l s in (l, s, false) in
    if pending then Some (Returned s)
    else
      let hg := have_glyph E l s in
      let tc := if hg && negb (isPrint E (l_tc l)) then UC_REPLACE E
                else l_tc l in
      if negb hg || negb (bool_decide (m_state s = ESnormal))
      then Some (Broke (l_ch l) s)
      else
        let s := put_glyph E tc s in
        if decide (l_ch2 l = 0) then Some (Returned s)
        else putch_front E k (Build_locals (l_ch2 l) tc 0) s.
Proof. reflexivity. Qed.

(** *** Lead bytes *)

Lemma decode_utf8_invalid_lead E l s :
  m_utf_more s = 0 -> 254 <= l_ch l <= 255 ->
  decode_utf8 E l s
  = (Build_locals (l_ch l) (UC_REPLACE E) (l_ch2 l),
     set_m_utf_code 0 (set_m_utf_more 0 s)).
Proof.
  intros Hmore Hch. unfold decode_utf8. cbv zeta.
  assert (l_ch l = 254 \/ l_ch l = 255) as [-> | ->] by lia; settle; done.
Qed.

Lemma decode_utf8_long_lead E l s :
  m_utf_more s = 0 -> 248 <= l_ch l <= 253 ->
  decode_utf8 E l s
  = (l, if decide (l_ch l <= 251) then utf_lead 4 3 1114112 (l_ch l) s
        else utf_lead 5 1 134217728 (l_ch l) s).
Proof.
  intros Hmore Hch. unfold decode_utf8. cbv zeta.
  assert (l_ch l = 248 \/ l_ch l = 249 \/ l_ch l = 250 \/ l_ch l = 251
          \/ l_ch l = 252 \/ l_ch l = 253) as Hc by lia.
  destruct Hc as [-> | [-> | [-> | [-> | [-> | ->]]]]]; settle; done.
Qed.

(** The bytes 0xFE and 0xFF, with no sequence pending, put the replacement
    character on the screen and leave no sequence pending. *)
Lemma putch_invalid_lead E ch s :
  m_utf_mode s = true -> m_utf_more s = 0 -> m_state s = ESnormal ->
  UC_REPLACE E <> UC_INVALID E -> 254 <= ch <= 255 ->
  putch E ch s
  = put_glyph E (UC_REPLACE E) (set_m_utf_code 0 (set_m_utf_more 0 s)).
Proof.
  intros Hmode Hmore Hst Hrep Hch. unfold putch. cbn [putch_front].
  rewrite Hmode, decode_utf8_invalid_lead by done. cbv beta iota.
  change (m_utf_more (set_m_utf_code 0 (set_m_utf_more 0 s))) with 0.
  change (m_state (set_m_utf_code 0 (set_m_utf_more 0 s))) with (m_state s).
  unfold have_glyph. cbn [l_ch l_tc l_ch2].
  unfold DEL, CSI. settle. cbn [andb orb negb].
  by destruct (isPrint E (UC_REPLACE E)).
Qed.

(** The bytes 0xF8 to 0xFD, with no sequence pending, start a sequence of
    five or six bytes and put nothing on the screen. *)
Lemma putch_long_lead E ch s :
  m_utf_mode s = true -> m_utf_more s = 0 ->
  ~ (0 <= UC_INVALID E <= 3) -> 248 <= ch <= 253 ->
  putch E ch s
  = if decide (ch <= 251) then utf_lead 4 3 1114112 ch s
    else utf_lead 5 1 134217728 ch s.
Proof.
  intros Hmode Hmore Hinv Hch. unfold putch. cbn [putch_front].
  rewrite Hmode, decode_utf8_long_lead by done. cbv beta iota.
  cbn [l_ch].
  assert (Hland3 : 0 <= Z.land ch 3 <= 3).
  { split; [apply Z.land_nonneg; lia|].
    change 3 with (Z.ones 2) at 1. rewrite Z.land_ones by lia.
    pose proof (Z.mod_pos_bound ch (2 ^ 2)). lia. }
  assert (Hland1 : 0 <= Z.land ch 1 <= 1).
  { split; [apply Z.land_nonneg; lia|].
    change 1 with (Z.ones 1) at 1. rewrite Z.land_ones by lia.
    pose proof (Z.mod_pos_bound ch (2 ^ 1)). lia. }
  case_decide.
  - rewrite bool_decide_eq_true_2; [done|]. unfold utf_lead. simpl. lia.
  - rewrite bool_decide_eq_true_2; [done|]. unfold utf_lead. simpl. lia.
Qed.

(** C8 (as amended): in UTF-8 mode with no continuation bytes pending, the
    bytes 0xFE and 0xFF yield the replacement code point at once, put on
    the screen in [ESnormal], and start no sequence; the bytes 0xF8 to 0xFB
    are the lead of a five-byte sequence and 0xFC, 0xFD of a six-byte
    sequence: they start a sequence and yield nothing. *)
Theorem lead_bytes_above_F7 (E : Extern) (ch : Z) (s : vt220) :
  m_utf_mode s = true -> m_utf_more s = 0 -> m_state s = ESnormal ->
  UC_REPLACE E <> UC_INVALID E -> ~ (0 <= UC_INVALID E <= 3) ->
  (254 <= ch <= 255 ->
     putch E ch s
     = put_glyph E (UC_REPLACE E) (set_m_utf_code 0 (set_m_utf_more 0 s))
     /\ m_utf_more (putch E ch s) = 0)
  /\ (248 <= ch <= 251 ->
        m_utf_more (putch E ch s) = 4 /\ m_screen (putch E ch s) = m_screen s
        /\ m_cursor (putch E ch s) = m_cursor s)
  /\ (252 <= ch <= 253 ->
        m_utf_more (putch E ch s) = 5 /\ m_screen (putch E ch s) = m_screen s
        /\ m_cursor (putch E ch s) = m_cursor s).
Proof.
  intros Hmode Hmore Hst Hrep Hinv. repeat split.
  - by apply putch_invalid_lead.
  - rewrite putch_invalid_lead by done.
    destruct (screen_only_rest _ _
                (screen_only_put_glyph E (UC_REPLACE E)
                   (set_m_utf_code 0 (set_m_utf_more 0 s))))
      as (_ & _ & _ & _ & _ & -> & _). done.
  - rewrite putch_long_lead by (done || lia). by rewrite decide_True by lia.
  - rewrite putch_long_lead by (done || lia). by rewrite decide_True by lia.
  - rewrite putch_long_lead by (done || lia). by rewrite decide_True by lia.
  - rewrite putch_long_lead by (done || lia). by rewrite decide_False by lia.
  - rewrite putch_long_lead by (done || lia). by rewrite decide_False by lia.
  - rewrite putch_long_lead by (done || lia). by rewrite decide_False by lia.
Qed.

Lemma lead_bytes_above_F7_witness :
  (254 <= 255 <= 255 ->
     putch sample_extern 255 region_state
     = put_glyph sample_extern (UC_REPLACE sample_extern)
         (set_m_utf_code 0 (set_m_utf_more 0 region_state))
     /\ m_utf_more (putch sample_extern 255 region_state) = 0)
  /\ (248 <= 255 <= 251 ->
        m_utf_more (putch sample_extern 255 region_state) = 4
        /\ m_screen (putch sample_extern 255 region_state)
           = m_screen region_state
        /\ m_cursor (putch sample_extern 255 region_state)
           = m_cursor region_state)
  /\ (252 <= 255 <= 253 ->
        m_utf_more (putch sample_extern 255 region_state) = 5
        /\ m_screen (putch sample_extern 255 region_state)
           = m_screen region_state
        /\ m_cursor (putch sample_extern 255 region_state)
           = m_cursor region_state).
Proof.
  apply (lead_bytes_above_F7 sample_extern 255 region_state).
  - reflexivity.
  - reflexivity.
  - reflexivity.
  - cbn. lia.
  - cbn. lia.
Defined.

(** The byte 0xF8 with nothing pending starts a sequence of five bytes:
    four continuation bytes are expected and the screen is as before. *)
Lemma byte_F8_starts_a_sequence :
  m_utf_more (putch sample_extern 248 region_state) = 4
  /\ m_screen (putch sample_extern 248 region_state) = m_screen region_state.
Proof. split; reflexivity. Qed.

(** *** A sequence cut short *)

Lemma land_128_small ch : 0 <= ch <= 127 -> Z.land ch 128 = 0.
Proof.
  intros Hch. apply Z.bits_inj'. intros n Hn. rewrite Z.land_spec, Z.bits_0.
  destruct (decide (n = 7)) as [->|Hn7].
  - replace (Z.testbit ch 7) with false; [done|].
    symmetry. rewrite Z.testbit_false by lia.
    rewrite Z.div_small by lia. done.
  - replace (Z.testbit 128 n) with false; [by rewrite andb_false_r|].
    symmetry. change 128 with (2 ^ 7). apply Z.pow2_bits_false. lia.
Qed.

(** One round of the head of [putch] on a byte below 0x80 with nothing
    pending does not depend on the old values of [tc] and [ch2], nor on the
    rounds left. *)
Lemma putch_front_plain E (k : nat) ch tc s :
  m_utf_mode s = true -> m_utf_more s = 0 -> Z.land ch 128 = 0 ->
  putch_front E (S k) (Build_locals ch tc 0) s
  = putch_front E 1 (Build_locals ch (UC_INVALID E) 0) s.
Proof.
  intros Hmode Hmore Hch. cbn [putch_front]. rewrite Hmode.
  unfold decode_utf8. cbv zeta. cbn [l_ch l_tc l_ch2]. settle.
  cbv beta iota. cbn [l_ch l_tc l_ch2]. settle.
  destruct (bool_decide _); [done|].
  destruct (negb _ || negb _); done.
Qed.

Lemma putch_front_plain_some E ch s :
  m_utf_mode s = true -> m_utf_more s = 0 -> Z.land ch 128 = 0 ->
  putch_front E 1 (Build_locals ch (UC_INVALID E) 0) s <> None.
Proof.
  intros Hmode Hmore Hch. cbn [putch_front]. rewrite Hmode.
  unfold decode_utf8. cbv zeta. cbn [l_ch l_tc l_ch2]. settle.
  cbv beta iota. cbn [l_ch l_tc l_ch2]. settle.
  destruct (bool_decide _); [done|].
  destruct (negb _ || negb _); done.
Qed.

(** A byte from 0x20 to 0x7F (DEL only when controls are displayed) that
    arrives in [ESnormal] while continuation bytes are pending: the
    replacement character is put on the screen for the sequence cut short,
    and the byte is then processed like a fresh byte with nothing
    pending. *)
Lemma putch_aborts_on_printable E ch s :
  m_utf_mode s = true -> m_utf_more s > 0 -> m_state s = ESnormal ->
  UC_REPLACE E <> UC_INVALID E ->
  32 <= ch <= 127 -> (ch <> 127 \/ m_dspctrl s = true) ->
  putch E ch s
  = putch E ch
      (put_glyph E (UC_REPLACE E)
         (set_m_utf_code (UC_INVALID E) (set_m_utf_more 0 s))).
Proof.
  intros Hmode Hmore Hst Hrep Hch Hdel.
  assert (Hland : Z.land ch 128 = 0) by (apply land_128_small; lia).
  set (s0 := set_m_utf_code (UC_INVALID E) (set_m_utf_more 0 s)).
  pose proof (screen_only_rest _ _ (screen_only_put_glyph E (UC_REPLACE E) s0))
    as (Hst' & _ & _ & _ & Hmode' & Hmore' & _).
  unfold putch at 1. rewrite putch_front_step, Hmode.
  unfold decode_utf8. cbv zeta. cbn [l_ch l_tc l_ch2]. settle.
  cbv beta iota. fold s0.
  change (m_utf_more s0) with 0. change (m_state s0) with (m_state s).
  unfold have_glyph. cbn [l_ch l_tc l_ch2].
  change (m_dspctrl s0) with (m_dspctrl s). unfold DEL, CSI.
  settle.
  assert (Hd : bool_decide (ch <> 127) || m_dspctrl s = true).
  { destruct Hdel as [Hne | ->]; [|by rewrite orb_true_r].
    by rewrite bool_decide_eq_true_2. }
  rewrite Hd. cbn [andb orb negb].
  replace (if negb (isPrint E (UC_REPLACE E)) then UC_REPLACE E
           else UC_REPLACE E) with (UC_REPLACE E)
    by (by destruct (isPrint E (UC_REPLACE E))).
  assert (Hm2 : m_utf_mode (put_glyph E (UC_REPLACE E) s0) = true)
    by (rewrite Hmode'; exact Hmode).
  assert (Hr2 : m_utf_more (put_glyph E (UC_REPLACE E) s0) = 0)
    by (rewrite Hmore'; reflexivity).
  unfold putch at 1.
  rewrite (putch_front_plain E 0) by done.
  rewrite (putch_front_plain E 1 ch (UC_INVALID E)) by done.
  pose proof (putch_front_plain_some E ch (put_glyph E (UC_REPLACE E) s0)
                Hm2 Hr2 Hland) as Hsome.
  destruct (putch_front E 1 _ _) as [[s1|c s1]|]; done.
Qed.

(** C1: a line feed that cuts the sequence 0xE2 0x82 short is carried out,
    but no replacement character appears for the sequence: screen and
    cursor are what the line feed alone leaves.  (Before a printable byte
    the replacement character does appear:
    [putch_aborts_on_printable].) *)
Theorem sequence_cut_by_control_leaves_no_replacement :
  let s := write sample_extern [226; 130; 10] region_state in
  m_screen s = m_screen (write sample_extern [10] region_state)
  /\ m_cursor s = m_cursor (write sample_extern [10] region_state)
  /\ map (fun l => map code (cells l)) (m_screen s)
     = [[67; 68]; [32; 32]; [69; 70]].
Proof. repeat split; reflexivity. Qed.

(** The example of the specification: 0xE2 0x82 0x41 puts the replacement
    character and then the letter on the screen. *)
Lemma sequence_cut_by_letter :
  map (fun l => map code (cells l))
    (m_screen (write sample_extern [226; 130; 65] region_state))
  = [[65; 66]; [65533; 65]; [69; 70]].
Proof. reflexivity. Qed.

(** *** Control sequences without parameters *)

(** The parameter list always holds one element when the final byte is
    dispatched, so the test for an empty list never picks the default. *)
Lemma csi_entry_final_byte E ch s :
  m_state s = EScsi -> ch <> 91 -> ch <> 63 -> ch <> 59 -> ~ (48 <= ch <= 57) ->
  putch_state E ch s
  = putch_gotargs E ch
      (set_m_state ESgotargs
         (set_m_ques false (set_m_csi_args [0] (set_m_state ESgetargs s)))).
Proof.
  intros Hst H1 H2 H3 H4. unfold putch_state. rewrite Hst. cbv zeta.
  rewrite decide_False by done.
  rewrite (bool_decide_eq_false_2 (ch = 63)) by done.
  change (m_ques (set_m_ques false _)) with false. cbv iota.
  unfold putch_getargs. by rewrite !decide_False by done.
Qed.

Lemma csi_arg0_or_after_entry d s :
  m_csi_args s = [0] -> csi_arg0_or d s = 0.
Proof. intros H. unfold csi_arg0_or, csi_count, csi_arg. rewrite H. done. Qed.

(** CSI A, B, C and D without a parameter call the movement with 0. *)
Lemma csi_cursor_keys_default E s :
  m_state s = EScsi ->
  let s' := set_m_state ESnormal
              (set_m_ques false (set_m_csi_args [0] s)) in
  putch_state E 65 s = vt_CUU 0 s'
  /\ putch_state E 66 s = vt_CUD 0 s'
  /\ putch_state E 67 s = vt_CUF 0 (set_x (cnewx s') s')
  /\ putch_state E 68 s = vt_CUB 0 (set_x (cnewx s') s').
Proof.
  intros Hst s'. repeat split;
    rewrite csi_entry_final_byte by (done || lia); reflexivity.
Qed.

(** C2: the bytes ESC [ A, the cursor on the second row: the cursor stays
    on its row, where ESC [ 1 A moves it up by one.  The same holds for
    B, C and D. *)
Theorem csi_cursor_up_without_parameter_stays :
  cy region_state = 1
  /\ cy (write sample_extern [27; 91; 65] region_state) = 1
  /\ cy (write sample_extern [27; 91; 49; 65] region_state) = 0
  /\ cy (write sample_extern [27; 91; 66] (set_y 0 region_state)) = 0
  /\ cx (write sample_extern [27; 91; 67] region_state) = 0
  /\ cx (write sample_extern [27; 91; 49; 67] region_state) = 1.
Proof. repeat split; reflexivity. Qed.

(** *** The palette sequence *)

(** C5: ESC ] P followed by the seven digits 1 F F 0 0 0 0: fourteen
    values have been collected, the machine is still in [ESpalette] and
    the palette is as before. *)
Theorem palette_sequence_does_not_end :
  let s := write sample_extern [27; 93; 80; 49; 70; 70; 48; 48; 48; 48]
             region_state in
  m_state s = ESpalette
  /\ m_pal s = m_pal region_state
  /\ m_csi_args s = [0; 1; 0; 15; 0; 15; 0; 0; 0; 0; 0; 0; 0; 0].
Proof. repeat split; reflexivity. Qed.

(** ** Resizing *)

(** C6 (as amended): [term_set_size] does not reject a column or row count
    that is not positive: it takes the DECCOLM width in place of the
    columns and 25 in place of the rows, and these become the dimensions,
    with the scroll region set to the whole screen.  Only [term_set_rows]
    leaves the engine as it is when the row count is not positive. *)
Theorem degenerate_resize_takes_defaults (w h : Z) (s : vt220) :
  m_width (term_set_size w h s) = (if decide (w <= 0) then m_deccolm s else w)
  /\ m_height (term_set_size w h s) = (if decide (h <= 0) then 25 else h)
  /\ m_top (term_set_size w h s) = 0
  /\ m_bottom (term_set_size w h s) = m_height (term_set_size w h s)
  /\ (h <= 0 -> term_set_rows h s = s).
Proof.
  repeat split.
  intros Hh. unfold term_set_rows. by rewrite decide_True.
Qed.

(** A resize to zero rows makes the screen 25 rows high, whatever it was
    before. *)
Lemma resize_to_zero_rows_changes_height :
  m_height (term_set_size 2 0 region_state) <> m_height region_state.
Proof. unfold term_set_size. cbn. discriminate. Qed.

(** ** Tab stops *)

Lemma same_tabs_refl s : same_tabs s s.
Proof. done. Qed.

Lemma same_tabs_trans s1 s2 s3 :
  same_tabs s1 s2 -> same_tabs s2 s3 -> same_tabs s1 s3.
Proof. unfold same_tabs. congruence. Qed.

Lemma same_tabs_screen_only s s' : screen_only s s' -> same_tabs s s'.
Proof. intros (a & b & c & d & ->). done. Qed.

Lemma same_tabs_decoder_only s s' : decoder_only s s' -> same_tabs s s'.
Proof. intros (a & b & c & d & e & f & ->). done. Qed.

Lemma same_tabs_let (a : vt220) (b : vt220 -> vt220) s :
  same_tabs s a -> (forall t, same_tabs t (b t)) ->
  same_tabs s (let x := a in b x).
Proof. intros Ha Hb. eapply same_tabs_trans; [exact Ha | apply Hb]. Qed.

Lemma same_tabs_for_each xs (body : Z -> vt220 -> vt220) s :
  (forall x t, same_tabs t (body x t)) -> same_tabs s (for_each xs body s).
Proof.
  intros Hb. apply (for_each_ind (same_tabs s)); [done|].
  intros x t _ Ht. eapply same_tabs_trans; [exact Ht | apply Hb].
Qed.

Create HintDb tabs discriminated.
#[local] Hint Constants Opaque : tabs.
#[local] Hint Variables Opaque : tabs.

(** A setter of any field but [m_tabstop], and the operations on the
    screen, keep the tab stops. *)
Ltac tabs_leaf :=
  first [ apply same_tabs_screen_only; solve [auto with scr]
        | solve [auto with tabs]
        | lazymatch goal with
          | |- same_tabs _ (set_m_tabstop _ _) => fail
          | |- same_tabs ?s (?f ?v ?s) => unfold same_tabs; reflexivity
          end ].

Ltac tabs_step :=
  lazymatch goal with
  | |- same_tabs ?s ?t =>
      first [ constr_eq s t; apply same_tabs_refl | fail ]
  end
  || lazymatch goal with
  | |- same_tabs ?s (let x := ?a in @?b x) =>
      lazymatch type of a with
      | vt220 => refine (same_tabs_let a b s _ _); [|intros ?]
      | _ => let t := eval cbv beta in (b a) in change (same_tabs s t)
      end
  | |- same_tabs _ (match ?c with _ => _ end) => destruct c
  | |- same_tabs _ (for_each _ _ _) =>
      eapply same_tabs_trans; [|apply same_tabs_for_each; intros ? ?]
  | |- same_tabs ?s (?f ?t) =>
      apply (same_tabs_trans s t); [|tabs_leaf]
  end.

Ltac tabs := repeat tabs_step.

Lemma same_tabs_add_backlog l s : same_tabs s (add_backlog l s).
Proof. apply same_tabs_screen_only. auto with scr. Qed.

Lemma same_tabs_pull_backlog k h s : same_tabs s (pull_backlog k h s).
Proof.
  revert s. induction k as [|k IH]; intros s; cbn [pull_backlog]; [done|].
  destruct (decide _); [|done]. destruct (last _); [|done].
  eapply same_tabs_trans; [|apply IH]. done.
Qed.

#[local] Hint Resolve same_tabs_add_backlog same_tabs_pull_backlog : tabs.

(** [term_set_size] does not touch the tab stops. *)
Lemma same_tabs_term_set_size w h s : same_tabs s (term_set_size w h s).
Proof. cbv beta delta [term_set_size]. tabs. Qed.

Lemma tabstop_reset_bits s :
  m_tabstop (vt_tabstop_reset s)
  = map (fun i => bool_decide (i <> 0 /\ Z.modulo i 8 = 0)) (zrange 0 256).
Proof. vm_compute. reflexivity. Qed.

Section TabFrame.

Variable E : Extern.
Hypothesis Hopaque : opaque_keep_tabs E.

Lemma same_tabs_vt_SGR s : same_tabs s (vt_SGR E s).
Proof. apply Hopaque. Qed.

Lemma same_tabs_vt_OSC s : same_tabs s (vt_OSC E s).
Proof. apply Hopaque. Qed.

Lemma same_tabs_vt_DECSET s : same_tabs s (vt_DECSET E s).
Proof. apply Hopaque. Qed.

Lemma same_tabs_vt_RM s : same_tabs s (vt_RM E s).
Proof. apply Hopaque. Qed.

Lemma same_tabs_vt_palette_reset s : same_tabs s (vt_palette_reset E s).
Proof. apply Hopaque. Qed.

Lemma same_tabs_vt_IL n s : same_tabs s (vt_IL n s).
Proof. apply same_tabs_screen_only, screen_only_vt_IL. Qed.

Lemma same_tabs_vt_DL n s : same_tabs s (vt_DL n s).
Proof. apply same_tabs_screen_only, screen_only_vt_DL. Qed.

Lemma same_tabs_restore s : same_tabs s (restore s).
Proof. cbv beta delta [restore]. tabs. Qed.

Lemma same_tabs_save s : same_tabs s (save s).
Proof. done. Qed.

Lemma same_tabs_vt_LSn n b s : same_tabs s (vt_LSn n b s).
Proof. done. Qed.

Lemma same_tabs_vt_LSnR n s : same_tabs s (vt_LSnR n s).
Proof. done. Qed.

Lemma same_tabs_vt_SSn n s : same_tabs s (vt_SSn n s).
Proof. done. Qed.

Lemma same_tabs_csi_resize n s : same_tabs s (csi_resize n s).
Proof. done. Qed.

Lemma same_tabs_csi_append v s : same_tabs s (csi_append v s).
Proof. done. Qed.

End TabFrame.

#[local] Hint Resolve same_tabs_vt_SGR same_tabs_vt_OSC same_tabs_vt_DECSET
  same_tabs_vt_RM same_tabs_vt_palette_reset same_tabs_vt_IL same_tabs_vt_DL
  same_tabs_restore same_tabs_save same_tabs_vt_LSn same_tabs_vt_LSnR
  same_tabs_vt_SSn same_tabs_csi_resize same_tabs_csi_append : tabs.

(** Cut the chain at a [let] that binds a state. *)
Ltac tabs_let :=
  lazymatch goal with
  | |- same_tabs ?s (let x := ?a in @?b x) =>
      refine (same_tabs_let a b s _ _); [|intros ?]
  end.

(** Case analysis on the byte, down to its bits. *)
Ltac byte_cases :=
  repeat lazymatch goal with
  | |- same_tabs _ (match ?c with _ => _ end) => destruct c
  end.

Lemma same_tabs_csi_dispatch E ch s :
  opaque_keep_tabs E -> ch <> 103 -> same_tabs s (csi_dispatch E ch s).
Proof.
  intros Hop Hch. cbv beta delta [csi_dispatch].
  byte_cases; try done; tabs.
Qed.

Lemma same_tabs_putch_gotargs E ch s :
  opaque_keep_tabs E -> ch <> 103 -> same_tabs s (putch_gotargs E ch s).
Proof.
  intros Hop Hch. cbv beta delta [putch_gotargs].
  tabs_let; [done|].
  assert (Hd : forall u, same_tabs u (csi_dispatch E ch u))
    by (intros u; by apply same_tabs_csi_dispatch).
  assert (Hq : forall u : vt220,
             same_tabs u (if m_ques u then set_m_ques false u
                          else csi_dispatch E ch u)).
  { intros u. destruct (m_ques u); [done | apply Hd]. }
  byte_cases; try (by auto with tabs);
    cbv beta iota; (tabs_let; [|apply Hq]); tabs.
Qed.

Lemma same_tabs_putch_getargs E ch s :
  opaque_keep_tabs E -> ch <> 103 -> same_tabs s (putch_getargs E ch s).
Proof.
  intros Hop Hch. cbv beta delta [putch_getargs].
  destruct (decide _); [done|]. destruct (decide _); [done|].
  eapply same_tabs_trans; [|by apply same_tabs_putch_gotargs]. done.
Qed.

Lemma same_tabs_putch_esc E ch s :
  ch <> 72 -> ch <> 99 -> same_tabs s (putch_esc E ch s).
Proof.
  intros H1 H2. cbv beta delta [putch_esc].
  tabs_let; [done|].
  unfold vt_LS2, vt_LS3, vt_SOS, vt_ST.
  byte_cases; try done; tabs.
Qed.

Lemma same_tabs_putch_state E ch s :
  opaque_keep_tabs E -> is_tab_op (m_state s) ch = false ->
  same_tabs s (putch_state E ch s).
Proof.
  intros Hop Htab. cbv beta delta [putch_state].
  destruct (m_state s) eqn:Hst; cbn [is_tab_op] in Htab;
    try apply bool_decide_eq_false_1 in Htab.
  - done.
  - apply same_tabs_putch_esc; tauto.
  - tabs_let; [done|]. byte_cases; done.
  - tabs_let; [done|]. byte_cases; done.
  - tabs_let; [done|]. byte_cases; done.
  - unfold putch_setG_vt200, set_gmap. cbv zeta. by destruct (decide _).
  - done.
  - unfold putch_setG_vt200, set_gmap. cbv zeta. by destruct (decide _).
  - done.
  - unfold putch_setG_vt200, set_gmap. cbv zeta. by destruct (decide _).
  - done.
  - unfold putch_setG_vt200, set_gmap. cbv zeta. by destruct (decide _).
  - done.
  - tabs_let; [done|].
    tabs_let; [done|].
    destruct (decide _); [done|].
    tabs_let; [done|].
    match goal with |- same_tabs ?v _ => destruct (m_ques v) end; [done|].
    by apply same_tabs_putch_getargs.
  - by apply same_tabs_putch_getargs.
  - by apply same_tabs_putch_gotargs.
  - tabs_let; [done|].
    byte_cases; try done. apply Hop.
  - unfold putch_palette. cbv zeta. by destruct (decide _).
  - unfold putch_string. destruct (m_string s); [done|].
    repeat destruct (decide _); done.
  - done.
Qed.

Lemma same_tabs_putch_normal E ch s :
  opaque_keep_tabs E -> m_state s = ESnormal -> ch <> HTS ->
  same_tabs s (putch_normal E ch s).
Proof.
  intros Hop Hst Hch. unfold HTS in Hch. cbv beta delta [putch_normal].
  assert (Hs : forall c, same_tabs s (putch_state E c s)).
  { intros c. unfold putch_state. by rewrite Hst. }
  assert (Hcsi : same_tabs s (putch_state E 155 (set_m_state EScsi s))).
  { eapply same_tabs_trans; [|apply same_tabs_putch_state; [done|]]; done. }
  unfold vt_LS0, vt_LS1, vt_SOS, vt_ST, vt_PM, vt_APC.
  byte_cases; try done; try apply Hs; try apply Hcsi; tabs.
Qed.

(** The head of [putch] keeps the tab stops and the state of the
    machine. *)
Lemma putch_front_frame E (k : nat) : forall l s r,
  putch_front E k l s = Some r ->
  exists s1,
    (r = Returned s1 \/ exists c, r = Broke c s1)
    /\ same_tabs s s1 /\ m_state s1 = m_state s.
Proof.
  induction k as [|k IH]; intros l s r; [done|].
  rewrite putch_front_step.
  assert (Hdec : exists l1 s1 p,
             (if m_utf_mode s then
                let '(l, s) := decode_utf8 E l s in
                (l, s, bool_decide (m_utf_code s <> UC_INVALID E
                                    /\ m_utf_more s > 0))
              else let '(l, s) := decode_byte l s in (l, s, false))
             = (l1, s1, p) /\ decoder_only s s1).
  { destruct (m_utf_mode s).
    - pose proof (decoder_only_decode_utf8 E l s) as Hd.
      destruct (decode_utf8 E l s) as [l1 s1]. eauto.
    - pose proof (decoder_only_decode_byte l s) as Hd.
      destruct (decode_byte l s) as [l1 s1]. eauto. }
  destruct Hdec as (l1 & s1 & p & -> & Hd).
  destruct (decoder_only_rest _ _ Hd) as (Hst & _ & _ & Htab & _).
  cbv beta iota zeta.
  destruct p; [intros [= <-]; eauto 10|].
  destruct (negb _ || negb _); [intros [= <-]; eauto 10|].
  set (tc := if have_glyph E l1 s1 && negb (isPrint E (l_tc l1))
             then UC_REPLACE E else l_tc l1).
  pose proof (screen_only_rest _ _ (screen_only_put_glyph E tc s1))
    as (Hst2 & _ & _ & Htab2 & _).
  destruct (decide _).
  - intros [= <-]. eexists. split; [by left|].
    unfold same_tabs. split; congruence.
  - intros Hr. destruct (IH _ _ _ Hr) as (s2 & Hcase & Ht3 & Hs3).
    exists s2. split; [done|]. unfold same_tabs in *. split; congruence.
Qed.

(** Tab stops change only through a tab stop operation. *)
Lemma tab_stops_change_only_by_tab_ops E ch s :
  opaque_keep_tabs E ->
  m_tabstop (putch E ch s) <> m_tabstop s ->
  exists c, dispatched E ch s = Some c /\ is_tab_op (m_state s) c = true.
Proof.
  intros Hop Hne. unfold putch, dispatched in *.
  destruct (putch_front E 2 _ s) as [r|] eqn:Hfront; [|done].
  destruct (putch_front_frame E 2 _ _ _ Hfront)
    as (s1 & [-> | [c ->]] & Htab & Hst); [done|].
  exists c. split; [done|].
  destruct (is_tab_op (m_state s) c) eqn:Hop'; [done|].
  exfalso. apply Hne. rewrite <- Htab.
  destruct (decide (m_state s1 = ESnormal)) as [Hn|Hn].
  - apply same_tabs_putch_normal; [done..|].
    rewrite <- Hst, Hn in Hop'. cbn in Hop'.
    by apply bool_decide_eq_false_1 in Hop'.
  - apply same_tabs_putch_state; [done|]. by rewrite Hst.
Qed.

(** *** Two rounds are all there are *)

(** The decoder sets [ch2] only when it cuts a sequence short, and then
    nothing is pending and [ch2] is a byte below 0x80. *)
Lemma decode_utf8_ch2 E l s :
  l_ch2 l = 0 -> l_ch2 (decode_utf8 E l s).1 <> 0 ->
  m_utf_more (decode_utf8 E l s).2 = 0
  /\ Z.land (l_ch2 (decode_utf8 E l s).1) 128 = 0.
Proof.
  intros H0. unfold decode_utf8. cbv zeta.
  repeat case_decide; cbn [fst snd l_ch2]; done.
Qed.

Lemma putch_front_total E ch s :
  putch_front E 2 (Build_locals ch (UC_INVALID E) 0) s <> None.
Proof.
  rewrite putch_front_step.
  destruct (m_utf_mode s) eqn:Hmode.
  - pose proof (decode_utf8_ch2 E (Build_locals ch (UC_INVALID E) 0) s eq_refl)
      as Hch2.
    pose proof (decoder_only_decode_utf8 E
                  (Build_locals ch (UC_INVALID E) 0) s) as Hd.
    destruct (decode_utf8 E _ s) as [l1 s1]. cbn [fst snd] in *.
    cbv beta iota zeta.
    destruct (bool_decide _); [done|].
    destruct (negb _ || negb _); [done|].
    destruct (decide _) as [|Hne]; [done|].
    destruct (Hch2 Hne) as [Hmore Hland].
    destruct (decoder_only_rest _ _ Hd) as (_ & _ & _ & _ & Hm & _).
    set (tc := if have_glyph E l1 s1 && negb (isPrint E (l_tc l1))
               then UC_REPLACE E else l_tc l1).
    pose proof (screen_only_rest _ _ (screen_only_put_glyph E tc s1))
      as (_ & _ & _ & _ & Hm2 & Hr2 & _).
    rewrite (putch_front_plain E 0) by congruence.
    apply putch_front_plain_some; congruence.
  - unfold decode_byte. cbv beta iota zeta. cbn [l_ch2].
    destruct (negb _ || negb _); [done|].
    by rewrite decide_True.
Qed.

(** C9 (as amended): the tab stops are a set of 256 bits indexed by
    column, with the default stops at every 8th column (8, 16, ..., 248);
    they are not resized with the column count: [term_set_size] leaves
    them as they are; and a byte changes them only when it is dispatched
    as a tab stop operation (set, clear, clear all) or as the full
    reset. *)
Theorem tab_stops_are_fixed_size (E : Extern) (s : vt220) :
  opaque_keep_tabs E ->
  m_tabstop (vt_tabstop_reset s)
  = map (fun i => bool_decide (i <> 0 /\ Z.modulo i 8 = 0)) (zrange 0 256)
  /\ (forall w h, m_tabstop (term_set_size w h s) = m_tabstop s)
  /\ (forall ch, m_tabstop (putch E ch s) <> m_tabstop s ->
        exists c, dispatched E ch s = Some c
                  /\ is_tab_op (m_state s) c = true).
Proof.
  intros Hop. split; [apply tabstop_reset_bits|]. split.
  - intros w h. apply same_tabs_term_set_size.
  - intros ch. by apply tab_stops_change_only_by_tab_ops.
Qed.

Lemma tab_stops_are_fixed_size_witness :
  m_tabstop (vt_tabstop_reset region_state)
  = map (fun i => bool_decide (i <> 0 /\ Z.modulo i 8 = 0)) (zrange 0 256)
  /\ (forall w h, m_tabstop (term_set_size w h region_state)
                  = m_tabstop region_state)
  /\ (forall ch, m_tabstop (putch sample_extern ch region_state)
                 <> m_tabstop region_state ->
        exists c, dispatched sample_extern ch region_state = Some c
                  /\ is_tab_op (m_state region_state) c = true).
Proof.
  apply (tab_stops_are_fixed_size sample_extern region_state).
  repeat split.
Defined.

(** After a resize to four columns the tab stops are still 256 bits. *)
Lemma tab_stops_keep_their_size :
  Z.of_nat (length (m_tabstop (term_set_size 4 3 region_state)))
  <> m_width (term_set_size 4 3 region_state).
Proof. vm_compute. discriminate. Qed.

(** * Further properties *)

(** ** The UTF-8 decoder and the loop of [putch] *)

(** A property of bytes that holds for the 256 of them. *)
Lemma byte_forall (P : Z -> bool) :
  forallb P (zrange 0 256) = true -> forall ch, 0 <= ch <= 255 -> P ch = true.
Proof.
  intros H ch Hch. rewrite forallb_forall in H. apply H.
  apply list_elem_of_In, elem_of_zrange. lia.
Qed.

Lemma byte_masks ch :
  0 <= ch <= 255 ->
  (Z.land ch 128 = 0 <-> ch <= 127)
  /\ (Z.land ch 192 = 128 <-> 128 <= ch <= 191)
  /\ (Z.land ch 224 = 192 <-> 192 <= ch <= 223)
  /\ (Z.land ch 240 = 224 <-> 224 <= ch <= 239)
  /\ (Z.land ch 248 = 240 <-> 240 <= ch <= 247)
  /\ (Z.land ch 252 = 248 <-> 248 <= ch <= 251)
  /\ (Z.land ch 254 = 252 <-> 252 <= ch <= 253).
Proof.
  intros Hch.
  pose proof (byte_forall
    (fun ch => bool_decide
       ((Z.land ch 128 = 0 <-> ch <= 127)
        /\ (Z.land ch 192 = 128 <-> 128 <= ch <= 191)
        /\ (Z.land ch 224 = 192 <-> 192 <= ch <= 223)
        /\ (Z.land ch 240 = 224 <-> 224 <= ch <= 239)
        /\ (Z.land ch 248 = 240 <-> 240 <= ch <= 247)
        /\ (Z.land ch 252 = 248 <-> 248 <= ch <= 251)
        /\ (Z.land ch 254 = 252 <-> 252 <= ch <= 253))) eq_refl ch Hch) as H.
  by apply bool_decide_eq_true_1 in H.
Qed.

Lemma byte_payload ch :
  0 <= ch <= 255 ->
  (128 <= ch <= 191 -> Z.land ch 63 = ch - 128)
  /\ (192 <= ch <= 223 -> Z.land ch 31 = ch - 192)
  /\ (224 <= ch <= 239 -> Z.land ch 15 = ch - 224)
  /\ (240 <= ch <= 247 -> Z.land ch 7 = ch - 240)
  /\ (248 <= ch <= 251 -> Z.land ch 3 = ch - 248)
  /\ (252 <= ch <= 253 -> Z.land ch 1 = ch - 252).
Proof.
  intros Hch.
  pose proof (byte_forall
    (fun ch => bool_decide
       ((128 <= ch <= 191 -> Z.land ch 63 = ch - 128)
        /\ (192 <= ch <= 223 -> Z.land ch 31 = ch - 192)
        /\ (224 <= ch <= 239 -> Z.land ch 15 = ch - 224)
        /\ (240 <= ch <= 247 -> Z.land ch 7 = ch - 240)
        /\ (248 <= ch <= 251 -> Z.land ch 3 = ch - 248)
        /\ (252 <= ch <= 253 -> Z.land ch 1 = ch - 252))) eq_refl ch Hch) as H.
  by apply bool_decide_eq_true_1 in H.
Qed.

(** Setting the decoder fields one after the other, in any order. *)
Lemma utf_lead_pending more mask min ch s :
  utf_lead more mask min ch s
  = set_m_utf_code_min min (pending more (Z.land ch mask) s).
Proof. reflexivity. Qed.

(** A lead byte with nothing pending starts its sequence. *)
Lemma decode_utf8_lead E l s more payload min :
  m_utf_more s = 0 -> utf8_lead (l_ch l) = Some (more, payload, min) ->
  decode_utf8 E l s = (l, set_m_utf_code_min min (pending more payload s)).
Proof.
  intros Hmore Hlead. unfold utf8_lead in Hlead.
  assert (Hch : 192 <= l_ch l <= 253) by (repeat case_decide; try done; lia).
  assert (Hb : 0 <= l_ch l <= 255) by lia.
  destruct (byte_masks _ Hb) as (M1 & M2 & M3 & M4 & M5 & M6 & M7).
  destruct (byte_payload _ Hb) as (P1 & P2 & P3 & P4 & P5 & P6).
  unfold decode_utf8. cbv zeta. rewrite !utf_lead_pending.
  rewrite (decide_True (P := Z.land (l_ch l) 128 <> 0)) by lia.
  rewrite (decide_False (P := m_utf_more s > 0)) by lia.
  destruct (decide (192 <= l_ch l <= 223)).
  { rewrite (decide_True (P := Z.land (l_ch l) 224 = 192)) by tauto.
    rewrite P2 by done. congruence. }
  rewrite (decide_False (P := Z.land (l_ch l) 224 = 192)) by tauto.
  destruct (decide (224 <= l_ch l <= 239)).
  { rewrite (decide_True (P := Z.land (l_ch l) 240 = 224)) by tauto.
    rewrite P3 by done. congruence. }
  rewrite (decide_False (P := Z.land (l_ch l) 240 = 224)) by tauto.
  destruct (decide (240 <= l_ch l <= 247)).
  { rewrite (decide_True (P := Z.land (l_ch l) 248 = 240)) by tauto.
    rewrite P4 by done. congruence. }
  rewrite (decide_False (P := Z.land (l_ch l) 248 = 240)) by tauto.
  destruct (decide (248 <= l_ch l <= 251)).
  { rewrite (decide_True (P := Z.land (l_ch l) 252 = 248)) by tauto.
    rewrite P5 by done. congruence. }
  rewrite (decide_False (P := Z.land (l_ch l) 252 = 248)) by tauto.
  destruct (decide (252 <= l_ch l <= 253)); [|done].
  rewrite (decide_True (P := Z.land (l_ch l) 254 = 252)) by tauto.
  rewrite P6 by done. congruence.
Qed.

Lemma lor_shiftl_6 c y :
  0 <= c -> 0 <= y < 64 -> Z.lor (Z.shiftl c 6) y = c * 64 + y.
Proof.
  intros Hc Hy.
  assert (Hland : Z.land (Z.shiftl c 6) y = 0).
  { apply Z.bits_inj'. intros n Hn. rewrite Z.land_spec, Z.bits_0.
    destruct (decide (n < 6)) as [Hlt|Hge].
    - by rewrite Z.shiftl_spec_low.
    - rewrite (Z.bits_above_log2 y n), andb_false_r; [done|lia|].
      destruct (decide (y = 0)) as [->|Hy0]; [simpl; lia|].
      assert (Z.log2 y < 6); [|lia].
      apply Z.log2_lt_pow2; lia. }
  pose proof (Z.add_lor_land (Z.shiftl c 6) y) as H.
  rewrite Hland in H. rewrite Z.shiftl_mul_pow2 in H |- * by lia. lia.
Qed.

(** A lead byte with nothing pending starts a sequence and puts nothing on
    the screen. *)
Lemma putch_lead E ch s more payload min :
  m_utf_mode s = true -> m_utf_more s = 0 ->
  ~ (0 <= UC_INVALID E < 2 ^ 31) ->
  utf8_lead ch = Some (more, payload, min) ->
  putch E ch s = set_m_utf_code_min min (pending more payload s).
Proof.
  intros Hmode Hmore Hinv Hlead. unfold putch.
  rewrite putch_front_step, Hmode.
  rewrite (decode_utf8_lead E _ s more payload min) by done.
  cbv beta iota.
  change (m_utf_code (set_m_utf_code_min min (pending more payload s)))
    with payload.
  change (m_utf_more (set_m_utf_code_min min (pending more payload s)))
    with more.
  rewrite bool_decide_eq_true_2; [done|].
  unfold utf8_lead in Hlead. repeat case_decide; simplify_eq; lia.
Qed.

(** A continuation byte that is not the last of its sequence adds its six
    bits and puts nothing on the screen. *)
Lemma putch_continuation E b s :
  m_utf_mode s = true -> 1 < m_utf_more s ->
  0 <= m_utf_code s < 2 ^ 25 ->
  ~ (0 <= UC_INVALID E < 2 ^ 31) ->
  128 <= b <= 191 ->
  putch E b s
  = pending (m_utf_more s - 1) (m_utf_code s * 64 + (b - 128)) s.
Proof.
  intros Hmode Hmore Hcode Hinv Hb. unfold putch.
  rewrite putch_front_step, Hmode.
  assert (Hbyte : 0 <= b <= 255) by lia.
  destruct (byte_masks _ Hbyte) as (M1 & M2 & _).
  destruct (byte_payload _ Hbyte) as (P1 & _).
  unfold decode_utf8. cbv zeta. cbn [l_ch l_tc l_ch2].
  rewrite (decide_True (P := Z.land b 128 <> 0)) by lia.
  rewrite (decide_True (P := m_utf_more s > 0)) by lia.
  rewrite (decide_True (P := Z.land b 192 = 128)) by tauto.
  cbn [m_utf_more m_utf_code set_m_utf_more set_m_utf_code].
  rewrite (decide_False (P := m_utf_more s - 1 = 0)) by lia.
  cbv beta iota.
  cbn [m_utf_more m_utf_code set_m_utf_more set_m_utf_code].
  rewrite P1 by lia.
  rewrite Z.shiftl_mul_pow2, Z.mod_small by lia.
  rewrite <- Z.shiftl_mul_pow2 by lia.
  rewrite lor_shiftl_6 by lia.
  rewrite bool_decide_eq_true_2 by lia.
  reflexivity.
Qed.

(** The last continuation byte completes the code point, which goes to the
    screen. *)
Lemma putch_last_continuation E b s :
  m_utf_mode s = true -> m_utf_more s = 1 -> m_state s = ESnormal ->
  0 <= m_utf_code s < 2 ^ 25 ->
  ~ (0 <= UC_INVALID E < 2 ^ 31) -> UC_REPLACE E <> UC_INVALID E ->
  128 <= b <= 191 ->
  putch E b s
  = put_glyph E
      (utf8_shown E (m_utf_code_min s) (m_utf_code s * 64 + (b - 128)))
      (pending 0 0 s).
Proof.
  intros Hmode Hmore Hst Hcode Hinv Hrep Hb. unfold putch.
  rewrite putch_front_step, Hmode.
  assert (Hbyte : 0 <= b <= 255) by lia.
  destruct (byte_masks _ Hbyte) as (M1 & M2 & _).
  destruct (byte_payload _ Hbyte) as (P1 & _).
  unfold decode_utf8. cbv zeta. cbn [l_ch l_tc l_ch2].
  rewrite (decide_True (P := Z.land b 128 <> 0)) by lia.
  rewrite (decide_True (P := m_utf_more s > 0)) by lia.
  rewrite (decide_True (P := Z.land b 192 = 128)) by tauto.
  cbn [m_utf_more m_utf_code set_m_utf_more set_m_utf_code].
  rewrite (decide_True (P := m_utf_more s - 1 = 0)) by lia.
  cbv beta iota.
  cbn [m_utf_more m_utf_code m_utf_code_min m_utf_mode m_state m_dspctrl
       set_m_utf_more set_m_utf_code].
  rewrite P1 by lia.
  rewrite Z.shiftl_mul_pow2, Z.mod_small by lia.
  rewrite <- Z.shiftl_mul_pow2 by lia.
  rewrite lor_shiftl_6 by lia.
  rewrite Hmore. change (1 - 1) with 0.
    rewrite (bool_decide_eq_false_2 (0 <> UC_INVALID E /\ 0 > 0)) by lia.
  set (v := m_utf_code s * 64 + (b - 128)).
  set (tc := if decide (v < m_utf_code_min s) then UC_REPLACE E else v).
  assert (Htc : tc <> UC_INVALID E).
  { unfold tc. case_decide; [done|]. unfold v. lia. }
  unfold have_glyph. cbn [l_ch l_tc l_ch2].
  cbn [m_utf_more m_utf_code m_utf_code_min m_utf_mode m_state m_dspctrl
       set_m_utf_more set_m_utf_code].
  rewrite Hmode, Hst. unfold DEL, CSI.
  rewrite (bool_decide_eq_true_2 (tc <> UC_INVALID E)) by done.
  rewrite (bool_decide_eq_true_2 (b >= 32)) by lia.
  rewrite (bool_decide_eq_true_2 (b <> 127)) by lia.
  rewrite (bool_decide_eq_true_2 (ESnormal = ESnormal)) by done.
  rewrite orb_true_r. cbn [andb orb negb].
  rewrite decide_True by done.
  unfold utf8_shown. fold v. cbv zeta. fold tc.
  destruct (isPrint E tc); reflexivity.
Qed.

(** The continuation bytes of a sequence, from any point of it on. *)
Lemma utf8_continuations E (conts : list Z) : forall s,
  m_utf_mode s = true -> m_state s = ESnormal ->
  conts <> [] -> m_utf_more s = Z.of_nat (length conts) ->
  0 <= m_utf_code s ->
  (m_utf_code s + 1) * 64 ^ Z.of_nat (length conts) <= 2 ^ 31 ->
  ~ (0 <= UC_INVALID E < 2 ^ 31) -> UC_REPLACE E <> UC_INVALID E ->
  Forall (fun b => 128 <= b <= 191) conts ->
  fold_left (fun s b => putch E b s) conts s
  = put_glyph E
      (utf8_shown E (m_utf_code_min s) (utf8_value (m_utf_code s) conts))
      (pending 0 0 s).
Proof.
  induction conts as [|b conts IH]; intros s Hmode Hst Hne Hmore H0 Hbound
    Hinv Hrep Hall; [done|].
  apply Forall_cons in Hall as [Hb Hall].
  destruct conts as [|b2 conts].
  - cbn [fold_left length] in *. change (64 ^ Z.of_nat 1) with 64 in Hbound.
    change (Z.of_nat 1) with 1 in Hmore.
    rewrite putch_last_continuation by (done || lia). done.
  - cbn [fold_left].
    assert (Hpow : 0 < 64 ^ Z.of_nat (length conts))
      by (apply Z.pow_pos_nonneg; lia).
    assert (Hp1 : 64 ^ Z.of_nat (length (b2 :: conts))
                  = 64 * 64 ^ Z.of_nat (length conts)).
    { cbn [length]. rewrite Nat2Z.inj_succ, Z.pow_succ_r by lia. done. }
    assert (Hp2 : 64 ^ Z.of_nat (length (b :: b2 :: conts))
                  = 64 * 64 ^ Z.of_nat (length (b2 :: conts))).
    { cbn [length]. rewrite !Nat2Z.inj_succ, !Z.pow_succ_r by lia. done. }
    assert (Hlen : Z.of_nat (length (b :: b2 :: conts))
                   = Z.of_nat (length (b2 :: conts)) + 1)
      by (cbn [length]; lia).
    assert (Hlen2 : 1 <= Z.of_nat (length (b2 :: conts)))
      by (cbn [length]; lia).
    rewrite Hp2 in Hbound. rewrite Hlen in Hmore.
    assert (Hc : m_utf_code s < 2 ^ 25) by (rewrite Hp1 in Hbound; nia).
    rewrite (putch_continuation E b s) by (done || lia).
    set (s1 := pending _ _ s).
    change (fold_left (fun s b => putch E b s) conts (putch E b2 s1))
      with (fold_left (fun s b => putch E b s) (b2 :: conts) s1).
    rewrite IH; try done.
    + unfold s1, pending. cbn [m_utf_more set_m_utf_code set_m_utf_more].
      lia.
    + unfold s1, pending. cbn [m_utf_code set_m_utf_code]. lia.
    + unfold s1, pending. cbn [m_utf_code set_m_utf_code].
      rewrite Hp1 in *. nia.
Qed.

Lemma utf8_lead_bound ch more payload min :
  utf8_lead ch = Some (more, payload, min) ->
  192 <= ch <= 253 /\ 1 <= more <= 5 /\ 0 <= payload
  /\ (payload + 1) * 64 ^ more <= 2 ^ 31.
Proof.
  unfold utf8_lead. repeat case_decide; intros ?; simplify_eq; lia.
Qed.

(** X1: in UTF-8 mode, in [ESnormal] and with nothing pending, a lead
    byte from 0xC0 to 0xFD followed by as many continuation bytes
    (0x80-0xBF) as it announces puts exactly one character on the screen:
    the code point that the standard assigns to the sequence (the payload
    bits of the lead byte, then six bits for every continuation byte), or
    the replacement character when that value is below the least one of a
    sequence of this length or is not printable.  The lead byte and the
    inner continuation bytes put nothing on the screen.  [UC_INVALID] is
    taken to be no value of 31 bits and different from [UC_REPLACE]. *)
Theorem utf8_sequence_decodes (E : Extern) (lead : Z) (conts : list Z)
    (s : vt220) (more payload min : Z) :
  m_utf_mode s = true -> m_utf_more s = 0 -> m_state s = ESnormal ->
  ~ (0 <= UC_INVALID E < 2 ^ 31) -> UC_REPLACE E <> UC_INVALID E ->
  utf8_lead lead = Some (more, payload, min) ->
  Z.of_nat (length conts) = more ->
  Forall (fun b => 128 <= b <= 191) conts ->
  fold_left (fun s b => putch E b s) conts (putch E lead s)
  = put_glyph E (utf8_shown E min (utf8_value payload conts))
      (set_m_utf_code_min min (pending 0 0 s)).
Proof.
  intros Hmode Hmore Hst Hinv Hrep Hlead Hlen Hall.
  destruct (utf8_lead_bound _ _ _ _ Hlead) as (Hch & Hm & Hp & Hbound).
  rewrite (putch_lead E lead s more payload min) by done.
  set (s1 := set_m_utf_code_min min (pending more payload s)).
  assert (Hne : conts <> []) by (intros ->; cbn in Hlen; lia).
  assert (Hm1 : m_utf_more s1 = Z.of_nat (length conts)) by (by rewrite Hlen).
  assert (Hc1 : 0 <= m_utf_code s1) by exact Hp.
  assert (Hb1 : (m_utf_code s1 + 1) * 64 ^ Z.of_nat (length conts) <= 2 ^ 31)
    by (rewrite Hlen; exact Hbound).
  rewrite (utf8_continuations E conts s1 Hmode Hst Hne Hm1 Hc1 Hb1 Hinv Hrep
             Hall).
  reflexivity.
Qed.

Lemma utf8_sequence_decodes_witness :
  fold_left (fun s b => putch sample_extern b s) [169]
    (putch sample_extern 195 region_state)
  = put_glyph sample_extern (utf8_shown sample_extern 128 (utf8_value 3 [169]))
      (set_m_utf_code_min 128 (pending 0 0 region_state)).
Proof.
  apply (utf8_sequence_decodes sample_extern 195 [169] region_state 1 3 128).
  - reflexivity.
  - reflexivity.
  - reflexivity.
  - cbn. lia.
  - cbn. lia.
  - reflexivity.
  - reflexivity.
  - repeat constructor; lia.
Defined.

(** The tests of [have_glyph] for a byte from 0x80 on in UTF-8 mode. *)
Lemma have_glyph_high E ch tc ch2 s :
  m_utf_mode s = true -> tc <> UC_INVALID E -> 128 <= ch ->
  have_glyph E (Build_locals ch tc ch2) s = true.
Proof.
  intros Hmode Htc Hch. unfold have_glyph. cbn [l_ch l_tc].
  rewrite Hmode. unfold DEL, CSI.
  rewrite (bool_decide_eq_true_2 (tc <> UC_INVALID E)) by done.
  rewrite (bool_decide_eq_true_2 (ch >= 32)) by lia.
  rewrite (bool_decide_eq_true_2 (ch <> 127)) by lia.
  by rewrite orb_true_r.
Qed.

Lemma decode_utf8_stray E l s :
  m_utf_more s = 0 -> 128 <= l_ch l <= 191 ->
  decode_utf8 E l s
  = (Build_locals (l_ch l) (UC_REPLACE E) (l_ch2 l),
     set_m_utf_code 0 (set_m_utf_more 0 s)).
Proof.
  intros Hmore Hch.
  assert (Hb : 0 <= l_ch l <= 255) by lia.
  destruct (byte_masks _ Hb) as (M1 & M2 & M3 & M4 & M5 & M6 & M7).
  unfold decode_utf8. cbv zeta.
  rewrite (decide_True (P := Z.land (l_ch l) 128 <> 0)) by lia.
  rewrite (decide_False (P := m_utf_more s > 0)) by lia.
  rewrite (decide_False (P := Z.land (l_ch l) 224 = 192)) by lia.
  rewrite (decide_False (P := Z.land (l_ch l) 240 = 224)) by lia.
  rewrite (decide_False (P := Z.land (l_ch l) 248 = 240)) by lia.
  rewrite (decide_False (P := Z.land (l_ch l) 252 = 248)) by lia.
  rewrite (decide_False (P := Z.land (l_ch l) 254 = 252)) by lia.
  done.
Qed.

Lemma putch_stray E ch s :
  m_utf_mode s = true -> m_utf_more s = 0 -> m_state s = ESnormal ->
  UC_REPLACE E <> UC_INVALID E -> 128 <= ch <= 191 ->
  putch E ch s
  = put_glyph E (UC_REPLACE E) (set_m_utf_code 0 (set_m_utf_more 0 s)).
Proof.
  intros Hmode Hmore Hst Hrep Hch. unfold putch.
  rewrite putch_front_step, Hmode, decode_utf8_stray by done.
  cbv beta iota.
  change (m_utf_more (set_m_utf_code 0 (set_m_utf_more 0 s))) with 0.
  change (m_state (set_m_utf_code 0 (set_m_utf_more 0 s))) with (m_state s).
  rewrite (bool_decide_eq_false_2 (_ /\ 0 > 0)) by lia.
  cbn [l_ch l_tc l_ch2].
  rewrite have_glyph_high by (done || lia).
  rewrite Hst, (bool_decide_eq_true_2 (ESnormal = ESnormal)) by done.
  cbn [andb orb negb]. rewrite decide_True by done.
  by destruct (isPrint E (UC_REPLACE E)).
Qed.

Lemma decode_utf8_broken E l s :
  m_utf_more s > 0 -> 192 <= l_ch l <= 255 ->
  decode_utf8 E l s
  = (Build_locals (l_ch l) (UC_REPLACE E) (l_ch2 l),
     set_m_utf_more 0
       (set_m_utf_code (Z.modulo (Z.shiftl (m_utf_code s) 6) (2 ^ 32)) s)).
Proof.
  intros Hmore Hch.
  assert (Hb : 0 <= l_ch l <= 255) by lia.
  destruct (byte_masks _ Hb) as (M1 & M2 & _).
  unfold decode_utf8. cbv zeta.
  rewrite (decide_True (P := Z.land (l_ch l) 128 <> 0)) by lia.
  rewrite (decide_True (P := m_utf_more s > 0)) by lia.
  rewrite (decide_False (P := Z.land (l_ch l) 192 = 128)) by lia.
  done.
Qed.

Lemma putch_broken E ch s :
  m_utf_mode s = true -> m_utf_more s > 0 -> m_state s = ESnormal ->
  UC_REPLACE E <> UC_INVALID E -> 192 <= ch <= 255 ->
  putch E ch s
  = put_glyph E (UC_REPLACE E)
      (set_m_utf_more 0
         (set_m_utf_code (Z.modulo (Z.shiftl (m_utf_code s) 6) (2 ^ 32)) s)).
Proof.
  intros Hmode Hmore Hst Hrep Hch. unfold putch.
  rewrite putch_front_step, Hmode, decode_utf8_broken by done.
  cbv beta iota.
  cbn [m_utf_more m_utf_code m_state m_utf_mode set_m_utf_more set_m_utf_code].
  rewrite (bool_decide_eq_false_2 (_ /\ 0 > 0)) by lia.
  cbn [l_ch l_tc l_ch2].
  rewrite have_glyph_high by (done || lia).
  rewrite Hst, (bool_decide_eq_true_2 (ESnormal = ESnormal)) by done.
  cbn [andb orb negb]. rewrite decide_True by done.
  by destruct (isPrint E (UC_REPLACE E)).
Qed.

(** More rounds than two change nothing. *)
Lemma putch_front_fuel E (k : nat) ch s :
  putch_front E (S (S k)) (Build_locals ch (UC_INVALID E) 0) s
  = putch_front E 2 (Build_locals ch (UC_INVALID E) 0) s.
Proof.
  rewrite !(putch_front_step E (S _)).
  destruct (m_utf_mode s) eqn:Hmode.
  - pose proof (decode_utf8_ch2 E (Build_locals ch (UC_INVALID E) 0) s eq_refl)
      as Hch2.
    pose proof (decoder_only_decode_utf8 E
                  (Build_locals ch (UC_INVALID E) 0) s) as Hd.
    destruct (decode_utf8 E _ s) as [l1 s1]. cbn [fst snd] in *.
    cbv beta iota zeta.
    destruct (bool_decide _); [done|].
    destruct (negb _ || negb _); [done|].
    destruct (decide _) as [|Hne]; [done|].
    destruct (Hch2 Hne) as [Hmore Hland].
    destruct (decoder_only_rest _ _ Hd) as (_ & _ & _ & _ & Hm & _).
    set (tc := if have_glyph E l1 s1 && negb (isPrint E (l_tc l1))
               then UC_REPLACE E else l_tc l1).
    pose proof (screen_only_rest _ _ (screen_only_put_glyph E tc s1))
      as (_ & _ & _ & _ & Hm2 & Hr2 & _).
    rewrite (putch_front_plain E k _ tc), (putch_front_plain E 0 _ tc)
      by congruence.
    done.
  - unfold decode_byte. cbv beta iota zeta. cbn [l_ch2].
    destruct (negb _ || negb _); [done|].
    by rewrite !decide_True.
Qed.

(** X4: the [for (;;)] loop at the head of [putch] ends for every byte
    and every state after two rounds at most: two rounds give a result,
    and any further rounds allowed give the same result. *)
Theorem putch_loop_ends_in_two_rounds (E : Extern) (ch : Z) (s : vt220)
    (k : nat) :
  exists r,
    putch_front E 2 (Build_locals ch (UC_INVALID E) 0) s = Some r
    /\ putch_front E (2 + k) (Build_locals ch (UC_INVALID E) 0) s = Some r.
Proof.
  pose proof (putch_front_total E ch s) as Htot.
  destruct (putch_front E 2 _ s) as [r|] eqn:Heq; [|done].
  exists r. split; [done|].
  change (2 + k)%nat with (S (S k)). by rewrite putch_front_fuel.
Qed.

(** X2: in UTF-8 mode, in [ESnormal] and with nothing pending, every byte
    from 0x80 to 0xBF is put on the screen as the replacement character.
    This includes the 8-bit controls of the C1 set (0x80-0x9F, among them
    HTS 0x88 and CSI 0x9B): they carry out no control function, the state
    stays [ESnormal], the tab stops stay, and no sequence is started. *)
Theorem stray_continuation_is_replaced (E : Extern) (ch : Z) (s : vt220) :
  m_utf_mode s = true -> m_utf_more s = 0 -> m_state s = ESnormal ->
  UC_REPLACE E <> UC_INVALID E -> 128 <= ch <= 191 ->
  putch E ch s
  = put_glyph E (UC_REPLACE E) (set_m_utf_code 0 (set_m_utf_more 0 s))
  /\ m_state (putch E ch s) = ESnormal
  /\ m_tabstop (putch E ch s) = m_tabstop s
  /\ m_utf_more (putch E ch s) = 0.
Proof.
  intros Hmode Hmore Hst Hrep Hch.
  rewrite putch_stray by done. split; [done|].
  destruct (screen_only_rest _ _
              (screen_only_put_glyph E (UC_REPLACE E)
                 (set_m_utf_code 0 (set_m_utf_more 0 s))))
    as (-> & _ & _ & -> & _ & -> & _).
  done.
Qed.

Lemma stray_continuation_is_replaced_witness :
  putch sample_extern 155 region_state
  = put_glyph sample_extern (UC_REPLACE sample_extern)
      (set_m_utf_code 0 (set_m_utf_more 0 region_state))
  /\ m_state (putch sample_extern 155 region_state) = ESnormal
  /\ m_tabstop (putch sample_extern 155 region_state) = m_tabstop region_state
  /\ m_utf_more (putch sample_extern 155 region_state) = 0.
Proof.
  apply (stray_continuation_is_replaced sample_extern 155 region_state).
  - reflexivity.
  - reflexivity.
  - reflexivity.
  - cbn. lia.
  - lia.
Defined.

(** X3: in UTF-8 mode and [ESnormal], a byte from 0xC0 to 0xFF that
    arrives while continuation bytes are pending ends the pending sequence
    with the replacement character and is itself dropped: it does not
    start a sequence of its own ([m_utf_more] is 0 afterwards). *)
Theorem lead_byte_inside_sequence_is_swallowed (E : Extern) (ch : Z)
    (s : vt220) :
  m_utf_mode s = true -> m_utf_more s > 0 -> m_state s = ESnormal ->
  UC_REPLACE E <> UC_INVALID E -> 192 <= ch <= 255 ->
  putch E ch s
  = put_glyph E (UC_REPLACE E)
      (set_m_utf_more 0
         (set_m_utf_code (Z.modulo (Z.shiftl (m_utf_code s) 6) (2 ^ 32)) s))
  /\ m_utf_more (putch E ch s) = 0.
Proof.
  intros Hmode Hmore Hst Hrep Hch.
  rewrite putch_broken by done. split; [done|].
  match goal with
  | |- m_utf_more (put_glyph E ?tc ?t) = 0 =>
      destruct (screen_only_rest _ _ (screen_only_put_glyph E tc t))
        as (_ & _ & _ & _ & _ & -> & _)
  end.
  done.
Qed.

Lemma lead_byte_inside_sequence_is_swallowed_witness :
  let s := putch sample_extern 195 region_state in
  putch sample_extern 195 s
  = put_glyph sample_extern (UC_REPLACE sample_extern)
      (set_m_utf_more 0
         (set_m_utf_code (Z.modulo (Z.shiftl (m_utf_code s) 6) (2 ^ 32)) s))
  /\ m_utf_more (putch sample_extern 195 s) = 0.
Proof.
  apply (lead_byte_inside_sequence_is_swallowed sample_extern 195
           (putch sample_extern 195 region_state)).
  - reflexivity.
  - vm_compute. reflexivity.
  - reflexivity.
  - cbn. lia.
  - lia.
Defined.

(** ** Erasing: [zap], [vt_EL], [vt_ED] *)

Lemma for_each_cons {S} x xs (body : Z -> S -> S) s :
  for_each (x :: xs) body s = for_each xs body (body x s).
Proof. reflexivity. Qed.

Lemma for_each_nil {S} (body : Z -> S -> S) s : for_each [] body s = s.
Proof. reflexivity. Qed.











Lemma region_state_ok : screen_ok region_state.
Proof. split; [reflexivity|]. repeat constructor. Qed.




(** ** Deleting and inserting cells: [vt_DCH], [vt_ICH] *)

Lemma zrange_snoc lo hi : lo < hi -> zrange lo hi = zrange lo (hi - 1) ++ [hi - 1].
Proof.
  intros H. unfold zrange.
  replace (Z.to_nat (hi - lo)) with (S (Z.to_nat (hi - 1 - lo))) by lia.
  rewrite seq_S, map_app. cbn [map]. f_equal. f_equal. lia.
Qed.

Lemma zrange_down_nil lo hi : hi <= lo -> zrange_down lo hi = [].
Proof. intros H. unfold zrange_down. by rewrite zrange_nil. Qed.

Lemma zrange_down_cons lo hi :
  lo < hi -> zrange_down lo hi = (hi - 1) :: zrange_down lo (hi - 1).
Proof.
  intros H. unfold zrange_down. rewrite (zrange_snoc lo hi) by done.
  by rewrite rev_app_distr.
Qed.



Lemma outch_ctl x y a s : ctl (outch x y a s) = ctl s.
Proof. unfold outch. by repeat case_decide. Qed.







Lemma ctl_att s s' : ctl s' = ctl s -> m_att s' = m_att s.
Proof. unfold ctl. congruence. Qed.










(** ** Scrolling: [vt_RI], [vt_LF], [vt_VT], [vt_IL], [vt_DL] *)

(** The copy loop of [vt_scroll_dn]: every row of [lo, hi) takes the
    content of the row above, the lowest row first. *)
Lemma shift_down_lines (k : nat) : forall lo hi s y,
  Z.to_nat (hi - lo) = k -> 1 <= lo ->
  hi <= Z.of_nat (length (m_screen s)) ->
  screen_line
    (for_each (zrange_down lo hi) (fun y s => screen_copy_line y (y - 1) s) s) y
  = if decide (lo <= y < hi) then screen_line s (y - 1) else screen_line s y.
Proof.
  induction k as [|k IH]; intros lo hi s y Hk Hlo Hhi.
  - rewrite zrange_down_nil by lia.
    rewrite for_each_nil, decide_False by lia. done.
  - rewrite zrange_down_cons, for_each_cons by lia.
    rewrite IH; [|lia|lia|rewrite screen_length_copy; lia].
    rewrite !screen_line_copy.
    destruct (proj2 (zlookup_is_Some (m_screen s) (hi - 1 - 1))) as [l Hl];
      [lia|].
    destruct (proj2 (zlookup_is_Some (m_screen s) (hi - 1))) as [l0 Hl0];
      [lia|].
    unfold screen_line at 1 3. rewrite Hl.
    repeat case_decide; subst; try lia; try done.
    all: unfold screen_line; rewrite ?Hl0, ?Hl; done.
Qed.

(** A scroll down of the region [top, bottom): every row but the first
    takes the content of the row above, the first row becomes blank. *)
Lemma vt_scroll_dn_lines s y :
  0 <= m_top s -> m_top s < m_bottom s ->
  m_bottom s <= Z.of_nat (length (m_screen s)) ->
  screen_line (vt_scroll_dn s) y
  = if decide (m_top s < y < m_bottom s) then screen_line s (y - 1)
    else if decide (y = m_top s)
         then Some (new_line (m_width s) (space_of (m_att s)))
         else screen_line s y.
Proof.
  intros Ht Htb Hb. unfold vt_scroll_dn. cbn zeta.
  set (s2 := for_each _ _ s).
  assert (Hctl2 : ctl s2 = ctl s).
  { unfold s2. apply (for_each_ind (fun s' => ctl s' = ctl s)); [done|].
    intros x s' _ <-. apply screen_copy_line_ctl. }
  assert (Hlines : forall z, screen_line s2 z
            = if decide (m_top s + 1 <= z < m_bottom s)
              then screen_line s (z - 1) else screen_line s z).
  { intros z. unfold s2.
    by rewrite (shift_down_lines _ _ _ _ _ eq_refl) by lia. }
  assert (Hgeo2 : geom s2 = geom s) by (unfold ctl in Hctl2; congruence).
  apply geom_fields in Hgeo2. destruct Hgeo2 as (Hw2 & _ & Ht2 & _ & _).
  assert (Hatt : m_att s2 = m_att s) by (unfold ctl in Hctl2; congruence).
  unfold screen_line at 1. simpl. rewrite zlookup_zalter.
  fold (screen_line s2 y). rewrite Hlines, Ht2.
  destruct (proj2 (zlookup_is_Some (m_screen s) (m_top s)))
    as [l Hl]; [lia|].
  repeat case_decide; subst; try lia; try done.
  unfold screen_line. rewrite Hl. simpl.
  rewrite blank_line_eq, Hw2, Hatt. done.
Qed.

Lemma screen_line_frame s s' y :
  m_screen s' = m_screen s -> screen_line s' y = screen_line s y.
Proof. unfold screen_line. by intros ->. Qed.

(** X9: reverse index.  With the cursor on the first row of the scroll
    region or above it, [vt_RI] scrolls the region down (every row of the
    region but the first takes the content of the row above, the first
    becomes blank) and puts the cursor on the first row of the region;
    with the cursor below that row it moves the cursor up by one row and
    leaves the screen alone.  Columns and scrollback stay. *)
Theorem vt_RI_moves_or_scrolls (s : vt220) :
  0 <= m_top s -> m_top s < m_bottom s ->
  m_bottom s <= Z.of_nat (length (m_screen s)) ->
  (cy s <= m_top s ->
     (forall y, screen_line (vt_RI s) y
        = if decide (m_top s < y < m_bottom s) then screen_line s (y - 1)
          else if decide (y = m_top s)
               then Some (new_line (m_width s) (space_of (m_att s)))
               else screen_line s y)
     /\ cy (vt_RI s) = m_top s)
  /\ (m_top s < cy s ->
        m_screen (vt_RI s) = m_screen s /\ cy (vt_RI s) = cy s - 1)
  /\ cx (vt_RI s) = cx s /\ cnewx (vt_RI s) = cnewx s
  /\ m_backlog (vt_RI s) = m_backlog s.
Proof.
  intros Ht Htb Hb. unfold vt_RI. destruct (set_cursor_nf false s) as [b ->].
  cbn zeta. set (s0 := at_cursor (cx s) (cy s) (cnewx s) b s).
  change (cy s0) with (cy s). change (m_top s0) with (m_top s).
  match goal with |- context [set_cursor ?o ?t] =>
    destruct (set_cursor_frame o t) as (_ & Hx0 & Hy0 & Hn0 & Hs0 & Hb0)
  end.
  pose proof (vt_scroll_dn_ctl s0) as Hctl.
  destruct (ctl_fields _ _ Hctl) as (_ & Hcx & Hcy & Hnx).
  split; [|split].
  - intros Hc. rewrite decide_True in * by done. split.
    + intros y. rewrite (screen_line_frame _ _ _ Hs0).
      change (screen_line (set_y (m_top s) (vt_scroll_dn s0)) y)
        with (screen_line (vt_scroll_dn s0) y).
      by rewrite (vt_scroll_dn_lines s0).
    + by rewrite Hy0.
  - intros Hc. rewrite decide_False in * by lia.
    rewrite decide_True in * by lia. split; [by rewrite Hs0|by rewrite Hy0].
  - rewrite Hx0, Hn0, Hb0. repeat case_decide; try done.
    change (cx (set_y (m_top s) (vt_scroll_dn s0))) with (cx (vt_scroll_dn s0)).
    change (cnewx (set_y (m_top s) (vt_scroll_dn s0)))
      with (cnewx (vt_scroll_dn s0)).
    change (m_backlog (set_y (m_top s) (vt_scroll_dn s0)))
      with (m_backlog (vt_scroll_dn s0)).
    by rewrite Hcx, Hnx, vt_scroll_dn_backlog.
Qed.

Lemma vt_RI_moves_or_scrolls_witness :
  (cy (set_y 0 region_state) <= m_top (set_y 0 region_state) ->
     (forall y, screen_line (vt_RI (set_y 0 region_state)) y
        = if decide (m_top (set_y 0 region_state) < y
                     < m_bottom (set_y 0 region_state))
          then screen_line (set_y 0 region_state) (y - 1)
          else if decide (y = m_top (set_y 0 region_state))
               then Some (new_line (m_width (set_y 0 region_state))
                            (space_of (m_att (set_y 0 region_state))))
               else screen_line (set_y 0 region_state) y)
     /\ cy (vt_RI (set_y 0 region_state)) = m_top (set_y 0 region_state))
  /\ (m_top (set_y 0 region_state) < cy (set_y 0 region_state) ->
        m_screen (vt_RI (set_y 0 region_state))
        = m_screen (set_y 0 region_state)
        /\ cy (vt_RI (set_y 0 region_state)) = cy (set_y 0 region_state) - 1)
  /\ cx (vt_RI (set_y 0 region_state)) = cx (set_y 0 region_state)
  /\ cnewx (vt_RI (set_y 0 region_state)) = cnewx (set_y 0 region_state)
  /\ m_backlog (vt_RI (set_y 0 region_state))
     = m_backlog (set_y 0 region_state).
Proof.
  apply (vt_RI_moves_or_scrolls (set_y 0 region_state)).
  - cbn. lia.
  - cbn. lia.
  - cbn. lia.
Defined.

(** X10: line feed.  With the cursor on the last row of the scroll region
    or below it, [vt_LF] scrolls the region up and leaves the cursor where
    it is: a cursor below the region scrolls the region too.  With the
    cursor above the last row of the region it moves the cursor down by
    one row and leaves screen and scrollback alone.  The columns stay. *)
Theorem vt_LF_moves_or_scrolls (s : vt220) :
  0 <= m_top s -> m_top s < m_bottom s -> m_bottom s <= m_height s ->
  m_bottom s <= Z.of_nat (length (m_screen s)) ->
  (cy s + 1 >= m_bottom s ->
     (forall y, screen_line (vt_LF s) y
        = if decide (m_top s <= y < m_bottom s - 1) then screen_line s (y + 1)
          else if decide (y = m_bottom s - 1)
               then Some (new_line (m_width s) (space_of (m_att s)))
               else screen_line s y)
     /\ cy (vt_LF s) = cy s
     /\ (~ (0 = m_top s /\ m_height s = m_bottom s) ->
         m_backlog (vt_LF s) = m_backlog s))
  /\ (cy s + 1 < m_bottom s ->
        m_screen (vt_LF s) = m_screen s /\ cy (vt_LF s) = cy s + 1
        /\ m_backlog (vt_LF s) = m_backlog s)
  /\ cx (vt_LF s) = cx s /\ cnewx (vt_LF s) = cnewx s.
Proof.
  intros Ht Htb Hbh Hb. unfold vt_LF.
  destruct (set_cursor_nf false s) as [b ->].
  cbn zeta. set (s0 := at_cursor (cx s) (cy s) (cnewx s) b s).
  change (cy s0) with (cy s). change (m_bottom s0) with (m_bottom s).
  change (m_height s0) with (m_height s).
  match goal with |- context [set_cursor ?o ?t] =>
    destruct (set_cursor_frame o t) as (_ & Hx0 & Hy0 & Hn0 & Hs0 & Hb0)
  end.
  pose proof (vt_scroll_up_ctl s0) as Hctl.
  destruct (ctl_fields _ _ Hctl) as (_ & Hcx & Hcy & Hnx).
  split; [|split].
  - intros Hc. rewrite decide_True in * by done. split; [|split].
    + intros y. rewrite (screen_line_frame _ _ _ Hs0).
      by rewrite (vt_scroll_up_lines s0).
    + by rewrite Hy0, Hcy.
    + intros Hfull. rewrite Hb0, vt_scroll_up_backlog.
      unfold pushed_top. by rewrite decide_False.
  - intros Hc. rewrite decide_False in * by lia.
    rewrite decide_True in * by lia.
    split; [by rewrite Hs0|]. split; [by rewrite Hy0|by rewrite Hb0].
  - rewrite Hx0, Hn0. repeat case_decide; try done.
Qed.

Lemma vt_LF_moves_or_scrolls_witness :
  (cy region_state + 1 >= m_bottom region_state ->
     (forall y, screen_line (vt_LF region_state) y
        = if decide (m_top region_state <= y < m_bottom region_state - 1)
          then screen_line region_state (y + 1)
          else if decide (y = m_bottom region_state - 1)
               then Some (new_line (m_width region_state)
                            (space_of (m_att region_state)))
               else screen_line region_state y)
     /\ cy (vt_LF region_state) = cy region_state
     /\ (~ (0 = m_top region_state
            /\ m_height region_state = m_bottom region_state) ->
         m_backlog (vt_LF region_state) = m_backlog region_state))
  /\ (cy region_state + 1 < m_bottom region_state ->
        m_screen (vt_LF region_state) = m_screen region_state
        /\ cy (vt_LF region_state) = cy region_state + 1
        /\ m_backlog (vt_LF region_state) = m_backlog region_state)
  /\ cx (vt_LF region_state) = cx region_state
  /\ cnewx (vt_LF region_state) = cnewx region_state.
Proof.
  apply (vt_LF_moves_or_scrolls region_state).
  - cbn. lia.
  - cbn. lia.
  - cbn. lia.
  - cbn. lia.
Defined.

(** X11: the control VT moves the cursor up, not down.  On the first row
    of the scroll region [vt_VT] scrolls the region down and the cursor
    stays; on any other row but row 0 the cursor moves up by one row; on
    row 0 outside the region nothing happens. *)
Theorem vt_VT_moves_up (s : vt220) :
  0 <= m_top s -> m_top s < m_bottom s ->
  m_bottom s <= Z.of_nat (length (m_screen s)) ->
  (cy s = m_top s ->
     (forall y, screen_line (vt_VT s) y
        = if decide (m_top s < y < m_bottom s) then screen_line s (y - 1)
          else if decide (y = m_top s)
               then Some (new_line (m_width s) (space_of (m_att s)))
               else screen_line s y)
     /\ cy (vt_VT s) = cy s)
  /\ (cy s <> m_top s ->
        m_screen (vt_VT s) = m_screen s
        /\ cy (vt_VT s) = if decide (cy s > 0) then cy s - 1 else cy s)
  /\ cx (vt_VT s) = cx s /\ cnewx (vt_VT s) = cnewx s
  /\ m_backlog (vt_VT s) = m_backlog s.
Proof.
  intros Ht Htb Hb. unfold vt_VT. destruct (set_cursor_nf false s) as [b ->].
  cbn zeta. set (s0 := at_cursor (cx s) (cy s) (cnewx s) b s).
  change (cy s0) with (cy s). change (m_top s0) with (m_top s).
  match goal with |- context [set_cursor ?o ?t] =>
    destruct (set_cursor_frame o t) as (_ & Hx0 & Hy0 & Hn0 & Hs0 & Hb0)
  end.
  pose proof (vt_scroll_dn_ctl s0) as Hctl.
  destruct (ctl_fields _ _ Hctl) as (_ & Hcx & Hcy & Hnx).
  split; [|split].
  - intros Hc. rewrite decide_True in * by done. split.
    + intros y. rewrite (screen_line_frame _ _ _ Hs0).
      by rewrite (vt_scroll_dn_lines s0).
    + by rewrite Hy0, Hcy.
  - intros Hc. rewrite decide_False in * by done.
    split; [rewrite Hs0|rewrite Hy0]; by case_decide.
  - rewrite Hx0, Hn0, Hb0. repeat case_decide; try done.
    by rewrite Hcx, Hnx, vt_scroll_dn_backlog.
Qed.

Lemma vt_VT_moves_up_witness :
  (cy region_state = m_top region_state ->
     (forall y, screen_line (vt_VT region_state) y
        = if decide (m_top region_state < y < m_bottom region_state)
          then screen_line region_state (y - 1)
          else if decide (y = m_top region_state)
               then Some (new_line (m_width region_state)
                            (space_of (m_att region_state)))
               else screen_line region_state y)
     /\ cy (vt_VT region_state) = cy region_state)
  /\ (cy region_state <> m_top region_state ->
        m_screen (vt_VT region_state) = m_screen region_state
        /\ cy (vt_VT region_state)
           = if decide (cy region_state > 0) then cy region_state - 1
             else cy region_state)
  /\ cx (vt_VT region_state) = cx region_state
  /\ cnewx (vt_VT region_state) = cnewx region_state
  /\ m_backlog (vt_VT region_state) = m_backlog region_state.
Proof.
  apply (vt_VT_moves_up region_state).
  - cbn. lia.
  - cbn. lia.
  - cbn. lia.
Defined.









(** A scroll up of the whole screen drops the first row and appends a
    blank one. *)
Lemma vt_scroll_up_screen_full s :
  m_top s = 0 -> m_bottom s = Z.of_nat (length (m_screen s)) ->
  0 < m_bottom s ->
  m_screen (vt_scroll_up s)
  = drop 1 (m_screen s) ++ [new_line (m_width s) (space_of (m_att s))].
Proof.
  intros Ht Hb Hpos. apply list_eq. intros i.
  pose proof (vt_scroll_up_lines s (Z.of_nat i)) as Hl.
  unfold screen_line, zlookup in Hl.
  rewrite !decide_True, Nat2Z.id in Hl by lia.
  rewrite Hl by lia. clear Hl.
  destruct (decide (Z.of_nat i < m_bottom s - 1)) as [Hlt|Hge].
  - rewrite decide_True by lia.
    rewrite lookup_app_l by (rewrite length_drop; lia).
    rewrite lookup_drop, decide_True by lia. f_equal. lia.
  - rewrite decide_False by lia.
    destruct (decide (Z.of_nat i = m_bottom s - 1)) as [Heq|Hne].
    + rewrite lookup_app_r by (rewrite length_drop; lia).
      rewrite length_drop.
      replace (i - (length (m_screen s) - 1))%nat with 0%nat by lia. done.
    + rewrite decide_True by lia. rewrite lookup_ge_None_2 by lia.
      symmetry. apply lookup_ge_None_2.
      rewrite length_app, length_drop. cbn [length]. lia.
Qed.

(** The rows that [k] scrolls of the whole screen push out are its first
    [k] rows. *)
Lemma evicted_take (k : nat) : forall s,
  geometry_ok s -> screen_ok s -> m_top s = 0 -> m_bottom s = m_height s ->
  Z.of_nat k <= m_height s ->
  evicted k s = take k (m_screen s).
Proof.
  induction k as [|k IH]; intros s Hg Hok Ht Hb Hk; [done|].
  cbn [evicted].
  destruct Hok as [Hlen Hall].
  destruct (m_screen s) as [|l0 rest] eqn:Hscr; [cbn in Hlen; lia|].
  assert (Hl0 : screen_line s 0 = Some l0).
  { unfold screen_line. by rewrite Hscr. }
  rewrite Hl0. cbn [from_option app take]. f_equal.
  pose proof (vt_scroll_up_ctl s) as Hctl.
  destruct (ctl_fields _ _ Hctl) as (Hgeo & _).
  apply geom_fields in Hgeo. destruct Hgeo as (Hw' & Hh' & Ht' & Hb' & _).
  rewrite IH.
  - rewrite vt_scroll_up_screen_full by (rewrite ?Hscr; lia).
    rewrite Hscr. cbn [drop]. rewrite take_app_le; [by rewrite drop_0|].
    cbn [length] in Hlen. rewrite drop_0. lia.
  - by apply vt_scroll_up_geometry_ok.
  - apply vt_scroll_up_screen_ok; [done|]. split; rewrite Hscr; done.
  - congruence.
  - congruence.
  - rewrite Hh'. lia.
Qed.

Lemma scroll_up_iter_backlog s (k : nat) :
  ~ (0 = m_top s /\ m_height s = m_bottom s) ->
  m_backlog (Nat.iter k vt_scroll_up s) = m_backlog s
  /\ ctl (Nat.iter k vt_scroll_up s) = ctl s.
Proof.
  intros Hpart. induction k as [|k [IHb IHc]]; [done|].
  change (Nat.iter (S k) vt_scroll_up s)
    with (vt_scroll_up (Nat.iter k vt_scroll_up s)).
  destruct (ctl_fields _ _ IHc) as (Hg & _).
  destruct (geom_fields _ _ Hg) as (_ & Hh & Htop & Hbot & _).
  split; [|by rewrite vt_scroll_up_ctl].
  rewrite vt_scroll_up_backlog. unfold pushed_top.
  rewrite decide_False; [done|]. by rewrite Hh, Htop, Hbot.
Qed.

(** X14: the rows that [vt_DL] deletes enter the scrollback when the
    cursor is on row 0 and the scroll region ends with the screen: the
    first [n] rows of the screen are pushed, oldest first.  In every other
    position the scrollback is as before. *)
Theorem vt_DL_scrollback (n : Z) (s : vt220) :
  geometry_ok s -> screen_ok s -> 0 <= n <= m_height s ->
  m_backlog (vt_DL n s)
  = if decide (cy s = 0 /\ m_bottom s = m_height s)
    then fold_left (log_push (m_backlog_max s))
           (take (Z.to_nat n) (m_screen s)) (m_backlog s)
    else m_backlog s.
Proof.
  intros Hg Hok Hn. unfold vt_DL, repeat_n. cbv zeta.
  set (s1 := set_m_top (cy (set_x (cnewx s) s)) (set_x (cnewx s) s)).
  change (m_backlog (set_m_top (m_top s) ?t)) with (m_backlog t).
  destruct Hg as (Hw & Hh & Ht & Htb & Hb).
  case_decide as Hc.
  - destruct Hc as [Hcy Hbot].
    assert (Hg1 : geometry_ok s1).
    { unfold geometry_ok. unfold s1. cbn. fold (cy s). lia. }
    destruct (scroll_up_log (Z.to_nat n) s1 Hg1 Hok) as [Hlog _];
      [exact Hcy|exact Hbot|].
    rewrite Hlog. rewrite evicted_take; [done|done|done|exact Hcy|exact Hbot|].
    change (m_height s1) with (m_height s). lia.
  - destruct (scroll_up_iter_backlog s1 (Z.to_nat n)) as [-> _]; [|done].
    unfold s1. cbn. fold (cy s). intros [? ?]. apply Hc. split; congruence.
Qed.

Lemma vt_DL_scrollback_witness :
  m_backlog (vt_DL 2 (set_y 0 small_log_state))
  = if decide (cy (set_y 0 small_log_state) = 0
               /\ m_bottom (set_y 0 small_log_state)
                  = m_height (set_y 0 small_log_state))
    then fold_left (log_push (m_backlog_max (set_y 0 small_log_state)))
           (take (Z.to_nat 2) (m_screen (set_y 0 small_log_state)))
           (m_backlog (set_y 0 small_log_state))
    else m_backlog (set_y 0 small_log_state).
Proof.
  apply (vt_DL_scrollback 2 (set_y 0 small_log_state)).
  - unfold geometry_ok. cbn. lia.
  - split; [reflexivity|]. repeat constructor.
  - cbn. lia.
Defined.

(** ** Resizing: [term_set_size] *)

Lemma term_set_size_phases w h s :
  term_set_size w h s
  = let w := if decide (w <= 0) then m_deccolm s else w in
    let h := if decide (h <= 0) then 25 else h in
    let s := resize_backlog w (resize_screen w s) in
    let s := shrink_rows h s in
    let s := pull_backlog (length (m_backlog s)) h s in
    let s := append_rows w h s in
    set_m_bottom h (set_m_top 0 (set_m_height h (set_m_width w
                                                   (set_m_deccolm w s)))).
Proof. reflexivity. Qed.

Lemma length_cells_line_set x a l :
  length (cells (line_set x a l)) = length (cells l).
Proof. unfold line_set, zinsert. cbn. by rewrite length_zalter. Qed.

Lemma length_cells_resize_line ow w l :
  0 <= w -> Z.of_nat (length (cells (resize_line ow w l))) = w.
Proof.
  intros Hw. unfold resize_line. cbv zeta.
  assert (Hres : Z.of_nat (length (cells (line_resize w l))) = w).
  { unfold line_resize. cbn.
    rewrite length_app, length_take, length_replicate. lia. }
  case_decide; [|done].
  destruct (cell_at (line_resize w l) 0); [|done].
  apply (for_each_ind
           (fun l' => Z.of_nat (length (cells l')) = w)); [done|].
  intros x l' _ Hl'. by rewrite length_cells_line_set.
Qed.

(** Altering the elements 0 to [n-1] one after the other. *)
Lemma fold_zalter_all {A} (f : A -> A) (n : nat) (l : list A) :
  fold_left (fun acc y => zalter f y acc) (zrange 0 (Z.of_nat n)) l
  = (f <$> take n l) ++ drop n l.
Proof.
  induction n as [|n IH].
  - rewrite zrange_nil by lia. cbn. by rewrite drop_0.
  - rewrite (zrange_snoc 0 (Z.of_nat (S n))) by lia.
    replace (Z.of_nat (S n) - 1) with (Z.of_nat n) by lia.
    rewrite fold_left_app, IH. cbn [fold_left].
    unfold zalter. rewrite decide_True by lia. rewrite Nat2Z.id.
    destruct (decide (n < length l)%nat) as [Hlt|Hge].
    + destruct (lookup_lt_is_Some_2 l n Hlt) as [x Hx].
      rewrite (take_S_r _ _ _ Hx), fmap_app. cbn [fmap list_fmap].
      rewrite (drop_S _ _ _ Hx).
      rewrite alter_app_r_alt
        by (rewrite length_fmap, length_take; lia).
      rewrite length_fmap, length_take.
      replace (n - n `min` length l)%nat with 0%nat by lia.
      cbn. by rewrite <- app_assoc.
    + rewrite !take_ge, !drop_ge by lia.
      rewrite app_nil_r. apply list_eq. intros i.
      destruct (decide (n = i)) as [->|Hni].
      * rewrite list_lookup_alter.
        rewrite (lookup_ge_None_2 (f <$> l) i) by (rewrite length_fmap; lia).
        by case_decide.
      * by rewrite list_lookup_alter_ne.
Qed.

Lemma resize_screen_fold w s :
  forall xs s0, m_width s0 = m_width s ->
    for_each xs
      (fun y s => set_m_screen
                    (zalter (resize_line (m_width s) w) y (m_screen s)) s) s0
    = set_m_screen
        (fold_left (fun acc y => zalter (resize_line (m_width s) w) y acc)
           xs (m_screen s0)) s0.
Proof.
  induction xs as [|x xs IH]; intros s0 Hw.
  - by destruct s0.
  - rewrite for_each_cons, IH by done. cbn [fold_left]. by rewrite Hw.
Qed.

Lemma resize_backlog_fold w s :
  forall xs s0, m_width s0 = m_width s ->
    for_each xs
      (fun y s => set_m_backlog
                    (zalter (resize_line (m_width s) w) y (m_backlog s)) s) s0
    = set_m_backlog
        (fold_left (fun acc y => zalter (resize_line (m_width s) w) y acc)
           xs (m_backlog s0)) s0.
Proof.
  induction xs as [|x xs IH]; intros s0 Hw.
  - by destruct s0.
  - rewrite for_each_cons, IH by done. cbn [fold_left]. by rewrite Hw.
Qed.

(** The first two phases: every row takes the new width. *)
Lemma resize_rows w s :
  Z.of_nat (length (m_screen s)) = m_height s ->
  resize_backlog w (resize_screen w s)
  = set_m_backlog (resize_line (m_width s) w <$> m_backlog s)
      (set_m_screen (resize_line (m_width s) w <$> m_screen s) s).
Proof.
  intros Hlen. unfold resize_screen.
  rewrite (resize_screen_fold w s) by done.
  rewrite <- Hlen, fold_zalter_all, firstn_all, drop_all, app_nil_r.
  unfold resize_backlog.
  rewrite (resize_backlog_fold w s) by done.
  cbn [m_backlog set_m_screen].
  rewrite fold_zalter_all, firstn_all, drop_all, app_nil_r.
  reflexivity.
Qed.

Lemma rows_wide_resize_rows w s :
  0 <= w ->
  rows_wide w
    (set_m_backlog (resize_line (m_width s) w <$> m_backlog s)
       (set_m_screen (resize_line (m_width s) w <$> m_screen s) s)).
Proof.
  intros Hw. split; cbn; apply Forall_fmap, Forall_true; intros l;
    by apply length_cells_resize_line.
Qed.

Lemma rows_wide_add_backlog w l s :
  Z.of_nat (length (cells l)) = w -> rows_wide w s ->
  rows_wide w (add_backlog l s).
Proof.
  intros Hl [Hs Hb]. split; [by rewrite add_backlog_screen|].
  rewrite add_backlog_log. unfold log_push.
  assert (Hall : Forall (fun l => Z.of_nat (length (cells l)) = w)
                   (m_backlog s ++ [l])).
  { apply Forall_app. split; [done|]. by constructor. }
  case_decide; [|done].
  destruct (m_backlog s ++ [l]) as [|l0 rest]; [done|].
  by apply Forall_cons in Hall as [_ ?].
Qed.

Lemma add_backlog_height l s : m_height (add_backlog l s) = m_height s.
Proof. unfold add_backlog. by case_decide. Qed.

(** Rows leave at the top, one per round. *)
Lemma shrink_loop w (xs : list Z) : forall s,
  rows_wide w s -> (length xs <= length (m_screen s))%nat ->
  let s' := for_each xs
              (fun _ s =>
                 match m_screen s with
                 | l :: rest => add_backlog l (set_m_screen rest s)
                 | [] => s
                 end) s in
  rows_wide w s' /\ m_height s' = m_height s
  /\ m_def s' = m_def s
  /\ length (m_screen s') = (length (m_screen s) - length xs)%nat.
Proof.
  induction xs as [|x xs IH]; intros s Hwide Hlen; cbv zeta.
  - rewrite for_each_nil. cbn [length]. repeat split; try apply Hwide. lia.
  - rewrite for_each_cons. cbn [length] in Hlen.
    destruct (m_screen s) as [|l rest] eqn:Hscr;
      [rewrite ?Hscr in Hlen; cbn in Hlen; lia|].
    rewrite ?Hscr in Hlen.
    destruct Hwide as [Hs Hb]. rewrite ?Hscr in Hs.
    apply Forall_cons in Hs as [Hl Hrest].
    set (s1 := add_backlog l (set_m_screen rest s)).
    assert (Hscr1 : m_screen s1 = rest) by apply add_backlog_screen.
    destruct (IH s1) as (Hw' & Hh' & Hd' & Hl').
    { by apply rows_wide_add_backlog. }
    { rewrite Hscr1. cbn [length] in Hlen. lia. }
    cbv zeta in Hw', Hh', Hd', Hl'. cbv beta iota. fold s1.
    split; [exact Hw'|].
    split; [rewrite Hh'; unfold s1; by rewrite add_backlog_height|].
    split; [rewrite Hd'; unfold s1, add_backlog; by case_decide|].
    rewrite Hl', Hscr1. cbn [length]. lia.
Qed.

Lemma shrink_rows_ok w h s :
  rows_wide w s -> Z.of_nat (length (m_screen s)) = m_height s -> 0 < h ->
  rows_wide w (shrink_rows h s)
  /\ m_height (shrink_rows h s) = m_height s
  /\ m_def (shrink_rows h s) = m_def s
  /\ Z.of_nat (length (m_screen (shrink_rows h s))) = Z.min h (m_height s).
Proof.
  intros Hwide Hlen Hh. unfold shrink_rows. case_decide as Hlt.
  - destruct (shrink_loop w (zrange 0 (m_height s - h)) s Hwide)
      as (Hw' & Hh' & Hd' & Hl').
    { unfold zrange. rewrite length_map, length_seq. lia. }
    cbv zeta in Hw', Hh', Hd', Hl'.
    split; [done|]. split; [done|]. split; [done|].
    rewrite Hl'. unfold zrange. rewrite length_map, length_seq. lia.
  - repeat split; try apply Hwide. lia.
Qed.

(** Rows come back from the scrollback while the screen is short. *)
Lemma pull_backlog_ok w h (k : nat) : forall s,
  rows_wide w s -> Z.of_nat (length (m_screen s)) = m_height s ->
  let s' := pull_backlog k h s in
  rows_wide w s' /\ Z.of_nat (length (m_screen s')) = m_height s'
  /\ m_def s' = m_def s
  /\ m_height s <= m_height s' /\ (m_height s <= h -> m_height s' <= h).
Proof.
  induction k as [|k IH]; intros s Hwide Hlen; cbv zeta; cbn [pull_backlog].
  - repeat split; try apply Hwide; try done; lia.
  - case_decide as Hgt; [|repeat split; try apply Hwide; try done; lia].
    destruct (last (m_backlog s)) as [l|] eqn:Hlast;
      [|repeat split; try apply Hwide; try done; lia].
    cbv zeta.
    set (s1 := set_m_height _ _).
    destruct Hwide as [Hs Hb].
    assert (Hl : Z.of_nat (length (cells l)) = w).
    { rewrite Forall_forall in Hb. apply Hb.
      apply last_Some in Hlast as [l' ->].
      apply elem_of_app. right. by apply list_elem_of_singleton. }
    destruct (IH s1) as (Hw' & Hl' & Hd' & Hge & Hle).
    { split; cbn.
      - by constructor.
      - apply last_Some in Hlast as [l' Heq]. rewrite Heq in Hb |- *.
        rewrite removelast_last. by apply Forall_app in Hb as [? _]. }
    { unfold s1. cbn. lia. }
    cbv zeta in Hw', Hl', Hd', Hge, Hle.
    split; [done|]. split; [done|]. split; [done|].
    assert (Hs1 : m_height s1 = m_height s + 1) by reflexivity.
    lia.
Qed.

(** New rows are appended until the screen has [h] rows. *)
Lemma append_loop w (xs : list Z) : forall s,
  0 <= w -> rows_wide w s ->
  let s' := for_each xs
              (fun _ s => set_m_screen (m_screen s ++ [new_line w (m_def s)]) s)
              s in
  rows_wide w s'
  /\ length (m_screen s') = (length (m_screen s) + length xs)%nat.
Proof.
  induction xs as [|x xs IH]; intros s Hw Hwide; cbv zeta.
  - rewrite for_each_nil. split; [done|cbn [length]; lia].
  - rewrite for_each_cons.
    set (s1 := set_m_screen _ s).
    destruct (IH s1 Hw) as [Hw' Hl'].
    { destruct Hwide as [Hs Hb]. split; [|done]. cbn.
      apply Forall_app. split; [done|]. constructor; [|done].
      unfold new_line. cbn. rewrite length_replicate. lia. }
    cbv zeta in Hw', Hl'. split; [done|].
    rewrite Hl'. unfold s1. cbn. rewrite length_app. cbn. lia.
Qed.

(** X15: after [term_set_size] with a positive column count the screen
    has as many rows as the new height says, every row of the screen and
    of the scrollback has the new width, and the scroll region is the
    whole screen.  This needs no more of the old state than a screen with
    as many rows as the old height says. *)
Theorem term_set_size_screen_ok (w h : Z) (s : vt220) :
  Z.of_nat (length (m_screen s)) = m_height s -> 0 < w ->
  screen_ok (term_set_size w h s) /\ geometry_ok (term_set_size w h s)
  /\ Forall (fun l => Z.of_nat (length (cells l)) = w)
       (m_backlog (term_set_size w h s)).
Proof.
  intros Hlen Hw. rewrite term_set_size_phases.
  rewrite (decide_False (P := w <= 0)) by lia. cbv zeta.
  set (h' := if decide (h <= 0) then 25 else h).
  assert (Hh' : 0 < h') by (unfold h'; case_decide; lia).
  rewrite resize_rows by done.
  set (s1 := set_m_backlog _ _).
  assert (Hwide1 : rows_wide w s1) by (apply rows_wide_resize_rows; lia).
  assert (Hlen1 : Z.of_nat (length (m_screen s1)) = m_height s1).
  { unfold s1. cbn. by rewrite length_fmap. }
  destruct (shrink_rows_ok w h' s1 Hwide1 Hlen1 Hh')
    as (Hwide2 & Hh2 & _ & Hlen2).
  set (s2 := shrink_rows h' s1) in *.
  assert (Hpull : exists s3,
             pull_backlog (length (m_backlog s2)) h' s2 = s3
             /\ rows_wide w s3
             /\ Z.of_nat (length (m_screen s3)) = Z.min h' (m_height s3)
             /\ m_height s3 <= Z.max h' (m_height s2)).
  { destruct (decide (h' < m_height s1)) as [Hlt|Hge].
    - exists s2. split; [|split; [done|split; lia]].
      destruct (length (m_backlog s2)); cbn [pull_backlog]; [done|].
      by rewrite decide_False by lia.
    - eexists. split; [done|].
      destruct (pull_backlog_ok w h' (length (m_backlog s2)) s2 Hwide2)
        as (Hw3 & Hl3 & _ & Hge3 & Hle3); [lia|].
      cbv zeta in Hw3, Hl3, Hge3, Hle3.
      split; [done|]. split; lia. }
  destruct Hpull as (s3 & -> & Hwide3 & Hlen3 & Hh3).
  unfold append_rows.
  destruct (append_loop w (zrange (m_height s3) h') s3) as [Hwide4 Hlen4];
    [lia|done|].
  cbv zeta in Hwide4, Hlen4.
  set (s4 := for_each _ _ s3) in *.
  assert (Hlen5 : Z.of_nat (length (m_screen s4)) = h').
  { rewrite Hlen4. unfold zrange. rewrite length_map, length_seq. lia. }
  split; [|split].
  - split; [exact Hlen5 | apply Hwide4].
  - unfold geometry_ok. cbn. lia.
  - apply Hwide4.
Qed.

Lemma term_set_size_screen_ok_witness :
  screen_ok (term_set_size 4 2 region_state)
  /\ geometry_ok (term_set_size 4 2 region_state)
  /\ Forall (fun l => Z.of_nat (length (cells l)) = 4)
       (m_backlog (term_set_size 4 2 region_state)).
Proof.
  apply (term_set_size_screen_ok 4 2 region_state).
  - reflexivity.
  - lia.
Defined.








(** ** Saving and restoring the cursor *)

Lemma screen_only_run_move m s : screen_only s (run_move m s).
Proof. destruct m; cbn [run_move]; auto with scr. Qed.

Lemma screen_only_moves ms : forall s,
  screen_only s (fold_left (fun t m => run_move m t) ms s).
Proof.
  induction ms as [|m ms IH]; intros s; [apply screen_only_refl|].
  cbn [fold_left]. eapply screen_only_trans; [apply screen_only_run_move|].
  apply IH.
Qed.

(** X17: [save], any sequence of cursor movements, [restore]: the cursor
    is back on the saved column and, outside origin mode, on the saved
    row (in origin mode the saved row is clamped to the scroll region);
    the attributes are the saved ones.  The pending column is not saved:
    it becomes the saved column. *)
Theorem restore_after_moves (ms : list move) (s : vt220) :
  geometry_ok s -> cursor_in_range s ->
  let s' := restore (fold_left (fun t m => run_move m t) ms (save s)) in
  cx s' = cx s /\ cnewx s' = cx s /\ cy s' = clamp_row s (cy s)
  /\ (m_decom s = false -> cy s' = cy s)
  /\ m_att s' = m_att s.
Proof.
  intros Hg [Hy Hx] s'.
  destruct (screen_only_moves ms (save s)) as (scr & bl & cur & att & Ht).
  unfold s', restore. rewrite Ht. cbv zeta.
  set (t := set_m_att att _).
  change (cur_x (m_cursor_saved t)) with (cx s).
  change (cur_y (m_cursor_saved t)) with (cy s).
  destruct (vt_CUP_nf (cx s) (cy s) t) as [b ->].
  assert (Hw : 1 <= m_width t).
  { unfold geometry_ok in Hg. change (m_width t) with (m_width s). lia. }
  rewrite (cup_column_clamp _ _ Hw).
  assert (Hcol : clamp_column t (cx s) = cx s).
  { unfold clamp_column, qBound. change (m_width t) with (m_width s). lia. }
  rewrite Hcol.
  change (clamp_row t (cy s)) with (clamp_row s (cy s)).
  split; [reflexivity|]. split; [reflexivity|]. split; [reflexivity|].
  split; [|reflexivity].
  intros Hd. change (clamp_row s (cy s) = cy s).
  unfold clamp_row, qBound. rewrite Hd. lia.
Qed.

Lemma restore_after_moves_witness :
  let s' := restore (fold_left (fun t m => run_move m t)
                       [Forward 1; Up 1; NextLine 2] (save region_state)) in
  cx s' = cx region_state /\ cnewx s' = cx region_state
  /\ cy s' = clamp_row region_state (cy region_state)
  /\ (m_decom region_state = false -> cy s' = cy region_state)
  /\ m_att s' = m_att region_state.
Proof.
  apply (restore_after_moves [Forward 1; Up 1; NextLine 2] region_state).
  - unfold geometry_ok. cbn. lia.
  - unfold cursor_in_range. cbn. lia.
Defined.

(** ** Backspace and tabulation *)

(** X18: backspace moves the cursor to the column left of the pending
    column and stops at column 0; cursor column and pending column are
    equal afterwards, so a pending wrap behind the last column ends on the
    last column.  Row and screen are as before. *)
Theorem vt_BS_steps_back (s : vt220) :
  cx (vt_BS s) = (if decide (cnewx s > 0) then cnewx s - 1 else cnewx s)
  /\ cnewx (vt_BS s) = cx (vt_BS s) /\ cy (vt_BS s) = cy s
  /\ m_screen (vt_BS s) = m_screen s.
Proof.
  unfold vt_BS. destruct (set_cursor_nf false s) as [b ->]. cbn zeta.
  set (s0 := at_cursor (cx s) (cy s) (cnewx s) b s).
  change (cnewx s0) with (cnewx s).
  change (cx (set_x (cnewx s) s0)) with (cnewx s).
  match goal with |- context [set_cursor ?o ?t] =>
    destruct (set_cursor_frame o t) as (_ & Hx0 & Hy0 & Hn0 & Hs0 & _)
  end.
  rewrite Hx0, Hy0, Hn0, Hs0. clear Hx0 Hy0 Hn0 Hs0.
  case_decide as Hgt.
  - destruct (set_newx_nf (cnewx s - 1) (set_x (cnewx s) s0)) as [b' ->].
    cbn. repeat split; lia.
  - cbn. repeat split; lia.
Qed.




(** ** Putting a character on the screen *)

(** The tail of [put_glyph] for a character that is no mark, once the
    pending column is on the row. *)
Lemma put_glyph_on_row E tc s :
  is_mark (category E (Z.modulo tc 65536)) = false ->
  category E tc <> Mark_Enclosing -> m_decim s = false ->
  cnewx s < m_width s ->
  put_glyph E tc s
  = set_newx (cnewx s + 1)
      (outch (cnewx s) (cy s) (set_mark 0 (set_code tc (m_att s)))
         (set_m_att (set_mark 0 (set_code tc (m_att s)))
            (set_x (cnewx s) s))).
Proof.
  intros Hmark Hencl Hdecim Hnx. unfold put_glyph. cbv zeta.
  rewrite Hmark. rewrite (decide_False (P := category E tc = Mark_Enclosing))
    by done.
  rewrite (decide_False (P := cnewx s >= m_width s)) by lia.
  change (m_decim (set_x (cnewx s) s)) with (m_decim s). rewrite Hdecim.
  match goal with
  | |- set_newx (cx (outch ?x ?y ?a ?t) + 1) _ = _ =>
      destruct (ctl_fields _ _ (outch_ctl x y a t)) as (_ & -> & _)
  end.
  reflexivity.
Qed.

Lemma put_glyph_cell (E : Extern) (tc : Z) (s : vt220) :
  is_mark (category E (Z.modulo tc 65536)) = false ->
  category E tc <> Mark_Enclosing -> m_decim s = false ->
  screen_ok s -> 0 <= cy s < m_height s -> 0 <= cnewx s < m_width s ->
  (forall x y, 0 <= x < m_width s -> 0 <= y < m_height s ->
     screen_cell (put_glyph E tc s) x y
     = if decide (x = cnewx s /\ y = cy s)
       then Some (set_mark 0 (set_code tc (m_att s)))
       else screen_cell s x y)
  /\ cx (put_glyph E tc s) = cnewx s
  /\ cnewx (put_glyph E tc s) = cnewx s + 1
  /\ cy (put_glyph E tc s) = cy s
  /\ m_att (put_glyph E tc s) = set_mark 0 (set_code tc (m_att s)).
Proof.
  intros Hmark Hencl Hdecim Hok Hy Hx.
  rewrite put_glyph_on_row by (done || lia).
  set (a := set_mark 0 (set_code tc (m_att s))).
  set (s1 := set_m_att a (set_x (cnewx s) s)).
  set (s2 := outch (cnewx s) (cy s) a s1).
  pose proof (outch_ctl (cnewx s) (cy s) a s1) as Hctl. fold s2 in Hctl.
  destruct (ctl_fields _ _ Hctl) as (_ & Hcx & Hcy & _).
  destruct (set_newx_frame (cnewx s + 1) s2) as (_ & Hx' & Hy' & Hn' & Hs' & _).
  split; [|split; [by rewrite Hx', Hcx|split; [done|split; [by rewrite Hy', Hcy|]]]].
  - intros x y Hxr Hyr.
    unfold screen_cell at 1, screen_line. rewrite Hs'.
    fold (screen_line s2 y). fold (screen_cell s2 x y).
    unfold s2. rewrite screen_cell_outch.
    change (screen_cell s1 x y) with (screen_cell s x y).
    change (m_width s1) with (m_width s). change (m_height s1) with (m_height s).
    destruct (screen_ok_cell s x y Hok Hxr Hyr) as [c Hc]. rewrite Hc.
    repeat case_decide; try done; exfalso; lia.
  - destruct (set_newx_nf (cnewx s + 1) s2) as [b ->].
    change (m_att (at_cursor _ _ _ _ s2)) with (m_att s2).
    assert (m_att s2 = m_att s1) as -> by (unfold ctl in Hctl; congruence).
    done.
Qed.

(** X20: a character that is no mark, with insert mode off and the
    pending column on the row, is stored at the pending column of the
    cursor row with the current attributes; no other cell changes, the
    cursor column becomes the old pending column and the pending column
    advances by one.  The current attributes keep the code of the
    character. *)
Theorem put_glyph_writes_cell (E : Extern) (tc : Z) (s : vt220) :
  is_mark (category E (Z.modulo tc 65536)) = false ->
  category E tc <> Mark_Enclosing -> m_decim s = false ->
  screen_ok s -> 0 <= cy s < m_height s -> 0 <= cnewx s < m_width s ->
  (forall x y, 0 <= x < m_width s -> 0 <= y < m_height s ->
     screen_cell (put_glyph E tc s) x y
     = if decide (x = cnewx s /\ y = cy s)
       then Some (set_mark 0 (set_code tc (m_att s)))
       else screen_cell s x y)
  /\ cx (put_glyph E tc s) = cnewx s
  /\ cnewx (put_glyph E tc s) = cnewx s + 1
  /\ cy (put_glyph E tc s) = cy s
  /\ m_att (put_glyph E tc s) = set_mark 0 (set_code tc (m_att s)).
Proof. apply put_glyph_cell. Qed.

Lemma put_glyph_writes_cell_witness :
  (forall x y, 0 <= x < m_width region_state ->
     0 <= y < m_height region_state ->
     screen_cell (put_glyph sample_extern 233 region_state) x y
     = if decide (x = cnewx region_state /\ y = cy region_state)
       then Some (set_mark 0 (set_code 233 (m_att region_state)))
       else screen_cell region_state x y)
  /\ cx (put_glyph sample_extern 233 region_state) = cnewx region_state
  /\ cnewx (put_glyph sample_extern 233 region_state)
     = cnewx region_state + 1
  /\ cy (put_glyph sample_extern 233 region_state) = cy region_state
  /\ m_att (put_glyph sample_extern 233 region_state)
     = set_mark 0 (set_code 233 (m_att region_state)).
Proof.
  apply (put_glyph_writes_cell sample_extern 233 region_state).
  - reflexivity.
  - discriminate.
  - reflexivity.
  - exact region_state_ok.
  - cbn. lia.
  - cbn. lia.
Defined.

Lemma vt_LF_columns s :
  cx (vt_LF s) = cx s /\ cnewx (vt_LF s) = cnewx s
  /\ m_att (vt_LF s) = m_att s /\ geom (vt_LF s) = geom s.
Proof.
  unfold vt_LF. destruct (set_cursor_nf false s) as [b ->]. cbn zeta.
  set (s0 := at_cursor (cx s) (cy s) (cnewx s) b s).
  assert (Hmid : forall t, ctl t = ctl s0 \/ (exists v, t = set_y v s0) ->
            cx t = cx s /\ cnewx t = cnewx s /\ m_att t = m_att s
            /\ geom t = geom s).
  { intros t [Hctl | [v ->]]; [|done].
    destruct (ctl_fields _ _ Hctl) as (Hg & Hcx & _ & Hnx).
    rewrite Hcx, Hnx, Hg, (ctl_att _ _ Hctl). done. }
  match goal with |- context [set_cursor ?o ?t] =>
    destruct (set_cursor_nf o t) as [b' ->];
    assert (Ht : cx t = cx s /\ cnewx t = cnewx s /\ m_att t = m_att s
                 /\ geom t = geom s);
    [|exact Ht]
  end.
  repeat case_decide.
  - apply Hmid. left. apply vt_scroll_up_ctl.
  - apply Hmid. right. eauto.
  - apply Hmid. by left.
Qed.

(** X21: a character that arrives while the pending column is behind the
    last cell of the row.  With autowrap on, [putch] does a carriage
    return and a line feed first and the character goes to column 0; with
    autowrap off the character overwrites the last cell of the row and
    the pending column stays behind the row. *)
Theorem put_glyph_at_right_margin (E : Extern) (tc : Z) (s : vt220) :
  is_mark (category E (Z.modulo tc 65536)) = false ->
  category E tc <> Mark_Enclosing -> m_decim s = false ->
  screen_ok s -> 0 <= cy s < m_height s -> 1 <= m_width s ->
  m_width s <= cnewx s ->
  (m_decawm s = true ->
     put_glyph E tc s = put_glyph E tc (vt_LF (vt_CR s))
     /\ cx (put_glyph E tc s) = 0 /\ cnewx (put_glyph E tc s) = 1)
  /\ (m_decawm s = false ->
        (forall x y, 0 <= x < m_width s -> 0 <= y < m_height s ->
           screen_cell (put_glyph E tc s) x y
           = if decide (x = m_width s - 1 /\ y = cy s)
             then Some (set_mark 0 (set_code tc (m_att s)))
             else screen_cell s x y)
        /\ cx (put_glyph E tc s) = m_width s - 1
        /\ cnewx (put_glyph E tc s) = m_width s
        /\ cy (put_glyph E tc s) = cy s).
Proof.
  intros Hmark Hencl Hdecim Hok Hy Hw Hnx. split.
  - intros Hawm.
    set (t := vt_LF (vt_CR s)).
    assert (Ht : screen_only s t).
    { unfold t. eapply screen_only_trans; [apply screen_only_vt_CR|].
      apply screen_only_vt_LF. }
    destruct Ht as (scr & bl & cur & att & Ht).
    assert (Hdt : m_decim t = false) by (rewrite Ht; exact Hdecim).
    assert (Hwt : m_width t = m_width s) by (by rewrite Ht).
    assert (Hnt : cnewx t = 0).
    { unfold t. destruct (vt_LF_columns (vt_CR s)) as (_ & -> & _).
      destruct (vt_CR_nf s) as [b ->]. done. }
    assert (Heq : put_glyph E tc s = put_glyph E tc t).
    { unfold put_glyph at 1. cbv zeta. rewrite Hmark.
      rewrite (decide_True (P := cnewx s >= m_width s)) by lia.
      rewrite Hawm. fold t.
      unfold put_glyph. cbv zeta. rewrite Hmark.
      rewrite (decide_False (P := cnewx t >= m_width t)) by lia.
      reflexivity. }
    split; [exact Heq|]. rewrite Heq.
    rewrite put_glyph_on_row by (done || lia). rewrite Hnt.
    match goal with |- context [set_newx ?v ?u] =>
      destruct (set_newx_frame v u) as (_ & -> & _ & -> & _)
    end.
    split; [|done].
    match goal with |- cx (outch ?x ?y ?a ?u) = _ =>
      destruct (ctl_fields _ _ (outch_ctl x y a u)) as (_ & -> & _)
    end.
    done.
  - intros Hawm.
    assert (Heq : put_glyph E tc s
                  = put_glyph E tc (set_newx (m_width s - 1) s)).
    { unfold put_glyph at 1. cbv zeta. rewrite Hmark.
      rewrite (decide_True (P := cnewx s >= m_width s)) by lia.
      rewrite Hawm.
      set (t := set_newx (m_width s - 1) s).
      destruct (set_newx_frame (m_width s - 1) s) as (Hg & _ & _ & Hn & _).
      fold t in Hg, Hn.
      destruct (geom_fields _ _ Hg) as (Hwt & _).
      unfold put_glyph. cbv zeta. rewrite Hmark.
      rewrite (decide_False (P := cnewx t >= m_width t)) by lia.
      reflexivity. }
    rewrite Heq.
    destruct (set_newx_nf (m_width s - 1) s) as [b Hnf]. rewrite Hnf.
    set (t := at_cursor (cx s) (cy s) (m_width s - 1) b s).
    destruct (put_glyph_cell E tc t Hmark Hencl Hdecim Hok)
      as (Hcell & Hcx & Hcn & Hcy & _).
    { exact Hy. }
    { change (cnewx t) with (m_width s - 1). change (m_width t) with (m_width s).
      lia. }
    change (cnewx t) with (m_width s - 1) in *.
    change (cy t) with (cy s) in *. change (m_width t) with (m_width s) in *.
    change (m_height t) with (m_height s) in *.
    change (m_att t) with (m_att s) in *.
    split; [|split; [done|split; [lia|done]]].
    intros x y Hxr Hyr. rewrite Hcell by done. done.
Qed.

Lemma put_glyph_at_right_margin_witness :
  (m_decawm (at_cursor 1 1 2 false region_state) = true ->
     put_glyph sample_extern 65 (at_cursor 1 1 2 false region_state)
     = put_glyph sample_extern 65 (vt_LF (vt_CR (at_cursor 1 1 2 false region_state)))
     /\ cx (put_glyph sample_extern 65 (at_cursor 1 1 2 false region_state)) = 0
     /\ cnewx (put_glyph sample_extern 65 (at_cursor 1 1 2 false region_state)) = 1)
  /\ (m_decawm (at_cursor 1 1 2 false region_state) = false ->
        (forall x y, 0 <= x < m_width (at_cursor 1 1 2 false region_state) ->
           0 <= y < m_height (at_cursor 1 1 2 false region_state) ->
           screen_cell (put_glyph sample_extern 65 (at_cursor 1 1 2 false region_state))
             x y
           = if decide (x = m_width (at_cursor 1 1 2 false region_state) - 1
                        /\ y = cy (at_cursor 1 1 2 false region_state))
             then Some (set_mark 0
                          (set_code 65 (m_att (at_cursor 1 1 2 false region_state))))
             else screen_cell (at_cursor 1 1 2 false region_state) x y)
        /\ cx (put_glyph sample_extern 65 (at_cursor 1 1 2 false region_state))
           = m_width (at_cursor 1 1 2 false region_state) - 1
        /\ cnewx (put_glyph sample_extern 65 (at_cursor 1 1 2 false region_state))
           = m_width (at_cursor 1 1 2 false region_state)
        /\ cy (put_glyph sample_extern 65 (at_cursor 1 1 2 false region_state))
           = cy (at_cursor 1 1 2 false region_state)).
Proof.
  apply (put_glyph_at_right_margin sample_extern 65 (at_cursor 1 1 2 false region_state)).
  - reflexivity.
  - discriminate.
  - reflexivity.
  - split; [reflexivity|]. repeat constructor.
  - cbn. lia.
  - cbn. lia.
  - cbn. lia.
Defined.

(** X22: a combining mark is attached to the cell under the cursor: that
    cell keeps its code and takes the mark and the width 1 (2 for an
    enclosing mark); no other cell changes, cursor and attributes stay,
    and the pending column becomes the cursor column plus the width. *)
Theorem put_glyph_attaches_mark (E : Extern) (tc : Z) (s : vt220) :
  is_mark (category E (Z.modulo tc 65536)) = true ->
  screen_ok s -> 0 <= cy s < m_height s -> 0 <= cx s < m_width s ->
  let wd := if decide (category E tc = Mark_Enclosing) then 2 else 1 in
  (forall x y, 0 <= x < m_width s -> 0 <= y < m_height s ->
     screen_cell (put_glyph E tc s) x y
     = if decide (x = cx s /\ y = cy s)
       then (fun c => set_width wd (set_mark tc c)) <$> screen_cell s x y
       else screen_cell s x y)
  /\ cx (put_glyph E tc s) = cx s /\ cy (put_glyph E tc s) = cy s
  /\ cnewx (put_glyph E tc s) = cx s + wd
  /\ m_att (put_glyph E tc s) = m_att s.
Proof.
  intros Hmark Hok Hy Hx wd. unfold put_glyph. cbv zeta. rewrite Hmark.
  fold wd.
  destruct (screen_ok_cell s (cx s) (cy s) Hok) as [c Hc]; [lia|lia|].
  rewrite Hc.
  set (s1 := outch (cx s) (cy s) (set_width wd (set_mark tc c)) s).
  pose proof (outch_ctl (cx s) (cy s) (set_width wd (set_mark tc c)) s)
    as Hctl. fold s1 in Hctl.
  destruct (ctl_fields _ _ Hctl) as (_ & Hcx & Hcy & _).
  destruct (set_newx_nf (cx s1 + wd) s1) as [b ->].
  change (cx (at_cursor ?a _ _ _ _)) with a.
  change (cy (at_cursor _ ?a _ _ _)) with a.
  change (cnewx (at_cursor _ _ ?a _ _)) with a.
  change (m_att (at_cursor _ _ _ _ ?t)) with (m_att t).
  rewrite Hcx, Hcy, (ctl_att _ _ Hctl).
  split; [|done].
  intros x y Hxr Hyr.
  change (screen_cell (at_cursor _ _ _ _ s1) x y) with (screen_cell s1 x y).
  unfold s1. rewrite screen_cell_outch.
  repeat case_decide; try done; try (exfalso; lia).
  destruct_and?. subst. by rewrite Hc.
Qed.

Lemma put_glyph_attaches_mark_witness :
  let wd := if decide (category mark_extern 769 = Mark_Enclosing) then 2
            else 1 in
  (forall x y, 0 <= x < m_width region_state ->
     0 <= y < m_height region_state ->
     screen_cell (put_glyph mark_extern 769 region_state) x y
     = if decide (x = cx region_state /\ y = cy region_state)
       then (fun c => set_width wd (set_mark 769 c))
              <$> screen_cell region_state x y
       else screen_cell region_state x y)
  /\ cx (put_glyph mark_extern 769 region_state) = cx region_state
  /\ cy (put_glyph mark_extern 769 region_state) = cy region_state
  /\ cnewx (put_glyph mark_extern 769 region_state) = cx region_state + wd
  /\ m_att (put_glyph mark_extern 769 region_state) = m_att region_state.
Proof.
  apply (put_glyph_attaches_mark mark_extern 769 region_state).
  - reflexivity.
  - exact region_state_ok.
  - cbn. lia.
  - cbn. lia.
Defined.

(** ** Setting the scroll region *)

(** X23: the final byte r with two parameters [a] and [b].  When
    [a < b <= m_height] the margins become [a - 1] and [b] and the cursor
    goes home (in origin mode to the new top margin); a first parameter 0
    is not rejected and gives the top margin -1, so the scroll region is
    inside the screen afterwards exactly when [1 <= a].  In every other
    case the sequence changes nothing. *)
Theorem csi_r_sets_region (E : Extern) (a b : Z) (rest : list Z) (s : vt220) :
  m_csi_args s = a :: b :: rest -> 1 <= m_width s -> 1 <= m_height s ->
  - 2 ^ 31 < a < 2 ^ 31 ->
  let s' := csi_dispatch E 114 s in
  (a < b /\ b <= m_height s ->
     m_top s' = a - 1 /\ m_bottom s' = b
     /\ cx s' = 0 /\ cnewx s' = 0
     /\ cy s' = (if m_decom s then a - 1 else 0)
     /\ m_screen s' = m_screen s
     /\ (geometry_ok s' <-> 1 <= a))
  /\ (~ (a < b /\ b <= m_height s) -> s' = s).
Proof.
  intros Hargs Hw Hh Ha s'. unfold s', csi_dispatch.
  assert (Hcount : csi_count s = 2 + Z.of_nat (length rest)).
  { unfold csi_count. rewrite Hargs. cbn [length]. lia. }
  cbv zeta.
  rewrite (decide_False (P := csi_count s < 1)) by lia.
  rewrite (decide_False (P := csi_count s < 1)) by lia.
  assert (H0 : csi_arg s 0 = a) by (unfold csi_arg; by rewrite Hargs).
  assert (H1 : csi_arg s 1 = b) by (unfold csi_arg; by rewrite Hargs).
  rewrite H0, H1. split.
  - intros Hab. rewrite decide_True by done.
    change (csi_arg (set_m_top (a - 1) s) 1) with (csi_arg s 1). rewrite H1.
    set (t := set_m_bottom b (set_m_top (a - 1) s)).
    unfold vt_CUA.
    destruct (vt_CUP_nf 0 (if m_decom t then int_wrap (m_top t + 0) else 0) t)
      as [bb ->].
    change (m_top (at_cursor _ _ _ _ t)) with (a - 1).
    change (m_bottom (at_cursor _ _ _ _ t)) with b.
    change (cx (at_cursor ?x _ _ _ _)) with x.
    change (cnewx (at_cursor _ _ ?x _ _)) with x.
    change (cy (at_cursor _ ?x _ _ _)) with x.
    change (m_screen (at_cursor _ _ _ _ t)) with (m_screen s).
    assert (Hcol : cup_column 0 t = 0).
    { unfold cup_column. change (m_width t) with (m_width s).
      repeat case_decide; lia. }
    rewrite Hcol.
    split; [done|]. split; [done|]. split; [done|]. split; [done|].
    split; [|split; [done|]].
    + unfold clamp_row, qBound. change (m_decom t) with (m_decom s).
      change (m_top t) with (a - 1). change (m_bottom t) with b.
      change (m_height t) with (m_height s).
      destruct (m_decom s); [|lia].
      rewrite Z.add_0_r, int_wrap_id by lia. lia.
    + unfold geometry_ok.
      change (m_width (at_cursor _ _ _ _ t)) with (m_width s).
      change (m_height (at_cursor _ _ _ _ t)) with (m_height s).
      change (m_top (at_cursor _ _ _ _ t)) with (a - 1).
      change (m_bottom (at_cursor _ _ _ _ t)) with b.
      lia.
  - intros Hab. by rewrite decide_False.
Qed.

Lemma csi_r_sets_region_witness :
  let s' := csi_dispatch sample_extern 114
              (set_m_csi_args [0; 2] region_state) in
  (0 < 2 /\ 2 <= m_height (set_m_csi_args [0; 2] region_state) ->
     m_top s' = 0 - 1 /\ m_bottom s' = 2
     /\ cx s' = 0 /\ cnewx s' = 0
     /\ cy s' = (if m_decom (set_m_csi_args [0; 2] region_state) then 0 - 1
                 else 0)
     /\ m_screen s' = m_screen (set_m_csi_args [0; 2] region_state)
     /\ (geometry_ok s' <-> 1 <= 0))
  /\ (~ (0 < 2 /\ 2 <= m_height (set_m_csi_args [0; 2] region_state)) ->
      s' = set_m_csi_args [0; 2] region_state).
Proof.
  apply (csi_r_sets_region sample_extern 0 2 []
           (set_m_csi_args [0; 2] region_state)).
  - reflexivity.
  - cbn. lia.
  - cbn. lia.
  - lia.
Defined.

(** ** Control sequences and their parameters *)

Lemma decode_utf8_ascii E l s :
  m_utf_more s = 0 -> m_shift s < 0 -> 0 <= l_ch l <= 127 ->
  decode_utf8 E l s
  = (Build_locals (l_ch l) (cmap_value (m_trans s) (l_ch l)) (l_ch2 l),
     set_m_utf_code (l_ch l) s).
Proof.
  intros Hmore Hshift Hch. unfold decode_utf8. cbv zeta.
  rewrite (decide_False (P := Z.land (l_ch l) 128 <> 0))
    by (rewrite land_128_small by lia; lia).
  rewrite (decide_False (P := m_utf_more s > 0)) by lia.
  unfold end_shift.
  change (m_shift (set_m_utf_code (l_ch l) s)) with (m_shift s).
  rewrite (decide_False (P := m_shift s >= 0)) by lia.
  reflexivity.
Qed.

(** A byte below 0x80 that arrives inside an escape sequence goes to the
    state machine. *)
Lemma putch_ascii_escape E ch s :
  m_utf_mode s = true -> m_utf_more s = 0 -> m_shift s < 0 ->
  0 <= ch <= 127 -> m_state s <> ESnormal ->
  putch E ch s = putch_state E ch (set_m_utf_code ch s).
Proof.
  intros Hmode Hmore Hshift Hch Hst. unfold putch.
  rewrite putch_front_step, Hmode, decode_utf8_ascii by done.
  cbv beta iota. cbn [l_ch l_tc l_ch2].
  change (m_utf_more (set_m_utf_code ch s)) with (m_utf_more s).
  change (m_state (set_m_utf_code ch s)) with (m_state s).
  rewrite (bool_decide_eq_false_2 (_ /\ m_utf_more s > 0)) by lia.
  rewrite (bool_decide_eq_false_2 (m_state s = ESnormal)) by done.
  rewrite orb_true_r.
  by rewrite decide_False.
Qed.

(** ESC in [ESnormal]. *)
Lemma putch_ESC E s :
  m_utf_mode s = true -> m_utf_more s = 0 -> m_shift s < 0 ->
  m_state s = ESnormal ->
  putch E 27 s = set_m_state ESesc (set_m_utf_code 27 s).
Proof.
  intros Hmode Hmore Hshift Hst. unfold putch.
  rewrite putch_front_step, Hmode, decode_utf8_ascii by (done || cbn; lia).
  cbv beta iota. cbn [l_ch l_tc l_ch2].
  change (m_utf_more (set_m_utf_code 27 s)) with (m_utf_more s).
  change (m_state (set_m_utf_code 27 s)) with (m_state s).
  rewrite (bool_decide_eq_false_2 (_ /\ m_utf_more s > 0)) by lia.
  unfold have_glyph. cbn [l_ch l_tc l_ch2].
  change (m_utf_mode (set_m_utf_code 27 s)) with (m_utf_mode s).
  rewrite Hmode.
  rewrite (bool_decide_eq_false_2 (27 >= 32)) by lia.
  cbn [negb orb andb]. rewrite andb_false_r. cbn [negb orb andb].
  change (m_state (set_m_utf_code 27 s)) with (m_state s).
  rewrite Hst, decide_True by done. reflexivity.
Qed.

Lemma putch_getargs_collect E b s :
  b = 59 \/ 48 <= b <= 57 ->
  putch_getargs E b s = set_m_csi_args (collect b (m_csi_args s)) s.
Proof.
  intros Hb. unfold putch_getargs, collect, csi_append, csi_count.
  destruct (decide (b = 59)) as [->|Hne]; [done|].
  rewrite decide_True by lia. done.
Qed.

(** A digit or a semicolon while parameters are collected. *)
Lemma putch_collecting E b c args s :
  m_utf_mode s = true -> m_utf_more s = 0 -> m_shift s < 0 ->
  b = 59 \/ 48 <= b <= 57 ->
  putch E b (collecting c args s) = collecting b (collect b args) s.
Proof.
  intros Hmode Hmore Hshift Hb.
  rewrite putch_ascii_escape by (done || lia).
  unfold putch_state.
  change (m_state (set_m_utf_code b (collecting c args s))) with ESgetargs.
  cbv iota. rewrite putch_getargs_collect by done. reflexivity.
Qed.

(** The byte that ends the parameters. *)
Lemma putch_collecting_final E f c args s :
  m_utf_mode s = true -> m_utf_more s = 0 -> m_shift s < 0 ->
  0 <= f <= 127 -> f <> 59 -> ~ (48 <= f <= 57) ->
  putch E f (collecting c args s)
  = putch_gotargs E f
      (set_m_state ESgotargs
         (set_m_utf_code f (set_m_ques false (set_m_csi_args args s)))).
Proof.
  intros Hmode Hmore Hshift Hf H59 Hdig.
  rewrite putch_ascii_escape by (done || lia).
  unfold putch_state.
  change (m_state (set_m_utf_code f (collecting c args s))) with ESgetargs.
  cbv iota. unfold putch_getargs.
  rewrite !decide_False by done. reflexivity.
Qed.

(** The first byte after ESC [ is treated like a byte that follows an
    empty first parameter. *)
Lemma putch_csi_entry E b c s :
  m_utf_mode s = true -> m_utf_more s = 0 -> m_shift s < 0 ->
  0 <= b <= 127 -> b <> 91 -> b <> 63 ->
  putch E b (set_m_state EScsi (set_m_utf_code c s))
  = putch E b (collecting c [0] s).
Proof.
  intros Hmode Hmore Hshift Hb H91 H63.
  rewrite !putch_ascii_escape by (done || lia).
  unfold putch_state.
  change (m_state (set_m_utf_code b (collecting c [0] s))) with ESgetargs.
  change (m_state (set_m_utf_code b (set_m_state EScsi (set_m_utf_code c s))))
    with EScsi.
  cbv iota zeta.
  rewrite decide_False by done.
  rewrite (bool_decide_eq_false_2 (b = 63)) by done.
  cbn [m_ques set_m_ques]. reflexivity.
Qed.

Lemma decimal_from_ge ds : forall v,
  0 <= v -> Forall (fun d => 0 <= d <= 9) ds -> v <= decimal_from v ds.
Proof.
  induction ds as [|d ds IH]; intros v Hv Hall; [done|].
  apply Forall_cons in Hall as [Hd Hall]. cbn [decimal_from fold_left].
  fold (decimal_from (v * 10 + d) ds).
  pose proof (IH (v * 10 + d) ltac:(lia) Hall). lia.
Qed.

(** The digits of one parameter. *)
Lemma collect_digits ds : forall pre v,
  0 <= v -> Forall (fun d => 0 <= d <= 9) ds ->
  decimal_from v ds < 2 ^ 31 ->
  fold_left (fun args b => collect b args) (map (fun d => 48 + d) ds)
    (pre ++ [v])
  = pre ++ [decimal_from v ds].
Proof.
  induction ds as [|d ds IH]; intros pre v Hv Hall Hlt; [done|].
  apply Forall_cons in Hall as [Hd Hall].
  change (decimal_from v (d :: ds)) with (decimal_from (v * 10 + d) ds) in *.
  cbn [map fold_left].
  pose proof (decimal_from_ge ds (v * 10 + d) ltac:(lia) Hall) as Hge.
  assert (Hstep : collect (48 + d) (pre ++ [v]) = pre ++ [v * 10 + d]).
  { unfold collect. rewrite decide_False by lia.
    unfold zalter. rewrite decide_True by (rewrite length_app; cbn; lia).
    rewrite length_app. cbn [length].
    replace (Z.to_nat (Z.of_nat (length pre + 1) - 1)) with (length pre + 0)%nat
      by lia.
    rewrite alter_app_r. cbn. f_equal. f_equal.
    rewrite int_wrap_id by lia. lia. }
  rewrite Hstep. apply IH; [lia|done|done].
Qed.

(** The parameters of a control sequence, collected from the single value
    0 that the entry of the sequence leaves. *)
Lemma collect_params dss : forall pre,
  dss <> [] ->
  Forall (Forall (fun d => 0 <= d <= 9)) dss ->
  Forall (fun ds => decimal ds < 2 ^ 31) dss ->
  fold_left (fun args b => collect b args) (param_bytes dss) (pre ++ [0])
  = pre ++ map decimal dss.
Proof.
  induction dss as [|ds dss IH]; intros pre Hne Hdig Hlt; [done|].
  apply Forall_cons in Hdig as [Hd Hdig].
  apply Forall_cons in Hlt as [Hl Hlt].
  destruct dss as [|ds2 dss].
  - cbn [param_bytes map]. by rewrite collect_digits.
  - change (param_bytes (ds :: ds2 :: dss))
      with (map (fun d => 48 + d) ds ++ 59 :: param_bytes (ds2 :: dss)).
    rewrite fold_left_app, collect_digits by done.
    cbn [fold_left]. unfold collect at 2. rewrite decide_True by done.
    rewrite (IH (pre ++ [decimal_from 0 ds])) by done.
    by rewrite <- app_assoc.
Qed.

Lemma param_bytes_range dss :
  Forall (Forall (fun d => 0 <= d <= 9)) dss ->
  Forall (fun b => b = 59 \/ 48 <= b <= 57) (param_bytes dss).
Proof.
  induction dss as [|ds dss IH]; intros Hall; [constructor|].
  apply Forall_cons in Hall as [Hd Hall].
  assert (Hds : Forall (fun b => b = 59 \/ 48 <= b <= 57)
                  (map (fun d => 48 + d) ds)).
  { apply Forall_fmap. eapply Forall_impl; [exact Hd|]. cbn. lia. }
  destruct dss as [|ds2 dss]; [done|].
  change (param_bytes (ds :: ds2 :: dss))
    with (map (fun d => 48 + d) ds ++ 59 :: param_bytes (ds2 :: dss)).
  apply Forall_app. split; [done|]. constructor; [by left|]. by apply IH.
Qed.

(** A run of digits and semicolons while parameters are collected. *)
Lemma putch_collecting_run E s (bs : list Z) : forall c args,
  m_utf_mode s = true -> m_utf_more s = 0 -> m_shift s < 0 ->
  Forall (fun b => b = 59 \/ 48 <= b <= 57) bs ->
  fold_left (fun t b => putch E b t) bs (collecting c args s)
  = collecting (default c (last bs))
      (fold_left (fun args b => collect b args) bs args) s.
Proof.
  induction bs as [|b bs IH]; intros c args Hmode Hmore Hshift Hall; [done|].
  apply Forall_cons in Hall as [Hb Hall].
  cbn [fold_left]. rewrite putch_collecting by done.
  rewrite IH by done. f_equal.
  rewrite (last_cons b bs). by destruct (last bs).
Qed.

Lemma putch_ESC_bracket E s :
  m_utf_mode s = true -> m_utf_more s = 0 -> m_shift s < 0 ->
  m_state s = ESnormal ->
  putch E 91 (putch E 27 s) = set_m_state EScsi (set_m_utf_code 91 s).
Proof.
  intros Hmode Hmore Hshift Hst. rewrite putch_ESC by done.
  rewrite putch_ascii_escape by (done || lia). reflexivity.
Qed.

Lemma csi_sequence (E : Extern) (dss : list (list Z)) (f : Z)
    (s : vt220) :
  m_state s = ESnormal -> m_utf_mode s = true -> m_utf_more s = 0 ->
  m_shift s < 0 ->
  dss <> [] ->
  Forall (Forall (fun d => 0 <= d <= 9)) dss ->
  Forall (fun ds => decimal ds < 2 ^ 31) dss ->
  64 <= f <= 126 -> f <> 91 ->
  fold_left (fun t b => putch E b t) (27 :: 91 :: param_bytes dss ++ [f]) s
  = putch_gotargs E f
      (set_m_state ESgotargs
         (set_m_utf_code f
            (set_m_ques false (set_m_csi_args (map decimal dss) s)))).
Proof.
  intros Hst Hmode Hmore Hshift Hne Hdig Hlt Hf H91.
  cbn [fold_left]. rewrite putch_ESC_bracket by done.
  pose proof (param_bytes_range dss Hdig) as Hrange.
  assert (Hentry : fold_left (fun t b => putch E b t) (param_bytes dss ++ [f])
                     (set_m_state EScsi (set_m_utf_code 91 s))
                   = fold_left (fun t b => putch E b t) (param_bytes dss ++ [f])
                       (collecting 91 [0] s)).
  { destruct (param_bytes dss) as [|b bs] eqn:Hbs.
    - cbn [app fold_left]. by rewrite putch_csi_entry by (done || lia).
    - apply Forall_cons in Hrange as [Hb _].
      cbn [app fold_left]. by rewrite putch_csi_entry by (done || lia). }
  rewrite Hentry, fold_left_app, putch_collecting_run by done.
  cbn [fold_left].
  rewrite putch_collecting_final by (done || lia).
  pose proof (collect_params dss [] Hne Hdig Hlt) as Hargs.
  cbn [app] in Hargs. rewrite Hargs. reflexivity.
Qed.

(** X24: ESC [ followed by decimal parameters separated by semicolons
    and a final byte from 0x40 to 0x7E other than [ dispatches that
    final byte with the list of the values of the parameters, an empty
    parameter counting as 0 (UTF-8 mode, nothing pending, no single shift
    pending, values below 2^31).  Apart from the list, the last byte seen
    and the question mark flag the engine is as before. *)
Theorem csi_parameters_parsed (E : Extern) (dss : list (list Z)) (f : Z)
    (s : vt220) :
  m_state s = ESnormal -> m_utf_mode s = true -> m_utf_more s = 0 ->
  m_shift s < 0 ->
  dss <> [] ->
  Forall (Forall (fun d => 0 <= d <= 9)) dss ->
  Forall (fun ds => decimal ds < 2 ^ 31) dss ->
  64 <= f <= 126 -> f <> 91 ->
  fold_left (fun t b => putch E b t) (27 :: 91 :: param_bytes dss ++ [f]) s
  = putch_gotargs E f
      (set_m_state ESgotargs
         (set_m_utf_code f
            (set_m_ques false (set_m_csi_args (map decimal dss) s)))).
Proof. apply csi_sequence. Qed.

Lemma csi_parameters_parsed_witness :
  fold_left (fun t b => putch sample_extern b t)
    (27 :: 91 :: param_bytes [[1; 2]; []; [7]] ++ [72]) region_state
  = putch_gotargs sample_extern 72
      (set_m_state ESgotargs
         (set_m_utf_code 72
            (set_m_ques false
               (set_m_csi_args (map decimal [[1; 2]; []; [7]])
                  region_state)))).
Proof.
  apply (csi_parameters_parsed sample_extern [[1; 2]; []; [7]] 72
           region_state).
  - reflexivity.
  - reflexivity.
  - reflexivity.
  - cbn. lia.
  - discriminate.
  - repeat constructor; lia.
  - repeat constructor; cbn; lia.
  - lia.
  - lia.
Defined.

(** X25: the bytes ESC [ row ; column H put the cursor on column
    [column - 1] and row [row - 1] (the row counted from the top margin in
    origin mode), both clamped as [vt_CUP] clamps them, so that the
    parameter 0 means the same as 1; the screen is untouched and the
    machine is back in [ESnormal]. *)
Theorem csi_H_positions_cursor (E : Extern) (rs cs : list Z) (s : vt220) :
  m_state s = ESnormal -> m_utf_mode s = true -> m_utf_more s = 0 ->
  m_shift s < 0 -> 1 <= m_width s ->
  Forall (fun d => 0 <= d <= 9) rs -> Forall (fun d => 0 <= d <= 9) cs ->
  decimal rs < 2 ^ 31 -> decimal cs < 2 ^ 31 ->
  let s' := fold_left (fun t b => putch E b t)
              (27 :: 91 :: param_bytes [rs; cs] ++ [72]) s in
  cx s' = clamp_column s (decimal cs - 1)
  /\ cnewx s' = clamp_column s (decimal cs - 1)
  /\ cy s' = clamp_row s (if m_decom s
                          then int_wrap (m_top s + (decimal rs - 1))
                          else decimal rs - 1)
  /\ m_screen s' = m_screen s /\ m_state s' = ESnormal.
Proof.
  intros Hst Hmode Hmore Hshift Hw Hrs Hcs Hr Hc s'. unfold s'.
  pose proof (decimal_from_ge rs 0 ltac:(lia) Hrs) as Hr0.
  pose proof (decimal_from_ge cs 0 ltac:(lia) Hcs) as Hc0.
  fold (decimal rs) in Hr0. fold (decimal cs) in Hc0.
  rewrite csi_sequence; try done; try lia.
  2: { by repeat constructor. }
  2: { by repeat constructor. }
  cbn [map].
  unfold putch_gotargs. cbv zeta.
  change (match 72 with 104 => _ | 108 => _ | _ => ?x end) with x.
  cbv beta iota.
  set (t := set_m_state ESnormal _).
  change (m_ques t) with false. cbv iota.
  unfold csi_dispatch.
  change (csi_count t) with 2.
  rewrite !(decide_False (P := 2 < 1)) by lia.
  rewrite !(decide_False (P := 2 < 2)) by lia.
  cbv zeta.
  change (csi_arg t 1) with (decimal cs). change (csi_arg t 0) with (decimal rs).
  rewrite !int_wrap_id by lia.
  unfold vt_CUA.
  change (m_decom t) with (m_decom s). change (m_top t) with (m_top s).
  match goal with |- context [vt_CUP ?x ?y t] =>
    destruct (vt_CUP_spec x y t) as (_ & Hcx & Hcy & Hnx & Hscr & _);
      [exact Hw|];
    destruct (vt_CUP_nf x y t) as [b Hnf]
  end.
  rewrite Hcx, Hcy, Hnx, Hscr. rewrite Hnf. done.
Qed.

Lemma csi_H_positions_cursor_witness :
  let s' := fold_left (fun t b => putch sample_extern b t)
              (27 :: 91 :: param_bytes [[3]; [0]] ++ [72]) region_state in
  cx s' = clamp_column region_state (decimal [0] - 1)
  /\ cnewx s' = clamp_column region_state (decimal [0] - 1)
  /\ cy s' = clamp_row region_state
               (if m_decom region_state
                then int_wrap (m_top region_state + (decimal [3] - 1))
                else decimal [3] - 1)
  /\ m_screen s' = m_screen region_state /\ m_state s' = ESnormal.
Proof.
  apply (csi_H_positions_cursor sample_extern [3] [0] region_state).
  - reflexivity.
  - reflexivity.
  - reflexivity.
  - cbn. lia.
  - cbn. lia.
  - repeat constructor; lia.
  - repeat constructor; lia.
  - cbn. lia.
  - cbn. lia.
Defined.

(** ** Which bytes are carried out as controls *)

Lemma utf8_lead_some ch :
  192 <= ch <= 253 ->
  exists more payload min,
    utf8_lead ch = Some (more, payload, min) /\ 1 <= more /\ 0 <= payload <= 31.
Proof.
  intros Hch. unfold utf8_lead.
  repeat case_decide; try lia; do 3 eexists; (split; [done|]); lia.
Qed.

(** What the decoder makes of a byte from 0x80 on: the sequence goes on,
    or there is a character for the screen. *)
Lemma decode_utf8_high E l s :
  128 <= l_ch l <= 255 ->
  (m_utf_more s > 0 -> 0 <= m_utf_code s < 2 ^ 25) -> 0 <= m_utf_more s ->
  ~ (0 <= UC_INVALID E < 2 ^ 31) -> UC_REPLACE E <> UC_INVALID E ->
  let r := decode_utf8 E l s in
  l_ch r.1 = l_ch l /\ l_ch2 r.1 = l_ch2 l
  /\ (m_utf_more r.2 > 0 /\ m_utf_code r.2 <> UC_INVALID E
      \/ m_utf_more r.2 = 0 /\ l_tc r.1 <> UC_INVALID E).
Proof.
  intros Hch Hcode Hmore0 Hinv Hrep. cbv zeta.
  assert (Hb : 0 <= l_ch l <= 255) by lia.
  destruct (byte_masks _ Hb) as (M1 & M2 & _).
  destruct (byte_payload _ Hb) as (P1 & _).
  destruct (decide (m_utf_more s > 0)) as [Hmore|Hmore].
  - specialize (Hcode Hmore).
    destruct (decide (128 <= l_ch l <= 191)) as [Hcont|Hcont].
    + unfold decode_utf8. cbv zeta.
      rewrite (decide_True (P := Z.land (l_ch l) 128 <> 0)) by lia.
      rewrite (decide_True (P := m_utf_more s > 0)) by done.
      rewrite (decide_True (P := Z.land (l_ch l) 192 = 128)) by tauto.
      cbn [m_utf_more m_utf_code set_m_utf_more set_m_utf_code].
      rewrite P1 by tauto.
      rewrite Z.shiftl_mul_pow2, Z.mod_small by lia.
      rewrite <- Z.shiftl_mul_pow2 by lia.
      rewrite lor_shiftl_6 by lia.
      destruct (decide (m_utf_more s - 1 = 0)) as [Hlast|Hlast].
      * cbn [fst snd l_ch l_ch2 l_tc m_utf_more m_utf_code m_utf_code_min
             set_m_utf_more set_m_utf_code].
        split; [done|]. split; [done|]. right. split; [done|].
        case_decide; [done|lia].
      * cbn [fst snd l_ch l_ch2 l_tc m_utf_more m_utf_code m_utf_code_min
             set_m_utf_more set_m_utf_code].
        split; [done|]. split; [done|]. left. lia.
    + rewrite decode_utf8_broken by lia.
      cbn [fst snd l_ch l_ch2 l_tc m_utf_more set_m_utf_more].
      split; [done|]. split; [done|]. by right.
  - assert (Hm : m_utf_more s = 0) by lia.
    destruct (decide (l_ch l <= 191)) as [H1|H1].
    { rewrite decode_utf8_stray by lia.
      cbn [fst snd l_ch l_ch2 l_tc m_utf_more set_m_utf_more set_m_utf_code].
      split; [done|]. split; [done|]. by right. }
    destruct (decide (l_ch l <= 253)) as [H2|H2].
    { destruct (utf8_lead_some (l_ch l)) as (more & payload & min & Hl & ? & ?);
        [lia|].
      rewrite (decode_utf8_lead E l s more payload min) by done.
      unfold pending.
      cbn [fst snd l_ch l_ch2 l_tc m_utf_more m_utf_code set_m_utf_more
           set_m_utf_code set_m_utf_code_min].
      split; [done|]. split; [done|]. left. lia. }
    rewrite decode_utf8_invalid_lead by lia.
    cbn [fst snd l_ch l_ch2 l_tc m_utf_more set_m_utf_more set_m_utf_code].
    split; [done|]. split; [done|]. by right.
Qed.

Lemma decode_utf8_bytes E l s :
  l_ch (decode_utf8 E l s).1 = l_ch l
  /\ (l_ch2 (decode_utf8 E l s).1 = l_ch2 l
      \/ l_ch2 (decode_utf8 E l s).1 = l_ch l).
Proof.
  unfold decode_utf8. cbv zeta.
  repeat case_decide; cbn [fst snd l_ch l_ch2]; auto.
Qed.

(** In UTF-8 mode the byte that the head of [putch] hands on is the byte
    it was given. *)
Lemma putch_front_broke_byte E (k : nat) : forall l s c s',
  m_utf_mode s = true -> l_ch2 l = 0 ->
  putch_front E k l s = Some (Broke c s') -> c = l_ch l.
Proof.
  induction k as [|k IH]; intros l s c s' Hmode Hch2; [done|].
  rewrite putch_front_step, Hmode.
  pose proof (decode_utf8_bytes E l s) as [Hch Hc2].
  pose proof (decoder_only_decode_utf8 E l s) as Hd.
  destruct (decode_utf8 E l s) as [l1 s1]. cbn [fst snd] in *.
  cbv beta iota zeta.
  destruct (bool_decide _); [done|].
  destruct (negb _ || negb _); [intros [= <- _]; done|].
  destruct (decide _) as [|Hne]; [done|].
  intros Hr. apply IH in Hr; [| |done].
  - cbn [l_ch] in Hr. rewrite Hr. destruct Hc2 as [Hc2|Hc2]; congruence.
  - destruct (decoder_only_rest _ _ Hd) as (_ & _ & _ & _ & Hm & _).
    match goal with |- m_utf_mode (put_glyph E ?tc s1) = _ =>
      destruct (screen_only_rest _ _ (screen_only_put_glyph E tc s1))
        as (_ & _ & _ & _ & -> & _)
    end.
    congruence.
Qed.

(** In UTF-8 mode a byte from 0x80 on is never handed on in [ESnormal]. *)
Lemma putch_front_high E (k : nat) l s :
  m_utf_mode s = true -> m_state s = ESnormal ->
  128 <= l_ch l <= 255 -> l_ch2 l = 0 ->
  (m_utf_more s > 0 -> 0 <= m_utf_code s < 2 ^ 25) -> 0 <= m_utf_more s ->
  ~ (0 <= UC_INVALID E < 2 ^ 31) -> UC_REPLACE E <> UC_INVALID E ->
  exists s', putch_front E (S k) l s = Some (Returned s').
Proof.
  intros Hmode Hst Hch Hch2 Hcode Hmore Hinv Hrep.
  rewrite putch_front_step, Hmode.
  pose proof (decode_utf8_high E l s Hch Hcode Hmore Hinv Hrep)
    as (Hl & Hl2 & Hcase).
  pose proof (decoder_only_decode_utf8 E l s) as Hd.
  destruct (decode_utf8 E l s) as [l1 s1]. cbn [fst snd] in *.
  cbv beta iota zeta.
  destruct (decoder_only_rest _ _ Hd) as (Hs1 & _ & _ & _ & Hm1 & _).
  destruct Hcase as [[Hp1 Hp2] | [Hp1 Hp2]].
  - rewrite bool_decide_eq_true_2 by done. eauto.
  - rewrite bool_decide_eq_false_2 by lia.
    destruct l1 as [c1 t1 c2]. cbn [l_ch l_tc l_ch2] in *.
    rewrite have_glyph_high by (congruence || lia).
    rewrite Hs1, Hst, (bool_decide_eq_true_2 (ESnormal = ESnormal)) by done.
    cbn [negb orb andb]. rewrite decide_True by congruence. eauto.
Qed.

Lemma byte_meta ch :
  0 <= ch <= 255 ->
  0 <= uchar (Z.land ch 127) <= 127
  /\ 128 <= uchar (Z.lor ch 128) <= 255.
Proof.
  intros Hch.
  pose proof (byte_forall
    (fun ch => bool_decide
       (0 <= uchar (Z.land ch 127) <= 127
        /\ 128 <= uchar (Z.lor ch 128) <= 255)) eq_refl ch Hch) as H.
  by apply bool_decide_eq_true_1 in H.
Qed.

(** X26: which bytes [putch] carries out as controls in [ESnormal].  The
    byte handed to the switch on the controls is below 0x80, with one
    exception: CSI (0x9B) in 8-bit mode with the meta bit forced on.  So
    the cases of the 8-bit controls IND, NEL, HTS, RI, SS2, SS3, DCS,
    SOS, ST, OSC, PM and APC are never reached: in UTF-8 mode a byte from
    0x80 on belongs to the decoder; in 8-bit mode a byte is cut to 7 bits
    or, with the meta bit forced on, is printed unless it is CSI.  The
    character map is taken to give [UC_INVALID] for no byte. *)
Theorem high_bytes_are_not_controls (E : Extern) (ch c : Z) (s : vt220) :
  m_state s = ESnormal -> 0 <= ch <= 255 ->
  (m_utf_more s > 0 -> 0 <= m_utf_code s < 2 ^ 25) -> 0 <= m_utf_more s ->
  ~ (0 <= UC_INVALID E < 2 ^ 31) -> UC_REPLACE E <> UC_INVALID E ->
  (forall b, 0 <= b <= 255 -> cmap_value (m_trans s) b <> UC_INVALID E) ->
  dispatched E ch s = Some c ->
  c < 128 \/ (c = CSI /\ m_utf_mode s = false /\ m_togmeta s = true).
Proof.
  intros Hst Hch Hcode Hmore Hinv Hrep Htrans. unfold dispatched.
  destruct (m_utf_mode s) eqn:Hmode.
  - destruct (decide (ch < 128)) as [Hlow|Hhigh].
    + destruct (putch_front E 2 _ s) as [[s'|c' s']|] eqn:Hfront; try done.
      intros [= <-]. left.
      apply putch_front_broke_byte in Hfront; [|done..].
      cbn [l_ch] in Hfront. lia.
    + destruct (putch_front_high E 1 (Build_locals ch (UC_INVALID E) 0) s)
        as [s' ->]; try done. cbn [l_ch]. lia.
  - rewrite putch_front_step, Hmode. unfold decode_byte.
    cbv beta iota zeta. cbn [l_ch l_tc l_ch2].
    destruct (byte_meta ch Hch) as [Hlo Hhi].
    pose proof (decoder_only_end_shift s) as Hd.
    destruct (decoder_only_rest _ _ Hd) as (Hs1 & _ & _ & _ & Hm1 & _ & _ & _
                                            & Hdsp & _).
    destruct (m_togmeta s) eqn:Hmeta.
    + set (b := uchar (Z.lor ch 128)) in *.
      destruct (decide (b = 155)) as [Hb|Hb].
      * destruct (negb _ || negb _); [|by rewrite decide_True].
        intros [= <-]. right. by rewrite Hb.
      * assert (Hhg : have_glyph E
                  (Build_locals b (cmap_value (m_trans s) b) 0) (end_shift s)
                = true).
        { unfold have_glyph. cbn [l_ch l_tc]. unfold DEL, CSI.
          rewrite (bool_decide_eq_true_2 (_ <> UC_INVALID E))
            by (apply Htrans; lia).
          rewrite (bool_decide_eq_true_2 (b >= 32)) by lia.
          rewrite (bool_decide_eq_true_2 (b <> 127)) by lia.
          rewrite (bool_decide_eq_true_2 (b <> 155)) by done. done. }
        rewrite Hhg, Hs1, Hst.
        rewrite (bool_decide_eq_true_2 (ESnormal = ESnormal)) by done.
        cbn [negb orb andb]. by rewrite decide_True.
    + destruct (negb _ || negb _); [|by rewrite decide_True].
      intros [= <-]. left. lia.
Qed.

Lemma high_bytes_are_not_controls_witness :
  155 < 128
  \/ (155 = CSI /\ m_utf_mode meta_state = false
      /\ m_togmeta meta_state = true).
Proof.
  apply (high_bytes_are_not_controls sample_extern 27 155 meta_state).
  - reflexivity.
  - lia.
  - cbn. lia.
  - cbn. lia.
  - cbn. lia.
  - cbn. lia.
  - intros b Hb. change (m_trans meta_state) with (∅ : cmapHash).
    unfold cmap_value. rewrite lookup_empty. cbn. lia.
  - reflexivity.
Defined.

(** ** Form feed *)



(** ** The cursor stays on the screen *)
























(** ** Strings *)

Lemma decoder_only_string s s' : decoder_only s s' -> m_string s' = m_string s.
Proof. intros (a & b & c & d & e & f & ->). done. Qed.

Lemma putch_string_frame ch s :
  m_screen (putch_string ch s) = m_screen s
  /\ m_cursor (putch_string ch s) = m_cursor s
  /\ m_backlog (putch_string ch s) = m_backlog s
  /\ (m_state (putch_string ch s) = m_state s
      \/ m_state (putch_string ch s) = ESnormal)
  /\ (m_string s = [] -> putch_string ch s = set_m_string [ch] s).
Proof.
  unfold putch_string. destruct (m_string s) as [|c cs] eqn:Hstr.
  - repeat split; auto.
  - repeat case_decide; repeat split; auto; done.
Qed.

(** X29: in [ESstring] no byte reaches the screen: screen, cursor and
    scrollback are as before, and the machine stays in [ESstring] or goes
    back to [ESnormal].  The first byte of a string never ends it, not
    even ST: it is stored as the first character. *)
Theorem string_bytes_are_not_printed (E : Extern) (ch : Z) (s : vt220) :
  m_state s = ESstring ->
  m_screen (putch E ch s) = m_screen s
  /\ m_cursor (putch E ch s) = m_cursor s
  /\ m_backlog (putch E ch s) = m_backlog s
  /\ (m_state (putch E ch s) = ESstring \/ m_state (putch E ch s) = ESnormal)
  /\ (m_string s = [] -> m_state (putch E ch s) = ESstring).
Proof.
  intros Hst. unfold putch.
  destruct (putch_front_escape E 2 (Build_locals ch (UC_INVALID E) 0) s)
    as (s' & Hd & [-> | [c ->]]); [congruence|lia|..];
    destruct (decoder_only_rest _ _ Hd)
      as (Hs & _ & _ & _ & _ & Hscr & Hcur & Hbl & _);
    pose proof (decoder_only_string _ _ Hd) as Hstr.
  - rewrite Hscr, Hcur, Hbl, Hs, Hst. repeat split; auto.
  - rewrite decide_False by congruence.
    unfold putch_state. rewrite Hs, Hst.
    destruct (putch_string_frame c s') as (H1 & H2 & H3 & H4 & H5).
    rewrite H1, H2, H3, Hscr, Hcur, Hbl.
    split; [done|]. split; [done|]. split; [done|]. split.
    + rewrite Hs, Hst in H4. exact H4.
    + intros Hempty. rewrite H5 by congruence.
      change (m_state (set_m_string [c] s')) with (m_state s'). congruence.
Qed.

Lemma string_bytes_are_not_printed_witness :
  m_screen (putch sample_extern 65 (vt_SOS region_state))
  = m_screen (vt_SOS region_state)
  /\ m_cursor (putch sample_extern 65 (vt_SOS region_state))
     = m_cursor (vt_SOS region_state)
  /\ m_backlog (putch sample_extern 65 (vt_SOS region_state))
     = m_backlog (vt_SOS region_state)
  /\ (m_state (putch sample_extern 65 (vt_SOS region_state)) = ESstring
      \/ m_state (putch sample_extern 65 (vt_SOS region_state)) = ESnormal)
  /\ (m_string (vt_SOS region_state) = [] ->
      m_state (putch sample_extern 65 (vt_SOS region_state)) = ESstring).
Proof.
  apply (string_bytes_are_not_printed sample_extern 65 (vt_SOS region_state)).
  reflexivity.
Defined.

(** ** Printable bytes *)

(** X30: in UTF-8 mode, in [ESnormal] with nothing pending and no single
    shift pending, a byte from 0x20 to 0x7E is put on the screen as the
    character its entry in the current character map gives (the byte
    itself when there is no entry), or as the replacement character when
    that is not printable; the machine stays in [ESnormal]. *)
Theorem printable_byte_is_put_on_screen (E : Extern) (ch : Z) (s : vt220) :
  m_state s = ESnormal -> m_utf_mode s = true -> m_utf_more s = 0 ->
  m_shift s < 0 -> 32 <= ch <= 126 ->
  cmap_value (m_trans s) ch <> UC_INVALID E ->
  putch E ch s
  = put_glyph E
      (if isPrint E (cmap_value (m_trans s) ch) then cmap_value (m_trans s) ch
       else UC_REPLACE E)
      (set_m_utf_code ch s)
  /\ m_state (putch E ch s) = ESnormal
  /\ m_utf_more (putch E ch s) = 0.
Proof.
  intros Hst Hmode Hmore Hshift Hch Htc.
  assert (Heq : putch E ch s
                = put_glyph E
                    (if isPrint E (cmap_value (m_trans s) ch)
                     then cmap_value (m_trans s) ch else UC_REPLACE E)
                    (set_m_utf_code ch s)).
  { unfold putch.
    rewrite putch_front_step, Hmode, decode_utf8_ascii by (done || cbn; lia).
    cbv beta iota. cbn [l_ch l_tc l_ch2].
    change (m_utf_more (set_m_utf_code ch s)) with (m_utf_more s).
    change (m_state (set_m_utf_code ch s)) with (m_state s).
    rewrite (bool_decide_eq_false_2 (_ /\ m_utf_more s > 0)) by lia.
    unfold have_glyph. cbn [l_ch l_tc l_ch2]. unfold DEL, CSI.
    rewrite (bool_decide_eq_true_2 (_ <> UC_INVALID E)) by done.
    rewrite (bool_decide_eq_true_2 (ch >= 32)) by lia.
    rewrite (bool_decide_eq_true_2 (ch <> 127)) by lia.
    rewrite (bool_decide_eq_true_2 (ch <> 155)) by lia.
    rewrite Hst, (bool_decide_eq_true_2 (ESnormal = ESnormal)) by done.
    cbn [negb orb andb]. rewrite decide_True by done.
    by destruct (isPrint E _). }
  rewrite Heq. split; [done|].
  match goal with |- context [put_glyph E ?tc ?t] =>
    destruct (screen_only_rest _ _ (screen_only_put_glyph E tc t))
      as (-> & _ & _ & _ & _ & -> & _)
  end.
  done.
Qed.

Lemma printable_byte_is_put_on_screen_witness :
  putch sample_extern 65 region_state
  = put_glyph sample_extern
      (if isPrint sample_extern (cmap_value (m_trans region_state) 65)
       then cmap_value (m_trans region_state) 65
       else UC_REPLACE sample_extern)
      (set_m_utf_code 65 region_state)
  /\ m_state (putch sample_extern 65 region_state) = ESnormal
  /\ m_utf_more (putch sample_extern 65 region_state) = 0.
Proof.
  apply (printable_byte_is_put_on_screen sample_extern 65 region_state).
  - reflexivity.
  - reflexivity.
  - reflexivity.
  - cbn. lia.
  - lia.
  - vm_compute. discriminate.
Defined.

